(* ===== verification/_CoqProject ===== *)
-Q . S2P
Prelude.v
Float64.v
JsEngine.v
JsValue.v
JsString.v
Json.v
Http.v
Carbon.v
CarbonPage.v
Results.v
Routes.v
ApiService.v
Session.v
Home.v
Chat.v
Upload.v
Forms.v
Maps.v
Dashboard.v
Navigation.v
