(* ===== verification/Prelude.v ===== *)
(** * BDI Assistant: a verification development

    This library models, in Rocq, the BDI Assistant web application (a
    Next.js/TypeScript front end under [src/]) and proves the properties
    that make its parts correct, together with the places where the code
    does not do what it means to or what its specification says.

    ** The program and how its parts interact

    The application is a set of React pages ([src/app/*/page.tsx]).  The
    home page, the chat, the business, investment and upload pages call the
    client [src/lib/api-service.ts] (class [APIService]); in the browser the
    client posts to the Next.js route handlers [src/app/api/*/route.ts],
    which forward the request to one external service behind an ngrok
    tunnel (and, for the weather, to OpenWeatherMap) and answer with JSON.
    The carbon tracker computes locally; the results page reads what is
    stored in [sessionStorage].  The pages move between one another with
    the router ([router.push], [router.back]); the error page
    [src/app/error/page.tsx] is where the home and results pages send the
    user when a request or a stored result fails, and the root layout
    [src/app/layout.tsx] wraps every page.

    ** Files, in dependency order, and what they model

    - [Prelude] (this file): the [bdi_scope] notations ([in_s], the
      exception bind [let?]), the [bdi] and [bdi_rw] hint databases, the
      tactics [case_string_eqb] and [destruct_ifs], and the generic lemmas on
      strings, association lists and maps that may throw ([map_option]).
    - [Float64]: JavaScript numbers are IEEE-754 binary64 values, modelled by
      the kernel's primitive floats, so every operation rounds as in
      JavaScript and definitions compute under [vm_compute].  The file
      proves from [FloatAxioms]/[SpecFloat] the exact identities used later
      (commutativity of [*], sign rules of [*] and [/], [y - x = +-(x - y)],
      NaN propagation, products of non-negative values).
    - [JsEngine]: what ECMA-262 leaves to the host ([Math.sin], [Math.cos],
      [Math.atan2], number/string conversions, [parseFloat]) as the class
      [JsEngine]; [JsEngineLaws] states the exact special cases and the
      fdlibm symmetries the theorems use; [ref_engine] satisfies them and
      computes the witnesses.
    - [JsValue]: JavaScript values [jsval], ToBoolean and [||], property
      reads through the prototypes of the built-in objects ([None] is the
      TypeError of [undefined.k]), [?.], [typeof], [Object.values] (index
      keys first), ToString, ToNumber, [toFixed] (exact), [Math.round]
      and [Math.floor] (exact), [split], [trim], [includes],
      [toLowerCase] on ASCII, and
      [encodeURIComponent] with its inverse.
    - [JsString]: [includes] decides the substring relation, and
      lower-casing a string does not change whether it contains a pattern
      without ASCII bytes.
    - [Json]: [JSON.parse]/[JSON.stringify] as the class [Json] with the law
      that a JSON value reads back as itself; [ref_json] satisfies it.
    - [Http]: requests, responses, and programs that call [fetch] as the
      tree [Http] (return, throw, or one request and a continuation), with
      [bind], [catch] and [run_http] against a network.
    - [Carbon] (module [CarbonTracker]): [calculateDistance] and
      [calculateCarbonFootprint] of [carbon-tracker/page.tsx] lines 50-110,
      with the emission and green-point tables read through [||].
    - [CarbonPage]: the carbon page as a state machine: its five states, one
      [step] per handler (selects, coordinate fields, mode buttons, the
      calculate button and its one-second delay), the result cards' texts.
    - [Results]: the results page: mount effect, [normalize], the list
      coercion, and every render section with React's rendering of values.
    - [Routes]: the six route handlers as [Http] programs.
    - [ApiService]: the client's methods as [Http] programs, and [link],
      which serves the browser's [/api] requests by the route handlers.
    - [Session]: a page whose submit button starts a request, as sessions
      of edits, enabled clicks and answers in any order
      ([session_reachable]), with the generic invariant that at most one
      request is in flight.
    - [Home]: the home page's [handleSubmit] (request by mode and keywords,
      chat fallback, error navigation), its other controls, its sessions,
      and its results section.
    - [Chat]: the chat page's conversation as an inductive [reachable].
    - [Upload]: the upload page's handlers (selection with its validation,
      drag and drop, upload, reset) as an inductive [reachable] whose rules
      carry the conditions under which each control is shown, and its
      result section.
    - [Forms]: the business analysis and investment pages, each a form whose
      handler posts one request, its controls and setters, sessions of
      edits, clicks and answers, and their shared result section.
    - [Maps]: the traffic map page: the mount effect with the closures of
      the first render, the Google map as the page drives it (markers, info
      windows, bounce, centring), the traffic updates with [Math.random] as
      a generator, and the weather fetch.
    - [Dashboard]: the dashboard's flags and timeouts as an inductive
      [reachable], the metrics drawn with [Math.random] as a generator, and
      the sales and performance cards.
    - [Navigation]: the composition of the pages: the routes of
      [src/app], the session history ([push], [back]), the buttons of every
      page ([home_nav], [results_links], the error page [ErrorPage] with its
      [handleRetry], ...), the session storage, page mounts with the results
      page's redirects, the home page's navigation to [/error], the root
      layout ([metadata], [RootLayout]), and the application [App] with one
      [app_step] per user event and the inductive [reachable].

    ** What the theorems show (claims C1-C38 of the manifest)

    - Carbon (C1-C7): the distance is symmetric bit for bit on every engine
      satisfying the laws; the footprint, green points and advice refine
      the specification's tables for every button except walking, which is
      charged at the driving rate ([0.0 || 0.21]); inherited
      [Object.prototype] names break the footprint; the footprint is never
      negative.  Also: unknown modes fall back to driving
      ([unknown_mode_defaults]) and walking is advised exactly under the
      thresholds ([walking_suggested_iff]).
    - Carbon page (C8-C9): the green points shown are table values in
      every reachable state, and the result is computed from the inputs of
      the click while the route line shows the current ones.  Also:
      coordinates are never NaN ([coordinates_never_nan]); the coordinate
      text of the presets reads back ([coord_text_roundtrip]).
    - Results (C10-C15): that the text fields and a lone [recommendation]
      never reach the screen; which list wins; the crashes on [null] items
      and non-string analysis; the stray ["0"].  Also: the mount outcome
      ([on_mount_result_iff]), when normalisation throws
      ([normalize_throws_iff]), lists given as objects
      ([object_recommendations_values]), every list shown twice
      ([recommendations_listed_twice]), the map link round trip
      ([maps_search_link_roundtrip]).
    - Navigation (C16-C20): with nothing stored, the results page is never
      on screen in any session; after the results page's redirect to
      [/error], the retry button leaves the application unchanged, forever;
      after a failed home search, the retry returns to a fresh home page
      with the search lost; every button leads to a page of the app and
      none to [/results]; arrival with redirects terminates after one
      round.
    - Routes and client (C21-C25): the requests a proxy sends (exactly one
      when the body is JSON, none otherwise); every proxy answer is a JSON
      response that [JSON.parse] reads back; the chat route's 500 on text;
      that the routes' error bodies never reach a page; [lat || 18.8022]
      on 0.  Also: route and client are transparent on success
      ([browser_client_reads_upstream]); the status is 200 iff the service
      succeeded ([proxy_status_200_iff]), the text fallback is readable
      ([proxy_text_answer_readable]), the weather route's default location
      and fallback ([weather_default_location],
      [weather_missing_main_fallback]).
    - Home and chat (C26-C28, C37): the home results section throws on a
      list of recommendations, end to end from the service's answer
      ([home_view_crashes_on_list] for the section alone); the
      entrepreneur routing test is the presence of one of its five Thai
      keywords, the lower-casing making no difference (through
      [JsString.includes_iff]); the chat conversation alternates in every
      reachable state; the chat page throws, end to end, when the service
      answers an object under [response].  Also: blank messages send
      nothing ([blank_message_sends_nothing]); the chat fallback answers a
      failed search ([failed_search_shows_chat_answer]); the routing of the
      first request ([entrepreneur_request_routing]).
    - Upload (C29-C30): every reachable selection has at most five images of
      at most 10 MB; the result section throws on an analysis object
      without images.
    - Business and investment forms (C31-C33): the place field is ignored
      unless it is a ["lat,lon"] pair, the province never sent, and the
      investment page always sends the Nimman coordinates; in every session
      of these two pages and of the home page at most one request is in
      flight, the loading flag up exactly while one is, because the button
      is disabled.  Also: a failing service shows the error box
      ([business_failure_shows_error]).
    - Maps (C34): the map never shows a hotspot marker, because the
      effect's closures read the first render's empty [trafficData].
      Also: the counters add up to the six hotspots listed
      ([maps_stats_add_up]); the weather fetch never throws
      ([fetchWeatherData_total]).
    - Dashboard (C35-C36, C38): the full-page spinner is never stuck; the
      sales bar agrees with the target text but is drawn up to 110% wide;
      the customer figures [random_metrics] draws contradict each other
      (total against new plus returning, the 35% segment against its
      count).

    ** Bounds and fuel

    [trim] removes at least one byte per round and gets [length s] rounds
    of fuel, one per byte.  The reference printer of integers uses 400
    digits of fuel, more than the 309 decimal digits of a binary64 value.
    The reference JSON reader gets the length of its text as fuel; each
    call reads at least one character, so it is enough (proved by
    [RefJson.parse_enc]).  The dashboard's sales theorem is stated for the
    value [k] of [Math.floor(Math.random() * 10000)], [k < 10000], and
    checked for each [k] by evaluation; that [k] is in that range for every
    [r] in [[0, 1)] is the monotonicity of binary64 rounding, which is not
    proved here.  The customer theorem is stated the same way: for any
    generator and seed, given that the floors [Math.floor(r * 20)] and
    [Math.floor(r' * 10)] of the third and fourth draws of [random_metrics]
    are naturals [k1 < 20] and [k2 < 10], checked for the 200 pairs by
    evaluation.
    Arrival at a history entry follows the redirects of the mount effects
    with fuel [redirect_fuel = 2]; a redirect goes to [/] or [/error],
    which do not redirect, so one round is enough
    ([Navigation.arrive_settles]).

    ** What is not modelled

    CSS, icons and markup beyond the texts and values shown; [console]
    logging; timestamps ([Date]) and scrolling; the object URLs of the
    upload previews; the Google Maps library's drawing and the map styles
    (the page's calls into it are modelled); [Intl.NumberFormat] (the dashboard's currency and number
    formatters, host code, are parameters of [dashboard_view]); the
    rounding of the host's [sin], [cos] and [atan2] (the theorems hold
    for every engine satisfying [JsEngineLaws]); the network, which is an
    input of [run_http]; the link of the browser's [GET /api/weather] to
    the weather route (both sides are modelled, separately); the
    [@font-face] rule of the layout.  In [Navigation] the pages other than
    home and results are carried by name: their own state is modelled in
    their files, and their buttons only navigate.  [router.back()] with no
    earlier entry in the tab is modelled as doing nothing; entries of other
    sites and the browser's forward button are not modelled. *)

From Stdlib Require Import Ascii String List Bool Lia NArith DecimalString.
Import ListNotations.

Declare Scope bdi_scope.
Delimit Scope bdi_scope with bdi.
Create HintDb bdi.
Create Rewrite HintDb bdi_rw.

(** ** Strings as keys *)

(** Membership of a string in a list of strings, as a boolean test. *)
Definition mem_string (x : string) (l : list string) : bool :=
  existsb (String.eqb x) l.

Notation "x 'in_s' l" := (mem_string x l) (at level 70, no associativity) : bdi_scope.

(** Lookup in a string-keyed association list: the first binding wins. *)
Fixpoint assoc_get {A : Type} (k : string) (l : list (string * A)) : option A :=
  match l with
  | [] => None
  | (k', v) :: r => if String.eqb k k' then Some v else assoc_get k r
  end.

Open Scope bdi_scope.

(** ** Computations that may throw

    [None] is a thrown exception (a TypeError in the pages); [let? x := m in
    k] runs [k] on the value of [m] and propagates the exception. *)
Notation "'let?' x ':=' m 'in' k" :=
  (match m with Some x => k | None => None end)
  (at level 10, x name, m at level 100, k at level 200) : bdi_scope.

(** [xs.map(f)] for an [f] that may throw: the first exception wins. *)
Fixpoint map_option {A B : Type} (f : A -> option B) (l : list A) : option (list B) :=
  match l with
  | [] => Some []
  | x :: r => let? y := f x in let? ys := map_option f r in Some (y :: ys)
  end.

(** [xs.map((x, index) => ...)], the index counted from [i]. *)
Fixpoint map_option_from {A B : Type} (f : nat -> A -> option B) (i : nat) (l : list A)
  : option (list B) :=
  match l with
  | [] => Some []
  | x :: r => let? y := f i x in let? ys := map_option_from f (S i) r in Some (y :: ys)
  end.

(** The decimal digits of a natural number, as JavaScript prints integers. *)
Definition N_to_decimal (n : N) : string := NilEmpty.string_of_uint (N.to_uint n).

(** [n] copies of the character ["0"]. *)
Fixpoint zeros (n : nat) : string :=
  match n with O => EmptyString | S k => String "0"%char (zeros k) end.

(** ** Tactics *)

(** Case analysis on every string comparison and boolean test of the goal. *)
Ltac case_string_eqb :=
  repeat match goal with
  | |- context [String.eqb ?a ?b] =>
      destruct (String.eqb_spec a b); subst; try discriminate; try congruence
  end.

Ltac destruct_ifs :=
  repeat match goal with
  | |- context [if ?b then _ else _] => destruct b eqn:?
  end.

(** ** Generic lemmas *)

Lemma mem_string_spec x l : mem_string x l = true <-> In x l.
Proof.
  unfold mem_string. rewrite existsb_exists. split.
  - intros [y [Hy Heq]]. apply String.eqb_eq in Heq. now subst.
  - intros H. exists x. split; [exact H | apply String.eqb_refl].
Qed.

Lemma mem_string_false x l : mem_string x l = false <-> ~ In x l.
Proof.
  rewrite <- mem_string_spec. destruct (mem_string x l); split; congruence.
Qed.

Lemma assoc_get_In {A : Type} k (l : list (string * A)) v :
  assoc_get k l = Some v -> In (k, v) l.
Proof.
  induction l as [|[k' v'] r IH]; simpl; [discriminate|].
  destruct (String.eqb_spec k k'); intros H; [inversion H; subst; now left|].
  right. now apply IH.
Qed.

Lemma assoc_get_None {A : Type} k (l : list (string * A)) :
  assoc_get k l = None <-> ~ In k (map fst l).
Proof.
  induction l as [|[k' v'] r IH]; simpl; [tauto|].
  destruct (String.eqb_spec k k'); subst.
  - split; [discriminate|]. intros H; exfalso; apply H; now left.
  - rewrite IH. split.
    + intros H [H'|H']; [congruence|tauto].
    + intros H H'. apply H. now right.
Qed.

Lemma map_option_length {A B : Type} (f : A -> option B) l ys :
  map_option f l = Some ys -> length ys = length l.
Proof.
  revert ys. induction l as [|x r IH]; simpl; intros ys H; [now inversion H|].
  destruct (f x); [|discriminate]. destruct (map_option f r) eqn:E; [|discriminate].
  inversion H; subst. simpl. now rewrite (IH _ eq_refl).
Qed.

Lemma map_option_from_length {A B : Type} (f : nat -> A -> option B) i l ys :
  map_option_from f i l = Some ys -> length ys = length l.
Proof.
  revert i ys. induction l as [|x r IH]; simpl; intros i ys H; [now inversion H|].
  destruct (f i x); [|discriminate]. destruct (map_option_from f (S i) r) eqn:E; [|discriminate].
  inversion H; subst. simpl. now rewrite (IH _ _ E).
Qed.

(** One element that throws makes the whole map throw. *)
Lemma map_option_None {A B : Type} (f : A -> option B) l x :
  In x l -> f x = None -> map_option f l = None.
Proof.
  induction l as [|y r IH]; simpl; [tauto|]. intros [<-|Hin] Hx.
  - now rewrite Hx.
  - destruct (f y); [|reflexivity]. now rewrite (IH Hin Hx).
Qed.

Lemma map_option_from_None {A B : Type} (f : nat -> A -> option B) l x :
  In x l -> (forall i, f i x = None) -> forall i, map_option_from f i l = None.
Proof.
  induction l as [|y r IH]; simpl; [tauto|]. intros [<-|Hin] Hx i.
  - now rewrite Hx.
  - destruct (f i y); [|reflexivity]. now rewrite (IH Hin Hx).
Qed.

Lemma string_app_assoc (a b c : string) : ((a ++ b) ++ c = a ++ (b ++ c))%string.
Proof. induction a as [|x a IH]; simpl; [reflexivity|]. now rewrite IH. Qed.

Lemma string_app_nil_r (a : string) : (a ++ "")%string = a.
Proof. induction a as [|x a IH]; simpl; [reflexivity|]. now rewrite IH. Qed.

#[export] Hint Resolve assoc_get_In : bdi.
#[export] Hint Rewrite String.eqb_refl string_app_assoc : bdi_rw.
