(* ===== verification/Float64.v ===== *)
(** * Float64: JavaScript numbers as IEEE-754 binary64

    A JavaScript [number] is a binary64 value and every arithmetic operator
    rounds to nearest, ties to even.  The kernel's primitive floats have the
    same semantics, specified by [FloatAxioms] against [SpecFloat]; this file
    derives from that specification the exact identities the component
    theorems use.  None of them is approximate: they are equalities of
    floats, signed zeros and NaN included. *)

From Stdlib Require Import ZArith Bool Lia Floats.
From S2P Require Import Prelude.

Local Open Scope float_scope.

(** ** Identities of the specification ([spec_float]) *)

Section SpecFloatFacts.
Variables prec emax : Z.

(** Rounding does not look at the sign: rounding the opposite is the
    opposite of the rounding. *)
Lemma bra_opp s m e l :
  binary_round_aux prec emax (negb s) m e l = SFopp (binary_round_aux prec emax s m e l).
Proof.
  unfold binary_round_aux.
  destruct (shr_fexp prec emax m e l) as [r1 e1].
  destruct (shr_fexp prec emax _ e1 loc_Exact) as [r2 e2].
  destruct (shr_m r2) as [|p|p]; [reflexivity| |reflexivity].
  destruct (Z.leb e2 (emax - prec)); reflexivity.
Qed.

Lemma br_opp s m e :
  binary_round prec emax (negb s) m e = SFopp (binary_round prec emax s m e).
Proof. unfold binary_round. destruct (shl_align _ _ _). apply bra_opp. Qed.

Lemma SFmul_comm x y : SFmul prec emax x y = SFmul prec emax y x.
Proof.
  destruct x as [sx|sx| |sx mx ex], y as [sy|sy| |sy my ey]; simpl;
    rewrite ?(xorb_comm sx sy); try reflexivity.
  now rewrite Pos.mul_comm, Z.add_comm.
Qed.

Lemma SFmul_opp_l x y : SFmul prec emax (SFopp x) y = SFopp (SFmul prec emax x y).
Proof.
  destruct x as [sx|sx| |sx mx ex], y as [sy|sy| |sy my ey]; simpl;
    rewrite <- ?negb_xorb_l, ?bra_opp; reflexivity.
Qed.

Lemma SFdiv_opp_l x y : SFdiv prec emax (SFopp x) y = SFopp (SFdiv prec emax x y).
Proof.
  destruct x as [sx|sx| |sx mx ex], y as [sy|sy| |sy my ey]; simpl;
    rewrite <- ?negb_xorb_l; try reflexivity.
  destruct (SFdiv_core_binary prec emax _ _ _ _) as [[mz ez] lz].
  apply bra_opp.
Qed.

Lemma SFopp_involutive x : SFopp (SFopp x) = x.
Proof. destruct x; simpl; rewrite ?negb_involutive; reflexivity. Qed.

Lemma bn_opp m e :
  binary_normalize prec emax (Z.opp m) e false = binary_normalize prec emax m e false
  \/ binary_normalize prec emax (Z.opp m) e false = SFopp (binary_normalize prec emax m e false).
Proof.
  destruct m as [|p|p]; simpl; [left; reflexivity| right | right].
  - exact (br_opp false p e).
  - rewrite <- (br_opp true p e). reflexivity.
Qed.

Lemma SFsub_finite sx mx ex sy my ey :
  SFsub prec emax (S754_finite sx mx ex) (S754_finite sy my ey) =
  binary_normalize prec emax
    (Z.sub (cond_Zopp sx (Zpos (fst (shl_align mx ex (Z.min ex ey)))))
           (cond_Zopp sy (Zpos (fst (shl_align my ey (Z.min ex ey))))))
    (Z.min ex ey) false.
Proof. reflexivity. Qed.

(** Swapping the operands of a subtraction negates the result, except
    when the difference is a zero, which is [+0] both ways. *)
Lemma SFsub_swap x y :
  SFsub prec emax y x = SFsub prec emax x y \/
  SFsub prec emax y x = SFopp (SFsub prec emax x y).
Proof.
  destruct x as [sx|sx| |sx mx ex], y as [sy|sy| |sy my ey];
    try solve [try (destruct sx); try (destruct sy); simpl; auto].
  rewrite !SFsub_finite, (Z.min_comm ey ex).
  match goal with |- context [binary_normalize _ _ (Z.sub ?a ?b) ?e false = _] =>
    replace (Z.sub a b) with (Z.opp (Z.sub b a)) by lia end.
  apply bn_opp.
Qed.
End SpecFloatFacts.

(** ** The same identities on primitive floats *)

(** Two floats are equal when their specifications are. *)
Ltac float_ext :=
  apply Prim2SF_inj;
  repeat first [ rewrite mul_spec | rewrite div_spec | rewrite sub_spec
               | rewrite add_spec | rewrite opp_spec ].

Lemma fmul_comm (x y : float) : x * y = y * x.
Proof. float_ext. apply SFmul_comm. Qed.

Lemma fmul_opp_l (x y : float) : (- x) * y = - (x * y).
Proof. float_ext. apply SFmul_opp_l. Qed.

Lemma fmul_opp_r (x y : float) : x * (- y) = - (x * y).
Proof. rewrite fmul_comm, fmul_opp_l, fmul_comm. reflexivity. Qed.

Lemma fopp_involutive (x : float) : - (- x) = x.
Proof. float_ext. apply SFopp_involutive. Qed.

Lemma fmul_opp_opp (x y : float) : (- x) * (- y) = x * y.
Proof. rewrite fmul_opp_l, fmul_opp_r, fopp_involutive. reflexivity. Qed.

Lemma fdiv_opp_l (x y : float) : (- x) / y = - (x / y).
Proof. float_ext. apply SFdiv_opp_l. Qed.

Lemma fsub_swap (x y : float) : y - x = x - y \/ y - x = - (x - y).
Proof.
  destruct (SFsub_swap FloatOps.prec FloatOps.emax (Prim2SF x) (Prim2SF y)) as [H|H];
    [left|right]; float_ext; exact H.
Qed.

#[export] Hint Rewrite fmul_opp_l fmul_opp_r fopp_involutive fdiv_opp_l : bdi_rw.

(** ** NaN *)

Lemma Prim2SF_nan : Prim2SF nan = S754_nan.
Proof. reflexivity. Qed.

Lemma fmul_nan_l (x : float) : nan * x = nan.
Proof. float_ext. rewrite Prim2SF_nan. reflexivity. Qed.

Lemma fmul_nan_r (x : float) : x * nan = nan.
Proof. rewrite fmul_comm. apply fmul_nan_l. Qed.

Lemma fltb_nan_l (x : float) : (nan <? x) = false.
Proof. rewrite ltb_spec, Prim2SF_nan. reflexivity. Qed.

#[export] Hint Rewrite fmul_nan_l fmul_nan_r fltb_nan_l : bdi_rw.

Lemma SFeqb_refl_not_nan f : f <> S754_nan -> SFeqb f f = true.
Proof.
  destruct f as [s|s| |s m e]; intros H; try destruct s; try reflexivity; try congruence;
  unfold SFeqb; simpl; rewrite Z.compare_refl, Pos.compare_cont_refl; reflexivity.
Qed.

(** A value that compares greater than something is not NaN. *)
Lemma fltb_true_not_nan (x y : float) : (x <? y) = true -> is_nan y = false.
Proof.
  unfold is_nan. rewrite ltb_spec, FloatAxioms.eqb_spec.
  destruct (Prim2SF y) eqn:E; intros H;
    [| | destruct (Prim2SF x); discriminate |];
    rewrite SFeqb_refl_not_nan; try reflexivity; discriminate.
Qed.

(** ** Signs of products *)

Lemma bra_not_neg prec emax m e l :
  SFltb (binary_round_aux prec emax false m e l) (S754_zero false) = false.
Proof.
  unfold binary_round_aux.
  destruct (shr_fexp prec emax m e l) as [r1 e1].
  destruct (shr_fexp prec emax _ e1 loc_Exact) as [r2 e2].
  destruct (shr_m r2) as [|p|p]; [reflexivity| |reflexivity].
  destruct (Z.leb e2 (emax - prec)); reflexivity.
Qed.

(** A product of two values that are not negative is not negative (it may
    be NaN, [+0] or [-0]). *)
Lemma fmul_not_neg (x y : float) :
  (x <? zero) = false -> (y <? zero) = false -> (x * y <? zero) = false.
Proof.
  rewrite !ltb_spec, mul_spec. change (Prim2SF zero) with (S754_zero false).
  destruct (Prim2SF x) as [sx|sx| |sx mx ex], (Prim2SF y) as [sy|sy| |sy my ey];
    try destruct sx; try destruct sy; try reflexivity; try discriminate.
  intros _ _. apply bra_not_neg.
Qed.
