(* ===== verification/JsEngine.v ===== *)
(** * JsEngine: what ECMA-262 leaves to the JavaScript host

    [Math.sin], [Math.cos] and [Math.atan2] return "implementation-
    approximated" values; the standard fixes only their special cases.
    Number-to-string conversion, string-to-number conversion and
    [Number.parseFloat] are fully specified but their rounding algorithms are
    long.  The code of [src/] only calls them, so the development takes them
    as the operations of the class [JsEngine], and states in [JsEngineLaws]
    what the theorems rely on:
    - the exact special cases of ECMA-262 §21.3.2 ([sin(+0) = +0], NaN in,
      NaN out, [atan2(+0, x) = +0] for [x > 0]);
    - that [sin] is odd and [cos] even, bit for bit, as in fdlibm, which the
      engines derive their [Math] functions from.

    [ref_engine] is an instance built from float polynomials (accurate on
    [[-pi/2, pi/2]], the range of every argument of the carbon calculator
    for coordinates in range) with a decimal reader and printer; it satisfies
    the laws, and it is the engine the witnesses compute with. *)

From Stdlib Require Import Ascii String ZArith Bool Floats List.
From S2P Require Import Prelude Float64.
Import ListNotations.

Local Open Scope float_scope.
#[local] Set Warnings "-inexact-float".

Class JsEngine := {
  math_sin : float -> float;
  math_cos : float -> float;
  math_atan2 : float -> float -> float;
  number_to_string : float -> string;
  string_to_number : string -> float;
  parse_float : string -> float
}.

(** [Math.PI]: the binary64 value nearest to pi. *)
Definition math_PI : float := 3.141592653589793.

Class JsEngineLaws `{JsEngine} := {
  sin_odd : forall x, math_sin (- x) = - math_sin x;
  sin_zero : math_sin zero = zero;
  sin_nan : math_sin nan = nan;
  cos_even : forall x, math_cos (- x) = math_cos x;
  cos_nan : math_cos nan = nan;
  atan2_zero_l : forall x, (zero <? x) = true -> math_atan2 zero x = zero;
  atan2_nan_l : forall x, math_atan2 nan x = nan;
  atan2_nan_r : forall y, math_atan2 y nan = nan
}.

(** ** Facts on signs used by the instance *)

Lemma pos_not_zero_sign (x : float) :
  (zero <? x) = true -> is_zero x = false /\ get_sign x = false.
Proof.
  unfold get_sign, is_zero. rewrite ltb_spec, FloatAxioms.eqb_spec. intros H.
  change (Prim2SF zero) with (S754_zero false) in *.
  destruct (Prim2SF x) as [s|s| |s m e] eqn:E; try destruct s; simpl in *;
    try discriminate; split; try reflexivity; rewrite ltb_spec, E; reflexivity.
Qed.

(** ** The reference engine *)

Module RefEngine.

(** [x * P(x*x)] is odd and [Q(x*x)] even whatever [P] and [Q] are. *)
Definition sin_poly (t : float) : float :=
  1 + t * (-1/6 + t * (1/120 + t * (-1/5040 + t * (1/362880
    + t * (-1/39916800 + t * (1/6227020800 + t * (-1/1307674368000))))))).

Definition cos_poly (t : float) : float :=
  1 + t * (-1/2 + t * (1/24 + t * (-1/720 + t * (1/40320
    + t * (-1/3628800 + t * (1/479001600 + t * (-1/87178291200))))))).

Definition sin (x : float) : float := x * sin_poly (x * x).
Definition cos (x : float) : float := cos_poly (x * x).

(** arctangent of a value of [[0, 1]] after two half-angle reductions
    [atan t = 2 atan (t / (1 + sqrt (1 + t*t)))]. *)
Definition atan_small (t : float) : float :=
  let half u := u / (1 + PrimFloat.sqrt (1 + u * u)) in
  let u := half (half t) in
  let u2 := u * u in
  4 * (u * (1 + u2 * (-1/3 + u2 * (1/5 + u2 * (-1/7 + u2 * (1/9
    + u2 * (-1/11 + u2 * (1/13 + u2 * (-1/15))))))))).

Definition atan (t : float) : float :=
  let a := PrimFloat.abs t in
  let r := if a <=? 1 then atan_small a else math_PI / 2 - atan_small (1 / a) in
  if t <? 0 then - r else r.

(** The case analysis of ECMA-262 §21.3.2.8 [Math.atan2 (y, x)]. *)
Definition atan2 (y x : float) : float :=
  if is_nan y || is_nan x then nan
  else if is_zero y then (if get_sign x then (if get_sign y then - math_PI else math_PI) else y)
  else if is_infinity y then
    (let r := if is_infinity x then (if x <? 0 then 3 * math_PI / 4 else math_PI / 4)
              else math_PI / 2 in
     if y <? 0 then - r else r)
  else if is_zero x then (if y <? 0 then - (math_PI / 2) else math_PI / 2)
  else if is_infinity x then
    (if x <? 0 then (if y <? 0 then - math_PI else math_PI)
     else (if y <? 0 then - zero else zero))
  else
    let t := atan (y / x) in
    if 0 <? x then t else if 0 <? y then t + math_PI else t - math_PI.

(** A decimal reader: optional blanks, a sign, digits with an optional
    point.  The digits are read as one integer [n] and the value is
    [n / 10^k], one correctly rounded division, so inputs of at most 15
    significant digits are read exactly as JavaScript reads them. *)
Definition is_blank (c : ascii) : bool :=
  match c with " "%char | "009"%char | "010"%char | "013"%char => true | _ => false end.

Fixpoint skip_blanks (s : string) : string :=
  match s with
  | String c r => if is_blank c then skip_blanks r else s
  | EmptyString => s
  end.

Definition digit (c : ascii) : option float :=
  let n := nat_of_ascii c in
  if (48 <=? n)%nat && (n <=? 57)%nat then Some (of_uint63 (Uint63.of_nat (n - 48))) else None.

(** [digits s n k seen_point any]: the integer read so far [n], the
    number of decimals [k]; returns the value, whether a digit was read,
    and the rest of the string. *)
Fixpoint read_digits (s : string) (n k : float) (point any : bool) : float * float * bool * string :=
  match s with
  | String c r =>
      match digit c with
      | Some d => read_digits r (n * 10 + d) (if point then k * 10 else k) point true
      | None => if (c =? ".")%char && negb point then read_digits r n k true any
                else (n, k, any, s)
      end
  | EmptyString => (n, k, any, s)
  end.

(** The longest decimal prefix: value, whether one was found, the rest. *)
Definition read_decimal (s : string) : float * bool * string :=
  let '(neg, s1) := match s with
                    | String "-"%char r => (true, r)
                    | String "+"%char r => (false, r)
                    | _ => (false, s) end in
  let '(n, k, any, rest) := read_digits s1 0 1 false false in
  let v := n / k in
  ((if neg then - v else v), any, rest).

Definition parse_float (s : string) : float :=
  let '(v, any, _) := read_decimal (skip_blanks s) in if any then v else nan.

Definition string_to_number (s : string) : float :=
  match skip_blanks s with
  | EmptyString => 0
  | s' => let '(v, any, rest) := read_decimal s' in
          if any && String.eqb (skip_blanks rest) "" then v else nan
  end.

(** The printer writes integers below [2^53] exactly as JavaScript does
    and other finite values as their integer part and six decimals. *)
Definition float_trunc_Z (f : float) : Z :=
  match Prim2SF f with
  | S754_finite s m e =>
      let a := if (0 <=? e)%Z then Z.shiftl (Zpos m) e else Z.shiftr (Zpos m) (- e) in
      if s then Z.opp a else a
  | _ => 0%Z
  end.

Fixpoint digits_of_pos_nat (fuel : nat) (n : Z) (acc : string) : string :=
  match fuel with
  | O => acc
  | S f => let q := Z.div n 10 in
           let d := ascii_of_nat (48 + Z.to_nat (Z.modulo n 10)) in
           if (q =? 0)%Z then String d acc else digits_of_pos_nat f q (String d acc)
  end.

Definition Z_to_string (z : Z) : string :=
  if (z <? 0)%Z then String "-" (digits_of_pos_nat 400 (Z.opp z) "")
  else digits_of_pos_nat 400 z "".

Definition number_to_string (f : float) : string :=
  if is_nan f then "NaN"%string
  else if is_infinity f then (if f <? 0 then "-Infinity"%string else "Infinity"%string)
  else let z := float_trunc_Z f in
       if PrimFloat.eqb (of_uint63 (Uint63.of_Z (Z.abs z))) (PrimFloat.abs f) then Z_to_string z
       else let frac := float_trunc_Z (PrimFloat.abs (f - of_uint63 (Uint63.of_Z z) * (if (z <? 0)%Z then -1 else 1)) * 1000000) in
            (Z_to_string z ++ "." ++ Z_to_string frac)%string.

End RefEngine.

#[export] Instance ref_engine : JsEngine := {
  math_sin := RefEngine.sin;
  math_cos := RefEngine.cos;
  math_atan2 := RefEngine.atan2;
  number_to_string := RefEngine.number_to_string;
  string_to_number := RefEngine.string_to_number;
  parse_float := RefEngine.parse_float
}.

#[export] Instance ref_engine_laws : JsEngineLaws.
Proof.
  split; cbn [math_sin math_cos math_atan2 ref_engine].
  - intros x. unfold RefEngine.sin. rewrite fmul_opp_opp, fmul_opp_l. reflexivity.
  - vm_compute. reflexivity.
  - unfold RefEngine.sin. rewrite fmul_nan_l. reflexivity.
  - intros x. unfold RefEngine.cos. rewrite fmul_opp_opp. reflexivity.
  - vm_compute. reflexivity.
  - intros x Hx. destruct (pos_not_zero_sign x Hx) as [_ Hs].
    unfold RefEngine.atan2. rewrite (fltb_true_not_nan _ _ Hx), Hs. reflexivity.
  - intros x. reflexivity.
  - intros y. unfold RefEngine.atan2. rewrite orb_true_r. reflexivity.
Qed.
