(* ===== verification/JsValue.v ===== *)
(** * JsValue: the JavaScript values the code manipulates

    The pages of [src/app] treat the service's answers as untyped JavaScript
    values and decide with [||], optional chaining [?.], [Array.isArray],
    [typeof] and [Object.values] which of them to show.  This file models
    those values and operators after ECMA-262:
    - [jsval]: undefined, null, booleans, numbers (binary64), strings,
      arrays, plain objects (their own properties in creation order) and
      function objects (by name);
    - [truthy] is ToBoolean and [js_or a b] is [a || b];
    - [js_get v k] is [v[k]]: the own properties, then the built-in
      prototype of the value and [Object.prototype]; [None] is the
      TypeError thrown for [undefined] and [null];
    - [js_opt_get v k] is [v?.k];
    - [to_number] is ToNumber and [to_string] ToString, with the host's
      conversions of [JsEngine];
    - [object_values] is [Object.values], which lists array-index keys first
      in increasing order and then the other keys in creation order.
    A function's own [length] is not modelled: no code of [src/] reads it. *)

From Stdlib Require Import Ascii String ZArith Bool Floats List Lia.
From S2P Require Import Prelude Float64 JsEngine.
Import ListNotations.

#[warnings="-register-all"]
Inductive jsval : Type :=
| JUndefined
| JNull
| JBool (b : bool)
| JNum (n : float)
| JStr (s : string)
| JArr (xs : list jsval)
| JObj (props : list (string * jsval))
| JFun (name : string).

Declare Scope js_scope.
Delimit Scope js_scope with js.

(** ** ToBoolean and [||] *)

Definition truthy (v : jsval) : bool :=
  match v with
  | JUndefined | JNull => false
  | JBool b => b
  | JNum n => negb (is_nan n || PrimFloat.eqb n PrimFloat.zero)
  | JStr s => negb (String.eqb s "")
  | JArr _ | JObj _ | JFun _ => true
  end.

Definition js_or (a b : jsval) : jsval := if truthy a then a else b.

Notation "a || b" := (js_or a b) (at level 50, left associativity) : js_scope.

Definition nullish (v : jsval) : bool :=
  match v with JUndefined | JNull => true | _ => false end.

(** ** The built-in prototypes (ECMA-262, 2023 edition, with Annex B) *)

Definition object_proto_keys : list string :=
  ["constructor"; "hasOwnProperty"; "isPrototypeOf"; "propertyIsEnumerable";
   "toLocaleString"; "toString"; "valueOf"; "__defineGetter__";
   "__defineSetter__"; "__lookupGetter__"; "__lookupSetter__"]%string.

Definition array_proto_keys : list string :=
  ["at"; "concat"; "copyWithin"; "entries"; "every"; "fill"; "filter"; "find";
   "findIndex"; "findLast"; "findLastIndex"; "flat"; "flatMap"; "forEach";
   "includes"; "indexOf"; "join"; "keys"; "lastIndexOf"; "map"; "pop"; "push";
   "reduce"; "reduceRight"; "reverse"; "shift"; "slice"; "some"; "sort";
   "splice"; "toReversed"; "toSorted"; "toSpliced"; "unshift"; "values";
   "with"]%string.

Definition string_proto_keys : list string :=
  ["at"; "charAt"; "charCodeAt"; "codePointAt"; "concat"; "endsWith";
   "includes"; "indexOf"; "isWellFormed"; "lastIndexOf"; "localeCompare";
   "match"; "matchAll"; "normalize"; "padEnd"; "padStart"; "repeat"; "replace";
   "replaceAll"; "search"; "slice"; "split"; "startsWith"; "substring";
   "toLocaleLowerCase"; "toLocaleUpperCase"; "toLowerCase"; "toUpperCase";
   "toWellFormed"; "trim"; "trimEnd"; "trimStart"; "substr"; "anchor"; "big";
   "blink"; "bold"; "fixed"; "fontcolor"; "fontsize"; "italics"; "link";
   "small"; "strike"; "sub"; "sup"; "trimLeft"; "trimRight"]%string.

Definition number_proto_keys : list string :=
  ["toExponential"; "toFixed"; "toPrecision"]%string.

Definition function_proto_keys : list string :=
  ["apply"; "bind"; "call"]%string.

(** A lookup that reaches [Object.prototype]: its methods, and the
    [__proto__] accessor, which returns [Object.prototype] itself (an object
    with no own enumerable property). *)
Definition object_proto_get (k : string) : jsval :=
  if k in_s object_proto_keys then JFun k
  else if String.eqb k "__proto__" then JObj []
  else JUndefined.

Definition proto_get (keys : list string) (k : string) : jsval :=
  if k in_s keys then JFun k else object_proto_get k.

(** ** Array indices *)

Fixpoint digits_value (s : string) (acc : nat) : option nat :=
  match s with
  | EmptyString => Some acc
  | String c r =>
      let n := nat_of_ascii c in
      if (48 <=? n) && (n <=? 57) then digits_value r (acc * 10 + (n - 48)) else None
  end.

(** A canonical array index: digits, no leading zero unless it is ["0"]. *)
Definition array_index (k : string) : option nat :=
  match k with
  | EmptyString => None
  | String "0"%char EmptyString => Some 0
  | String "0"%char _ => None
  | _ => digits_value k 0
  end.

Definition float_of_nat (n : nat) : float := of_uint63 (Uint63.of_nat n).

(** ** Property access *)

Definition js_get (v : jsval) (k : string) : option jsval :=
  match v with
  | JUndefined | JNull => None
  | JObj ps => Some (match assoc_get k ps with Some x => x | None => object_proto_get k end)
  | JArr xs =>
      Some (if String.eqb k "length" then JNum (float_of_nat (length xs))
            else match array_index k with
                 | Some i => nth i xs JUndefined
                 | None => proto_get array_proto_keys k
                 end)
  | JStr s =>
      Some (if String.eqb k "length" then JNum (float_of_nat (String.length s))
            else match array_index k with
                 | Some i => match String.get i s with
                             | Some c => JStr (String c EmptyString)
                             | None => JUndefined
                             end
                 | None => proto_get string_proto_keys k
                 end)
  | JNum _ => Some (proto_get number_proto_keys k)
  | JBool _ => Some (object_proto_get k)
  | JFun name => Some (if String.eqb k "name" then JStr name else proto_get function_proto_keys k)
  end.

(** [v?.k]: [undefined] when [v] is nullish. *)
Definition js_opt_get (v : jsval) (k : string) : option jsval :=
  if nullish v then Some JUndefined else js_get v k.

(** ** [Array.isArray], [typeof], [Object.values] *)

Definition is_array (v : jsval) : bool :=
  match v with JArr _ => true | _ => false end.

Definition typeof (v : jsval) : string :=
  match v with
  | JUndefined => "undefined"
  | JNull => "object"
  | JBool _ => "boolean"
  | JNum _ => "number"
  | JStr _ => "string"
  | JArr _ | JObj _ => "object"
  | JFun _ => "function"
  end%string.

Fixpoint insert_index {A : Type} (i : nat) (x : A) (l : list (nat * A)) : list (nat * A) :=
  match l with
  | [] => [(i, x)]
  | (j, y) :: r => if i <? j then (i, x) :: l else (j, y) :: insert_index i x r
  end.

(** The own property keys in the order of OrdinaryOwnPropertyKeys: array
    indices ascending, then the other strings in creation order. *)
Definition ordered_props (ps : list (string * jsval)) : list (string * jsval) :=
  let idx := fold_left (fun acc '(k, v) =>
                match array_index k with Some i => insert_index i (k, v) acc | None => acc end)
               ps [] in
  map snd idx ++ filter (fun '(k, _) => match array_index k with Some _ => false | None => true end) ps.

Fixpoint string_chars (s : string) : list jsval :=
  match s with
  | EmptyString => []
  | String c r => JStr (String c EmptyString) :: string_chars r
  end.

Definition object_values (v : jsval) : option (list jsval) :=
  match v with
  | JUndefined | JNull => None
  | JObj ps => Some (map snd (ordered_props ps))
  | JArr xs => Some xs
  | JStr s => Some (string_chars s)
  | JNum _ | JBool _ | JFun _ => Some []
  end.

(** [v?.k] on a value: optional chaining never throws (see
    [js_opt_get_some]). *)
Definition opt_chain (v : jsval) (k : string) : jsval :=
  match js_opt_get v k with Some x => x | None => JUndefined end.

(** ** String built-ins *)

(** [s.split(sep)] for a one-character separator. *)
Fixpoint split_on (sep : ascii) (s : string) : list string :=
  match s with
  | EmptyString => [EmptyString]
  | String c r =>
      if Ascii.eqb c sep then EmptyString :: split_on sep r
      else match split_on sep r with
           | [] => [String c EmptyString]
           | w :: ws => String c w :: ws
           end
  end.

Definition of_bytes (l : list nat) : string :=
  fold_right (fun b acc => String (ascii_of_nat b) acc) EmptyString l.

(** The white space [String.prototype.trim] removes (WhiteSpace and
    LineTerminator of ECMA-262 §12.2-12.3: tab, LF, VT, FF, CR, space,
    U+00A0, U+FEFF, U+1680, U+2000-U+200A, U+2028, U+2029, U+202F, U+205F,
    U+3000), as UTF-8 byte sequences. *)
Definition white_space : list string :=
  map of_bytes
    ([[9]; [10]; [11]; [12]; [13]; [32]; [194; 160]; [239; 187; 191]; [225; 154; 128];
      [226; 128; 168]; [226; 128; 169]; [226; 128; 175]; [226; 129; 159]; [227; 128; 128]]
     ++ map (fun k => [226; 128; 128 + k]) (seq 0 11)).

Fixpoint trim_start_fuel (fuel : nat) (s : string) : string :=
  match fuel with
  | O => s
  | S f =>
      match find (fun w => String.prefix w s && negb (String.eqb w "")) white_space with
      | Some w => trim_start_fuel f (substring (String.length w) (String.length s) s)
      | None => s
      end
  end.

Definition ends_with (w s : string) : bool :=
  (String.length w <=? String.length s) &&
  String.eqb (substring (String.length s - String.length w) (String.length w) s) w.

Fixpoint trim_end_fuel (fuel : nat) (s : string) : string :=
  match fuel with
  | O => s
  | S f =>
      match find (fun w => ends_with w s && negb (String.eqb w "")) white_space with
      | Some w => trim_end_fuel f (substring 0 (String.length s - String.length w) s)
      | None => s
      end
  end.

(** Each round removes at least one byte, so [length s] rounds suffice. *)
Definition trim (s : string) : string :=
  trim_end_fuel (String.length s) (trim_start_fuel (String.length s) s).

(** [s.includes(sub)]. *)
Fixpoint includes (s sub : string) : bool :=
  String.prefix sub s || match s with EmptyString => false | String _ r => includes r sub end.

(** [s.toLowerCase()] on the ASCII letters.  The code only tests the
    result with [includes] against Thai words, whose UTF-8 bytes no case
    mapping produces or removes, so the other letters are kept as they are. *)
Definition to_lower (s : string) : string :=
  let fix go (s : string) : string :=
    match s with
    | EmptyString => EmptyString
    | String c r =>
        let n := nat_of_ascii c in
        String (if (65 <=? n) && (n <=? 90) then ascii_of_nat (n + 32) else c) (go r)
    end in go s.

(** [encodeURIComponent] (ECMA-262 §19.2.6.5) on the UTF-8 bytes of a
    string: the unreserved marks stay, every other byte becomes [%XX] with
    upper-case hexadecimal digits.  For a JavaScript string without lone
    surrogates this is the encoding of its UTF-8 form, byte for byte. *)
Definition uri_unreserved (c : ascii) : bool :=
  let n := nat_of_ascii c in
  ((65 <=? n) && (n <=? 90)) || ((97 <=? n) && (n <=? 122)) || ((48 <=? n) && (n <=? 57))
  || existsb (Nat.eqb n) [45; 95; 46; 33; 126; 42; 39; 40; 41].

Definition hex_digit (n : nat) : ascii := ascii_of_nat (if n <? 10 then 48 + n else 55 + n).

Definition encode_char (c : ascii) : string :=
  if uri_unreserved c then String c EmptyString
  else let n := nat_of_ascii c in
       String "%" (String (hex_digit (n / 16)) (String (hex_digit (n mod 16)) EmptyString)).

Fixpoint encodeURIComponent (s : string) : string :=
  match s with
  | EmptyString => EmptyString
  | String c r => encode_char c ++ encodeURIComponent r
  end.

(** [decodeURIComponent] on bytes, the inverse the theorems compare with. *)
Definition hex_value (c : ascii) : option nat :=
  let n := nat_of_ascii c in
  if (48 <=? n) && (n <=? 57) then Some (n - 48)
  else if (65 <=? n) && (n <=? 70) then Some (n - 55)
  else if (97 <=? n) && (n <=? 102) then Some (n - 87)
  else None.

Fixpoint decodeURIComponent (s : string) : option string :=
  match s with
  | EmptyString => Some EmptyString
  | String "%" (String h (String l r)) =>
      match hex_value h, hex_value l with
      | Some a, Some b => let? t := decodeURIComponent r in Some (String (ascii_of_nat (16 * a + b)) t)
      | _, _ => None
      end
  | String "%" _ => None
  | String c r => let? t := decodeURIComponent r in Some (String c t)
  end.

(** [Math.round] (ECMA-262 §21.3.2.28): the integer closest to [x], ties
    towards +infinity, [-0] for [x] in [[-0.5, -0]].  A finite float with a
    negative exponent is [m / 2^k] with [m < 2^53], so the rounding is
    computed exactly on integers and the result is exactly representable. *)
Definition math_round (x : float) : float :=
  match Prim2SF x with
  | S754_finite s m e =>
      if (0 <=? e)%Z then x
      else
        let d := (2 ^ (- e))%Z in
        let n := if s then Z.div (d - 2 * Zpos m) (2 * d) else Z.div (2 * Zpos m + d) (2 * d) in
        if (n =? 0)%Z then (if s then (- PrimFloat.zero)%float else PrimFloat.zero)
        else let a := of_uint63 (Uint63.of_Z (Z.abs n)) in if (n <? 0)%Z then (- a)%float else a
  | _ => x
  end.

(** [Math.floor] (ECMA-262 §21.3.2.16): the greatest integer at most [x],
    computed exactly like [math_round]; a negative non-integer gives at
    most [-1], so [-0] is only returned for [-0] itself. *)
Definition math_floor (x : float) : float :=
  match Prim2SF x with
  | S754_finite s m e =>
      if (0 <=? e)%Z then x
      else
        let n := Z.div (if s then Z.opp (Zpos m) else Zpos m) (2 ^ (- e))%Z in
        let a := of_uint63 (Uint63.of_Z (Z.abs n)) in if (n <? 0)%Z then (- a)%float else a
  | _ => x
  end.

(** ** ToString and ToNumber *)

Section Conversions.
Context `{JsEngine}.

(** [Array.prototype.join(",")] writes nullish elements as the empty string. *)
Fixpoint to_string (v : jsval) : string :=
  match v with
  | JUndefined => "undefined"
  | JNull => "null"
  | JBool b => if b then "true" else "false"
  | JNum n => number_to_string n
  | JStr s => s
  | JArr xs =>
      (fix join (l : list jsval) : string :=
         match l with
         | [] => ""
         | [x] => if nullish x then "" else to_string x
         | x :: r => (if nullish x then "" else to_string x) ++ "," ++ join r
         end) xs
  | JObj _ => "[object Object]"
  | JFun name => "function " ++ name ++ "() { [native code] }"
  end%string.

(** Objects and functions convert through their string form, which is not
    numeric; arrays through [join]. *)
Definition to_number (v : jsval) : float :=
  match v with
  | JUndefined => nan
  | JNull => PrimFloat.zero
  | JBool b => if b then PrimFloat.one else PrimFloat.zero
  | JNum n => n
  | JStr s => string_to_number s
  | JArr _ => string_to_number (to_string v)
  | JObj _ | JFun _ => nan
  end.
(** [Number.prototype.toFixed(f)] (ECMA-262 §21.1.3.3) for [f <= 100]:
    the integer [n] closest to [x * 10^f], the larger one on a tie, written
    with [f] decimals.  The value of a finite float is exactly [m * 2^e], so
    [n] is computed exactly on integers. *)
Definition scaled_round (x : float) (f : nat) : N :=
  match Prim2SF x with
  | S754_finite _ m e =>
      let num := (Zpos m * 10 ^ Z.of_nat f)%Z in
      if (0 <=? e)%Z then Z.to_N (num * 2 ^ e)
      else let den := (2 ^ (- e))%Z in Z.to_N ((2 * num + den) / (2 * den))
  | _ => 0%N
  end.

Definition insert_point (m : string) (f : nat) : string :=
  match f with
  | O => m
  | _ => let m' := if Nat.leb (String.length m) f
                   then String.append (zeros (f + 1 - String.length m)) m else m in
         let k := String.length m' in
         String.append (substring 0 (k - f) m')
                       (String.append "." (substring (k - f) f m'))
  end.

Definition to_fixed (x : float) (f : nat) : string :=
  if is_nan x || is_infinity x then number_to_string x
  else
    let sign := if PrimFloat.ltb x PrimFloat.zero then "-"%string else ""%string in
    let a := PrimFloat.abs x in
    if PrimFloat.leb 1e21 a then (sign ++ number_to_string a)%string
    else (sign ++ insert_point (N_to_decimal (scaled_round a f)) f)%string.
End Conversions.

(** ** Lemmas *)

Lemma js_or_truthy a b : truthy a = true -> js_or a b = a.
Proof. unfold js_or. now intros ->. Qed.

Lemma js_or_falsy a b : truthy a = false -> js_or a b = b.
Proof. unfold js_or. now intros ->. Qed.

Lemma js_or_assoc a b c : js_or (js_or a b) c = js_or a (js_or b c).
Proof. unfold js_or. destruct (truthy a) eqn:Ea; rewrite ?Ea; reflexivity. Qed.

(** [a || b] is truthy exactly when one of them is. *)
Lemma truthy_js_or a b : truthy (js_or a b) = truthy a || truthy b.
Proof. unfold js_or. destruct (truthy a) eqn:E; [rewrite E|]; reflexivity. Qed.

Lemma js_get_obj_own ps k x :
  assoc_get k ps = Some x -> js_get (JObj ps) k = Some x.
Proof. simpl. now intros ->. Qed.

(** A key that is neither own nor inherited reads as [undefined]. *)
Lemma js_get_obj_absent ps k :
  assoc_get k ps = None -> ~ In k object_proto_keys -> k <> "__proto__"%string ->
  js_get (JObj ps) k = Some JUndefined.
Proof.
  intros Hg Hk Hp. cbn [js_get]. rewrite Hg. unfold object_proto_get.
  apply mem_string_false in Hk. rewrite Hk.
  destruct (String.eqb_spec k "__proto__"); [contradiction | reflexivity].
Qed.

Lemma js_opt_get_nullish v k : nullish v = true -> js_opt_get v k = Some JUndefined.
Proof. unfold js_opt_get. now intros ->. Qed.

(** Optional chaining never throws. *)
Lemma js_opt_get_some v k : js_opt_get v k = Some (opt_chain v k).
Proof. unfold opt_chain, js_opt_get. destruct v; reflexivity. Qed.

(** A property read throws exactly on [undefined] and [null]. *)
Lemma js_get_some v k : nullish v = false -> js_get v k = Some (opt_chain v k).
Proof. unfold opt_chain, js_opt_get. intros Hn. rewrite Hn. destruct v; simpl in *; congruence. Qed.

Lemma js_get_None v k : nullish v = true -> js_get v k = None.
Proof. destruct v; simpl; congruence. Qed.

(** Decoding undoes the encoding of one byte, whatever follows. *)
Lemma decode_encode_char c t :
  decodeURIComponent (encode_char c ++ t) = option_map (String c) (decodeURIComponent t).
Proof.
  destruct c as [[] [] [] [] [] [] [] []];
    vm_compute encode_char; cbn -[decodeURIComponent];
    cbn [decodeURIComponent]; try reflexivity;
    destruct (decodeURIComponent t); reflexivity.
Qed.

(** Induction on values that looks inside arrays and objects. *)
Section JsvalInd.
Variable P : jsval -> Prop.
Hypothesis HU : P JUndefined.
Hypothesis HN : P JNull.
Hypothesis HB : forall b, P (JBool b).
Hypothesis HNum : forall n, P (JNum n).
Hypothesis HS : forall s, P (JStr s).
Hypothesis HA : forall xs, Forall P xs -> P (JArr xs).
Hypothesis HO : forall ps, Forall (fun kv => P (snd kv)) ps -> P (JObj ps).
Hypothesis HF : forall n, P (JFun n).

Fixpoint jsval_ind' (v : jsval) : P v :=
  match v with
  | JUndefined => HU
  | JNull => HN
  | JBool b => HB b
  | JNum n => HNum n
  | JStr s => HS s
  | JArr xs => HA xs ((fix go (l : list jsval) : Forall P l :=
                        match l with
                        | [] => Forall_nil _
                        | x :: r => Forall_cons _ (jsval_ind' x) (go r)
                        end) xs)
  | JObj ps => HO ps ((fix go (l : list (string * jsval)) : Forall (fun kv => P (snd kv)) l :=
                        match l with
                        | [] => Forall_nil _
                        | (k, x) :: r => Forall_cons (P := fun kv => P (snd kv)) (k, x) (jsval_ind' x) (go r)
                        end) ps)
  | JFun n => HF n
  end.
End JsvalInd.

(** [decodeURIComponent (encodeURIComponent s) = s]. *)
Lemma decode_encode s : decodeURIComponent (encodeURIComponent s) = Some s.
Proof.
  induction s as [|c r IH]; [reflexivity|].
  cbn [encodeURIComponent]. rewrite decode_encode_char, IH. reflexivity.
Qed.

#[export] Hint Resolve js_or_truthy js_or_falsy js_get_obj_own : bdi.
#[export] Hint Rewrite js_or_assoc truthy_js_or : bdi_rw.
