(* ===== verification/JsString.v ===== *)
(** * JsString: [includes] as the substring relation

    [JsValue.includes] tests every suffix of the string for the pattern as
    a prefix.  [includes_iff] shows that it decides the relation
    [exists u v, s = u ++ sub ++ v], the meaning of
    [String.prototype.includes] (ECMA-262 §22.1.3.8); the pages use it
    through their keyword tests ([Home.isNewBusiness]). *)

From Stdlib Require Import Ascii String List Bool Arith Lia.
From S2P Require Import Prelude JsValue.
Import ListNotations.

Local Open Scope string_scope.

Lemma prefix_app_iff w s : String.prefix w s = true <-> exists t, s = w ++ t.
Proof.
  revert s. induction w as [|c w IH]; intros s; split.
  - intros _. now exists s.
  - intros _. destruct s; reflexivity.
  - destruct s as [|d s]; cbn; [discriminate|].
    destruct (ascii_dec c d) as [<-|]; [|discriminate].
    intros H. destruct (proj1 (IH s) H) as [t ->]. now exists t.
  - intros [t ->]. cbn. destruct (ascii_dec c c) as [_|n]; [|contradiction].
    apply IH. now exists t.
Qed.

(** [s.includes(sub)] is true exactly when [s] is [u ++ sub ++ v] for
    some strings [u] and [v]. *)
Lemma includes_iff s sub : includes s sub = true <-> exists u v, s = u ++ sub ++ v.
Proof.
  induction s as [|c r IH]; cbn [includes]; split.
  - intros H. apply orb_prop in H as [H|H]; [|discriminate].
    destruct (proj1 (prefix_app_iff sub "") H) as [v E]. now exists "", v.
  - intros ([|d u] & v & E); [|discriminate]. cbn in E. apply orb_true_intro. left.
    apply prefix_app_iff. now exists v.
  - intros H. apply orb_prop in H as [H|H].
    + destruct (proj1 (prefix_app_iff sub (String c r)) H) as [v E]. now exists "", v.
    + destruct (proj1 IH H) as (u & v & ->). now exists (String c u), v.
  - intros ([|d u] & v & E); apply orb_true_intro.
    + left. apply prefix_app_iff. now exists v.
    + right. injection E as _ E. apply IH. now exists u, v.
Qed.

(** ** [toLowerCase] and patterns outside ASCII *)

Local Open Scope nat_scope.

(** Every byte of [k] is outside ASCII, as in the UTF-8 form of a Thai
    word. *)
Definition non_ascii (k : string) : bool :=
  forallb (fun c => (128 <=? nat_of_ascii c)%nat) (list_ascii_of_string k).

Definition lower_char (c : ascii) : ascii :=
  let n := nat_of_ascii c in if ((65 <=? n) && (n <=? 90))%nat then ascii_of_nat (n + 32) else c.

Lemma to_lower_cons c r : to_lower (String c r) = String (lower_char c) (to_lower r).
Proof. reflexivity. Qed.

(** A byte outside ASCII equals [lower_char d] exactly when it equals [d]. *)
Lemma lower_char_non_ascii c d : 128 <= nat_of_ascii c -> (c = lower_char d <-> c = d).
Proof.
  intros Hc. unfold lower_char.
  destruct ((65 <=? nat_of_ascii d) && (nat_of_ascii d <=? 90)) eqn:E; [|tauto].
  apply andb_prop in E as [E1 E2]. apply Nat.leb_le in E1, E2. split; intros ->.
  - rewrite nat_ascii_embedding in Hc by lia. lia.
  - lia.
Qed.

Lemma prefix_to_lower k s : non_ascii k = true -> String.prefix k (to_lower s) = String.prefix k s.
Proof.
  revert s. induction k as [|c k IH]; intros s Hk; [destruct s; reflexivity|].
  unfold non_ascii in Hk |- *. cbn [list_ascii_of_string forallb] in Hk.
  apply andb_prop in Hk as [Hc Hk]. apply Nat.leb_le in Hc.
  destruct s as [|d s]; [reflexivity|]. rewrite to_lower_cons. cbn.
  destruct (ascii_dec c (lower_char d)) as [E|E], (ascii_dec c d) as [F|F].
  - apply IH, Hk.
  - apply (lower_char_non_ascii c d Hc) in E. contradiction.
  - apply (lower_char_non_ascii c d Hc) in F. contradiction.
  - reflexivity.
Qed.

(** Lower-casing the string does not change whether it contains a pattern
    without ASCII bytes. *)
Lemma includes_to_lower s k : non_ascii k = true -> includes (to_lower s) k = includes s k.
Proof.
  intros Hk. induction s as [|c r IH]; [reflexivity|].
  rewrite to_lower_cons. cbn [includes]. rewrite <- to_lower_cons, prefix_to_lower by exact Hk.
  now rewrite IH.
Qed.

(** A disjunction of [includes] tests is the existence of an occurrence. *)
Lemma existsb_includes_iff s ks :
  existsb (includes s) ks = true <-> exists k u v, In k ks /\ s = u ++ k ++ v.
Proof.
  rewrite existsb_exists. split.
  - intros (k & Hk & Hi). apply includes_iff in Hi as (u & v & ->). now exists k, u, v.
  - intros (k & u & v & Hk & ->). exists k. split; [exact Hk|]. apply includes_iff. now exists u, v.
Qed.
