(* ===== verification/Json.v ===== *)
(** * Json: [JSON.parse] and [JSON.stringify]

    The route handlers parse the text of the upstream service with
    [JSON.parse] and answer with [NextResponse.json], which writes the value
    with [JSON.stringify]; the pages read it back with [response.json()].
    Both functions are the host's, so the development takes them as the
    class [Json], whose law [parse_stringify] is what the pipeline theorems
    use: a JSON value ([is_json]: no [undefined], no function, finite
    numbers other than [-0], distinct keys none of which is an array
    index) is read back as itself.  The two exclusions are where the host
    differs: [JSON.stringify(-0)] is ["0"], and an object lists its index
    keys first.

    [ref_json] is an instance for computing witnesses.  Its syntax is the
    JSON syntax of literals, strings, arrays and objects with every element
    followed by a comma, and an exact notation for numbers
    ([#] and the binary64 fields), so that it reads back every value. *)

From Stdlib Require Import Ascii String ZArith Bool Floats List Lia.
From S2P Require Import Prelude Float64 JsValue.
Import ListNotations.

Local Open Scope string_scope.

(** ** JSON values *)

Fixpoint nodup_keys {A : Type} (ps : list (string * A)) : bool :=
  match ps with
  | [] => true
  | (k, _) :: r => negb (mem_string k (map fst r)) && nodup_keys r
  end.

(** [-0], which [JSON.stringify] writes as [0]. *)
Definition is_neg_zero (n : float) : bool := PrimFloat.eqb n 0%float && PrimFloat.ltb (1 / n)%float 0%float.

(** An array index key (["0"], ["17"], ...), which JavaScript lists before
    the other keys of an object whatever the order they were added in. *)
Definition index_key (k : string) : bool :=
  match k with
  | EmptyString => false
  | String c r =>
      forallb (fun d => ((48 <=? nat_of_ascii d) && (nat_of_ascii d <=? 57))%nat)
              (list_ascii_of_string k)
      && (negb (Ascii.eqb c "0") || String.eqb r "")
  end.

(** The values [JSON.parse(JSON.stringify(v))] gives back as they are:
    no [undefined] or function, finite numbers other than [-0], objects
    with distinct keys none of which is an array index. *)
Fixpoint is_json (v : jsval) : bool :=
  match v with
  | JUndefined | JFun _ => false
  | JNull | JBool _ | JStr _ => true
  | JNum n => negb (is_nan n || is_infinity n || is_neg_zero n)
  | JArr xs => forallb is_json xs
  | JObj ps => forallb (fun kv => is_json (snd kv) && negb (index_key (fst kv))) ps && nodup_keys ps
  end.

Class Json := {
  json_parse : string -> option jsval;
  json_stringify : jsval -> string;
  (** the message of the SyntaxError [JSON.parse] throws on a text *)
  json_error : string -> string
}.

Class JsonLaws `{Json} := {
  parse_stringify : forall v, is_json v = true -> json_parse (json_stringify v) = Some v
}.

(** ** The reference serialisation *)

Module RefJson.

Fixpoint esc (s : string) : string :=
  match s with
  | EmptyString => String "034" EmptyString
  | String c r =>
      if (c =? "034")%char || (c =? "\")%char then String "\" (String c (esc r))
      else String c (esc r)
  end.

Definition enc_str (s : string) : string := String "034" (esc s).

Definition enc_bit (b : bool) : string := if b then "1" else "0".

Fixpoint enc_pos (p : positive) : string :=
  match p with
  | xI q => String "1" (enc_pos q)
  | xO q => String "0" (enc_pos q)
  | xH => "H"
  end.

Definition enc_Z (z : Z) : string :=
  match z with Z0 => "0" | Zpos p => String "+" (enc_pos p) | Zneg p => String "-" (enc_pos p) end.

Definition enc_sf (f : spec_float) : string :=
  match f with
  | S754_zero b => String "z" (enc_bit b)
  | S754_infinity b => String "i" (enc_bit b)
  | S754_nan => "N"
  | S754_finite b m e => String "F" (enc_bit b ++ enc_pos m ++ enc_Z e)
  end.

Fixpoint enc (v : jsval) : string :=
  match v with
  | JUndefined => "u"
  | JNull => "null"
  | JBool b => if b then "true" else "false"
  | JNum n => String "#" (enc_sf (Prim2SF n))
  | JStr s => enc_str s
  | JArr xs =>
      String "[" ((fix go (l : list jsval) : string :=
                     match l with [] => "]" | x :: r => enc x ++ String "," (go r) end) xs)
  | JObj ps =>
      String "{" ((fix go (l : list (string * jsval)) : string :=
                     match l with
                     | [] => "}"
                     | (k, x) :: r => enc_str k ++ String ":" (enc x ++ String "," (go r))
                     end) ps)
  | JFun n => String "@" (enc_str n)
  end.

Fixpoint parse_str (s : string) : option (string * string) :=
  match s with
  | EmptyString => None
  | String c r =>
      if (c =? "034")%char then Some (EmptyString, r)
      else if (c =? "\")%char then
        match r with
        | String d r' => match parse_str r' with Some (t, r'') => Some (String d t, r'') | None => None end
        | EmptyString => None
        end
      else match parse_str r with Some (t, r') => Some (String c t, r') | None => None end
  end.

Definition parse_bit (s : string) : option (bool * string) :=
  match s with
  | String "1" r => Some (true, r)
  | String "0" r => Some (false, r)
  | _ => None
  end.

Fixpoint parse_pos (s : string) : option (positive * string) :=
  match s with
  | String "1" r => match parse_pos r with Some (p, r') => Some (xI p, r') | None => None end
  | String "0" r => match parse_pos r with Some (p, r') => Some (xO p, r') | None => None end
  | String "H" r => Some (xH, r)
  | _ => None
  end.

Definition parse_Z (s : string) : option (Z * string) :=
  match s with
  | String "0" r => Some (Z0, r)
  | String "+" r => match parse_pos r with Some (p, r') => Some (Zpos p, r') | None => None end
  | String "-" r => match parse_pos r with Some (p, r') => Some (Zneg p, r') | None => None end
  | _ => None
  end.

Definition parse_sf (s : string) : option (spec_float * string) :=
  match s with
  | String "z" r => match parse_bit r with Some (b, r') => Some (S754_zero b, r') | None => None end
  | String "i" r => match parse_bit r with Some (b, r') => Some (S754_infinity b, r') | None => None end
  | String "N" r => Some (S754_nan, r)
  | String "F" r =>
      match parse_bit r with
      | Some (b, r1) =>
          match parse_pos r1 with
          | Some (m, r2) => match parse_Z r2 with Some (e, r3) => Some (S754_finite b m e, r3) | None => None end
          | None => None
          end
      | None => None
      end
  | _ => None
  end.

Fixpoint parse_value (n : nat) (s : string) : option (jsval * string) :=
  match n with
  | O => None
  | S n =>
      match s with
      | String "u" r => Some (JUndefined, r)
      | String "n" (String "u" (String "l" (String "l" r))) => Some (JNull, r)
      | String "t" (String "r" (String "u" (String "e" r))) => Some (JBool true, r)
      | String "f" (String "a" (String "l" (String "s" (String "e" r)))) => Some (JBool false, r)
      | String "#" r => match parse_sf r with Some (f, r') => Some (JNum (SF2Prim f), r') | None => None end
      | String "034" r => match parse_str r with Some (t, r') => Some (JStr t, r') | None => None end
      | String "[" r => match parse_elems n r with Some (xs, r') => Some (JArr xs, r') | None => None end
      | String "{" r => match parse_props n r with Some (ps, r') => Some (JObj ps, r') | None => None end
      | String "@" (String "034" r) => match parse_str r with Some (t, r') => Some (JFun t, r') | None => None end
      | _ => None
      end
  end
with parse_elems (n : nat) (s : string) : option (list jsval * string) :=
  match n with
  | O => None
  | S n =>
      match s with
      | String c r =>
          if (c =? "]")%char then Some ([], r)
          else
            match parse_value n s with
            | Some (x, String "," r) =>
                match parse_elems n r with Some (xs, r') => Some (x :: xs, r') | None => None end
            | _ => None
            end
      | EmptyString => None
      end
  end
with parse_props (n : nat) (s : string) : option (list (string * jsval) * string) :=
  match n with
  | O => None
  | S n =>
      match s with
      | String "}" r => Some ([], r)
      | String "034" r =>
          match parse_str r with
          | Some (k, String ":" r1) =>
              match parse_value n r1 with
              | Some (x, String "," r2) =>
                  match parse_props n r2 with Some (ps, r3) => Some ((k, x) :: ps, r3) | None => None end
              | _ => None
              end
          | _ => None
          end
      | _ => None
      end
  end.

Definition parse (s : string) : option jsval :=
  match parse_value (String.length s) s with Some (v, EmptyString) => Some v | _ => None end.

Definition enc_elems : list jsval -> string :=
  fix go (l : list jsval) : string :=
    match l with [] => "]" | x :: r => enc x ++ String "," (go r) end.

Definition enc_props : list (string * jsval) -> string :=
  fix go (l : list (string * jsval)) : string :=
    match l with
    | [] => "}"
    | (k, x) :: r => enc_str k ++ String ":" (enc x ++ String "," (go r))
    end.

(** ** Reading back what was written *)

Lemma parse_esc s r : parse_str (esc s ++ r) = Some (s, r).
Proof.
  induction s as [|c s IH]; [reflexivity|]. cbn [esc].
  destruct ((c =? "034")%char || (c =? "\")%char) eqn:E.
  - simpl. rewrite IH. reflexivity.
  - apply orb_false_iff in E as [E1 E2]. simpl. rewrite E1, E2, IH. reflexivity.
Qed.

Lemma parse_pos_enc p r : parse_pos (enc_pos p ++ r) = Some (p, r).
Proof. induction p as [p IH|p IH|]; simpl; rewrite ?IH; reflexivity. Qed.

Lemma parse_Z_enc z r : parse_Z (enc_Z z ++ r) = Some (z, r).
Proof. destruct z as [|p|p]; simpl; rewrite ?parse_pos_enc; reflexivity. Qed.

Lemma parse_sf_enc f r : parse_sf (enc_sf f ++ r) = Some (f, r).
Proof.
  destruct f as [b|b| |b m e]; try destruct b; simpl; try reflexivity;
    rewrite string_app_assoc, parse_pos_enc, parse_Z_enc; reflexivity.
Qed.

Lemma enc_head v r : exists c t, (enc v ++ r)%string = String c t /\ (c =? "]")%char = false.
Proof. destruct v as [| |[]| | | | |]; simpl; eexists _, _; split; reflexivity. Qed.

Lemma enc_length v : 1 <= String.length (enc v).
Proof. destruct v as [| |[]| | | | |]; simpl; lia. Qed.

Lemma length_app (a b : string) : String.length (a ++ b) = String.length a + String.length b.
Proof. induction a; simpl; auto. Qed.

Definition reads_back (v : jsval) : Prop :=
  forall n r, String.length (enc v) <= n -> parse_value n (enc v ++ r) = Some (v, r).

Lemma parse_elems_enc xs :
  Forall reads_back xs ->
  forall n r, String.length (enc_elems xs) <= n -> parse_elems n (enc_elems xs ++ r) = Some (xs, r).
Proof.
  induction xs as [|x xs IH]; intros Hf n r Hn.
  - destruct n as [|n]; [simpl in Hn; lia|]. reflexivity.
  - inversion Hf as [|? ? Hx Hxs]; subst.
    cbn [enc_elems] in *. fold enc_elems in *. rewrite length_app in Hn. simpl in Hn.
    destruct n as [|n]; [lia|].
    rewrite string_app_assoc. destruct (enc_head x (String "," (enc_elems xs) ++ r)) as (c & t & Hs & Hc).
    cbn [parse_elems]. rewrite Hs, Hc. rewrite <- Hs, Hx by lia. simpl. rewrite IH by (auto; lia). reflexivity.
Qed.

Lemma parse_props_enc ps :
  Forall (fun kv => reads_back (snd kv)) ps ->
  forall n r, String.length (enc_props ps) <= n -> parse_props n (enc_props ps ++ r) = Some (ps, r).
Proof.
  induction ps as [|[k x] ps IH]; intros Hf n r Hn.
  - destruct n as [|n]; [simpl in Hn; lia|]. reflexivity.
  - inversion Hf as [|? ? Hx Hps]; subst. simpl in Hx.
    cbn [enc_props] in *. fold enc_props in *. unfold enc_str in *.
    rewrite !length_app in Hn. cbn [String.length] in Hn. rewrite length_app in Hn.
    destruct n as [|n]; [lia|].
    rewrite !string_app_assoc. cbn [String.append parse_props].
    rewrite parse_esc. cbn [String.append]. cbn [String.length] in Hn.
    rewrite string_app_assoc, Hx by lia. simpl. rewrite IH by (auto; lia). reflexivity.
Qed.

Lemma parse_enc v : reads_back v.
Proof.
  induction v as [| |b|f|s|xs IH|ps IH|nm] using jsval_ind'; intros n r Hn;
    (destruct n as [|n];
     [match type of Hn with String.length (enc ?w) <= 0 => pose proof (enc_length w); lia end|]).
  all: try (destruct b); try reflexivity.
  - cbn [enc String.append parse_value]. rewrite parse_sf_enc, SF2Prim_Prim2SF. reflexivity.
  - cbn [enc enc_str String.append parse_value]. rewrite parse_esc. reflexivity.
  - change (enc (JArr xs)) with (String "[" (enc_elems xs)) in *. simpl in Hn |- *.
    rewrite (parse_elems_enc xs IH n r) by lia. reflexivity.
  - change (enc (JObj ps)) with (String "{" (enc_props ps)) in *. simpl in Hn |- *.
    rewrite (parse_props_enc ps IH n r) by lia. reflexivity.
  - cbn [enc enc_str String.append parse_value]. rewrite parse_esc. reflexivity.
Qed.

End RefJson.

#[export] Instance ref_json : Json := {
  json_parse := RefJson.parse;
  json_stringify := RefJson.enc;
  json_error := fun _ => "Unexpected token in JSON"
}.

#[export] Instance ref_json_laws : JsonLaws.
Proof.
  split. intros v _. cbn [json_parse json_stringify ref_json]. unfold RefJson.parse.
  pose proof (RefJson.parse_enc v (String.length (RefJson.enc v)) "" (le_n _)) as H.
  rewrite string_app_nil_r in H. rewrite H. reflexivity.
Qed.
