(* ===== verification/Http.v ===== *)
(** * Http: requests, responses and programs that call [fetch]

    The route handlers of [src/app/api] and the client [src/lib/api-service.ts]
    are [async] functions whose only effect besides logging is [fetch].  A
    program of this file is a tree [Http A]: either it returns, or it sends
    one request and continues with what the network answers, a response or
    a network failure.  A thrown exception is a value [Throw message] of
    [Outcome]: every exception of the modelled code is an [Error], whose
    [message] the handlers put in their answers.  [run_http] runs a program
    against a network (a function from requests to answers) and returns the
    requests in the order they were sent with the result. *)

From Stdlib Require Import Ascii String ZArith Bool List Lia NArith.
From S2P Require Import Prelude JsValue Json.
Import ListNotations.

Local Open Scope string_scope.

Inductive Body :=
| NoBody
| TextBody (text : string)
| FormBody (files : list string).

Record Request := mkRequest {
  req_url : string;
  req_method : string;
  req_headers : list (string * string);
  req_body : Body
}.

Record Response := mkResponse {
  res_status : N;
  res_headers : list (string * string);
  res_body : string
}.

Inductive FetchResult :=
| NetworkError (message : string)
| Reply (r : Response).

(** [response.ok]: a status in [200, 299]. *)
Definition ok (status : N) : bool := (200 <=? status)%N && (status <=? 299)%N.

Inductive Outcome (A : Type) := Return (a : A) | Throw (message : string).
Arguments Return {A} a.
Arguments Throw {A} message.

Inductive Http (A : Type) :=
| Done (o : Outcome A)
| Fetch (rq : Request) (k : FetchResult -> Http A).
Arguments Done {A} o.
Arguments Fetch {A} rq k.

Definition ret {A} (a : A) : Http A := Done (Return a).
Definition throw {A} (msg : string) : Http A := Done (Throw msg).

Fixpoint bind {A B} (m : Http A) (f : A -> Http B) : Http B :=
  match m with
  | Done (Return a) => f a
  | Done (Throw e) => Done (Throw e)
  | Fetch rq k => Fetch rq (fun r => bind (k r) f)
  end.

(** [try { m } catch (e) { h(e.message) }]. *)
Fixpoint catch {A} (m : Http A) (h : string -> Http A) : Http A :=
  match m with
  | Done (Return a) => Done (Return a)
  | Done (Throw e) => h e
  | Fetch rq k => Fetch rq (fun r => catch (k r) h)
  end.

Declare Scope http_scope.
Delimit Scope http_scope with http.
Notation "x <- m ;; k" := (bind m (fun x => k))
  (at level 61, m at next level, right associativity) : http_scope.

(** [await fetch(rq)]: a network failure rejects the promise. *)
Definition fetch (rq : Request) : Http Response :=
  Fetch rq (fun r => match r with NetworkError msg => throw msg | Reply resp => ret resp end).

(** [JSON.parse(text)] in a program: a SyntaxError on bad text. *)
Definition parse_json `{Json} (text : string) : Http jsval :=
  match json_parse text with Some v => ret v | None => throw (json_error text) end.

(** [NextResponse.json(data, { status, headers })]. *)
Definition json_response `{Json} (status : N) (data : jsval) (headers : list (string * string)) : Response :=
  {| res_status := status; res_headers := ("content-type", "application/json") :: headers;
     res_body := json_stringify data |}.

(** Running a program against a network. *)
Fixpoint run_http {A} (net : Request -> FetchResult) (m : Http A) : list Request * Outcome A :=
  match m with
  | Done o => ([], o)
  | Fetch rq k => let '(rs, o) := run_http net (k (net rq)) in (rq :: rs, o)
  end.

(** ** Reading properties inside a program *)

(** The message of the TypeError V8 throws for [v[k]] on [undefined] or
    [null]. *)
Definition type_error (v : jsval) (k : string) : string :=
  "Cannot read properties of " ++ (match v with JNull => "null" | _ => "undefined" end)
  ++ " (reading '" ++ k ++ "')".

Definition get (v : jsval) (k : string) : Http jsval :=
  match js_get v k with Some x => ret x | None => throw (type_error v k) end.

(** [await request.json()]. *)
Definition request_json `{Json} (rq : Request) : Http jsval :=
  match req_body rq with
  | TextBody t => parse_json t
  | NoBody => parse_json ""
  | FormBody _ => throw (json_error "")
  end.

(** ** Laws *)

Lemma bind_ret {A B} (a : A) (f : A -> Http B) : bind (ret a) f = f a.
Proof. reflexivity. Qed.

Lemma bind_throw {A B} msg (f : A -> Http B) : bind (throw msg) f = throw msg.
Proof. reflexivity. Qed.

Lemma catch_ret {A} (a : A) h : catch (ret a) h = ret a.
Proof. reflexivity. Qed.

Lemma catch_throw {A} msg (h : string -> Http A) : catch (throw msg) h = h msg.
Proof. reflexivity. Qed.

Lemma run_http_fetch {A} net rq (k : FetchResult -> Http A) :
  run_http net (Fetch rq k) = let '(rs, o) := run_http net (k (net rq)) in (rq :: rs, o).
Proof. reflexivity. Qed.

(** Running a sequence runs its first part and then its second. *)
Lemma run_http_bind {A B} net (m : Http A) (f : A -> Http B) :
  run_http net (bind m f) =
  let '(s1, o) := run_http net m in
  match o with
  | Return a => let '(s2, o2) := run_http net (f a) in ((s1 ++ s2)%list, o2)
  | Throw e => (s1, Throw e)
  end.
Proof.
  induction m as [[a|e]|rq k IH]; simpl.
  - destruct (run_http net (f a)); reflexivity.
  - reflexivity.
  - rewrite IH. destruct (run_http net (k (net rq))) as [s1 [a|e]]; [|reflexivity].
    destruct (run_http net (f a)); reflexivity.
Qed.

Lemma run_http_catch {A} net (m : Http A) (h : string -> Http A) :
  run_http net (catch m h) =
  let '(s1, o) := run_http net m in
  match o with
  | Return a => (s1, Return a)
  | Throw e => let '(s2, o2) := run_http net (h e) in ((s1 ++ s2)%list, o2)
  end.
Proof.
  induction m as [[a|e]|rq k IH]; simpl.
  - reflexivity.
  - destruct (run_http net (h e)); reflexivity.
  - rewrite IH. destruct (run_http net (k (net rq))) as [s1 [a|e]]; [reflexivity|].
    destruct (run_http net (h e)); reflexivity.
Qed.

#[export] Hint Rewrite @bind_ret @bind_throw @catch_ret @catch_throw : bdi_rw.
