(* ===== verification/Carbon.v ===== *)
(** * Carbon: the carbon-footprint calculator of the carbon tracker page

    Models the two pure functions of [src/app/carbon-tracker/page.tsx]:
    - [calculateDistance] (lines 50-59), the Haversine distance over the
      binary64 arithmetic of JavaScript and the host's [Math] functions;
    - [calculateCarbonFootprint] (lines 61-110), with the two object
      literals [emissionFactors] and [greenPointsMap], the [||] fallbacks of
      lines 80 and 82 and the recommendation rules of lines 85-101.
    The objects are JavaScript objects ([JsValue.jsval]): indexing them with
    a mode string reaches [Object.prototype] when the string is not an own
    key, exactly as [emissionFactors[mode as keyof ...]] does at run time.

    [TravelMode] is the five values of the page's buttons ([travelModes],
    lines 125-131), and [spec_result] is the specification's description of
    the result (spec §4.1), against which [calculateCarbonFootprint] is
    compared. *)

From Stdlib Require Import Ascii String ZArith Bool Floats List Lia.
From S2P Require Import Prelude Float64 JsEngine JsValue.
Import ListNotations.

#[local] Set Warnings "-inexact-float".

Module CarbonTracker.

(** ** Data *)

(** [interface Location] (lines 19-23). *)
Record Location := mkLocation { loc_name : string; lat : float; lng : float }.

(** [interface CarbonResult] (lines 25-31).  [greenPoints] is whatever the
  lookup of line 82 returns, a JavaScript value. *)
Record CarbonResult := mkCarbonResult {
distance : float;
carbonFootprint : float;
greenPoints : jsval;
travelMode : string;
recommendations : list string
}.

(** The values of the five mode buttons (lines 125-131). *)
Inductive TravelMode := Walking | Bicycling | Transit | Motorcycle | Driving.

Definition mode_value (m : TravelMode) : string :=
match m with
| Walking => "walking" | Bicycling => "bicycling" | Transit => "transit"
| Motorcycle => "motorcycle" | Driving => "driving"
end.

Definition all_modes : list TravelMode := [Walking; Bicycling; Transit; Motorcycle; Driving].

(** ** [calculateDistance] (lines 50-59) *)

Section Distance.
Context `{JsEngine}.
Local Open Scope float_scope.

Definition calculateDistance (lat1 lng1 lat2 lng2 : float) : float :=
  let R := 6371 in
  let dLat := ((lat2 - lat1) * math_PI) / 180 in
  let dLng := ((lng2 - lng1) * math_PI) / 180 in
  let a :=
    math_sin (dLat / 2) * math_sin (dLat / 2) +
    math_cos ((lat1 * math_PI) / 180) * math_cos ((lat2 * math_PI) / 180)
      * math_sin (dLng / 2) * math_sin (dLng / 2) in
  let c := 2 * math_atan2 (PrimFloat.sqrt a) (PrimFloat.sqrt (1 - a)) in
  R * c.
End Distance.

(** ** [calculateCarbonFootprint] (lines 61-110) *)

(** The object literals of lines 63-69 and 72-78, keys in source order. *)
Definition emissionFactors : list (string * jsval) :=
[("walking", JNum 0.0); ("bicycling", JNum 0.02); ("driving", JNum 0.21);
 ("transit", JNum 0.12); ("motorcycle", JNum 0.15)]%string.

Definition greenPointsMap : list (string * jsval) :=
[("walking", JNum 100); ("bicycling", JNum 85); ("transit", JNum 60);
 ("motorcycle", JNum 40); ("driving", JNum 25)]%string.

(** [obj[key]] on an object literal (never throws). *)
Definition member (ps : list (string * jsval)) (k : string) : jsval :=
match js_get (JObj ps) k with Some v => v | None => JUndefined end.

(** The messages pushed by lines 87-100. *)
Definition msg_transit_43 : string := "🚌 ลองใช้รถสาธารณะแทน ลดคาร์บอนได้ 43%".
Definition msg_bike_90 : string := "🚲 ปั่นจักรยานลดคาร์บอนได้ 90%".
Definition msg_walk_100 : string := "🚶‍♂️ เดินเท้าได้ ลดคาร์บอน 100%".
Definition msg_bike_friendlier : string := "🚲 ปั่นจักรยานเป็นมิตรกับสิ่งแวดล้อมมากกว่า".
Definition msg_bike_great : string := "🌟 ทางเลือกที่ดีมาก! เป็นมิตรกับสิ่งแวดล้อม".
Definition msg_walk_excellent : string := "🏆 ยอดเยี่ยม! ไม่ปล่อยคาร์บอนเลย".

(** Lines 85-101: the pushes in order. *)
Definition carbonRecommendations (mode : string) (distance : float) : list string :=
if String.eqb mode "driving" then
  [msg_transit_43; msg_bike_90] ++ (if PrimFloat.ltb distance 2 then [msg_walk_100] else [])
else if String.eqb mode "transit" then
  [msg_bike_friendlier] ++ (if PrimFloat.ltb distance 3 then [msg_walk_100] else [])
else if String.eqb mode "bicycling" then [msg_bike_great]
else if String.eqb mode "walking" then [msg_walk_excellent]
else [].

Section Footprint.
Context `{JsEngine}.
Local Open Scope float_scope.

(** Line 80: [emissionFactors[mode] || 0.21]. *)
Definition carbonPerKm (mode : string) : jsval :=
  js_or (member emissionFactors mode) (JNum 0.21).

(** Line 82: [greenPointsMap[mode] || 25]. *)
Definition greenPointsOf (mode : string) : jsval :=
  js_or (member greenPointsMap mode) (JNum 25).

Definition calculateCarbonFootprint (distance : float) (mode : string) : CarbonResult :=
  let carbonFootprint := distance * to_number (carbonPerKm mode) * 1000 in
  {| distance := distance;
     carbonFootprint := carbonFootprint;
     greenPoints := greenPointsOf mode;
     travelMode := mode;
     recommendations := carbonRecommendations mode distance |}.
End Footprint.

(** ** The specification's description of the result (spec §3, §4.1) *)

Definition spec_emission_factor (m : TravelMode) : float :=
match m with
| Walking => 0.0 | Bicycling => 0.02 | Transit => 0.12
| Motorcycle => 0.15 | Driving => 0.21
end.

Definition spec_green_score (m : TravelMode) : float :=
match m with
| Walking => 100 | Bicycling => 85 | Transit => 60 | Motorcycle => 40 | Driving => 25
end.

(** The kinds of advice of spec §4.1 and the kind each message gives. *)
Inductive Advice := AdviseTransit | AdviseCycling | AdviseWalking | Affirm.

Definition advice_of (msg : string) : Advice :=
if String.eqb msg msg_transit_43 then AdviseTransit
else if String.eqb msg msg_bike_90 then AdviseCycling
else if String.eqb msg msg_bike_friendlier then AdviseCycling
else if String.eqb msg msg_walk_100 then AdviseWalking
else Affirm.

(** "driving always yields a public-transit suggestion and a cycling
  suggestion, plus a walking suggestion if distance < 2 km; transit yields
  a cycling suggestion, plus a walking suggestion if distance < 3 km;
  bicycling and walking each yield a single affirming message." *)
Definition spec_advice (m : TravelMode) (d : float) : list Advice :=
match m with
| Driving => [AdviseTransit; AdviseCycling] ++ (if PrimFloat.ltb d 2 then [AdviseWalking] else [])
| Transit => [AdviseCycling] ++ (if PrimFloat.ltb d 3 then [AdviseWalking] else [])
| Bicycling | Walking => [Affirm]
| Motorcycle => []
end.

(** ** Lemmas *)

Section DistanceFacts.
Context `{JsEngineLaws}.
Local Open Scope float_scope.

Lemma half_angle_swap x y :
  (((y - x) * math_PI) / 180) / 2 = (((x - y) * math_PI) / 180) / 2 \/
  (((y - x) * math_PI) / 180) / 2 = - ((((x - y) * math_PI) / 180) / 2).
Proof.
  destruct (fsub_swap x y) as [E|E]; rewrite E; [left|right]; [reflexivity|].
  autorewrite with bdi_rw. reflexivity.
Qed.

(** [p * sin t * sin t] does not change when the sign of [t] does. *)
Lemma scaled_sin_sq_swap p x y :
  p * math_sin ((((y - x) * math_PI) / 180) / 2) * math_sin ((((y - x) * math_PI) / 180) / 2) =
  p * math_sin ((((x - y) * math_PI) / 180) / 2) * math_sin ((((x - y) * math_PI) / 180) / 2).
Proof.
  destruct (half_angle_swap x y) as [E|E]; rewrite E; [reflexivity|].
  rewrite sin_odd. autorewrite with bdi_rw. reflexivity.
Qed.

Lemma sin_sq_swap x y :
  math_sin ((((y - x) * math_PI) / 180) / 2) * math_sin ((((y - x) * math_PI) / 180) / 2) =
  math_sin ((((x - y) * math_PI) / 180) / 2) * math_sin ((((x - y) * math_PI) / 180) / 2).
Proof.
  destruct (half_angle_swap x y) as [E|E]; rewrite E; [reflexivity|].
  rewrite sin_odd. autorewrite with bdi_rw. reflexivity.
Qed.
End DistanceFacts.

(** [carbonPerKm] is a positive table entry, or a prototype member whose
  conversion to a number is NaN. *)
Lemma carbonPerKm_cases `{JsEngine} mode :
(exists c, carbonPerKm mode = JNum c /\ In c [0.02; 0.21; 0.12; 0.15]%float)
\/ (exists v, carbonPerKm mode = v /\ (v = JFun mode \/ v = JObj [])).
Proof.
unfold carbonPerKm, member. cbn [js_get].
destruct (assoc_get mode emissionFactors) as [v|] eqn:E.
- apply assoc_get_In in E. left.
  repeat (destruct E as [E|E]; [inversion E; subst; eexists; split; [reflexivity|simpl; tauto]|]).
  destruct E.
- unfold object_proto_get. destruct (mode in_s object_proto_keys); [right; eauto|].
  destruct (String.eqb mode "__proto__"); [right; eauto|].
  left. eexists; split; [reflexivity|simpl; tauto].
Qed.

(** ** Theorems *)

(** C1. The Haversine distance of [calculateDistance] is symmetric, bit for
  bit: swapping the two points gives the same binary64 value, for every
  input (NaN and infinities included) and every engine whose [sin] is odd. *)
Theorem calculateDistance_symmetric `{JsEngineLaws} lat1 lng1 lat2 lng2 :
calculateDistance lat1 lng1 lat2 lng2 = calculateDistance lat2 lng2 lat1 lng1.
Proof.
unfold calculateDistance. cbv zeta.
rewrite (sin_sq_swap lat1 lat2), (scaled_sin_sq_swap _ lng1 lng2).
rewrite (fmul_comm (math_cos (lat1 * math_PI / 180)%float)). reflexivity.
Qed.

Lemma calculateDistance_symmetric_witness :
  calculateDistance 18.8022 98.9525 18.7869 98.9953 =
  calculateDistance 18.7869 98.9953 18.8022 98.9525.
Proof. exact (calculateDistance_symmetric 18.8022 98.9525 18.7869 98.9953). Defined.

(** C2. Walking is charged at the driving rate: the walking factor [0.0]
  is falsy, so line 80's [|| 0.21] replaces it, and the footprint of a
  walk is [distance * 0.21 * 1000] grams, where spec §3 says exactly 0. *)
Theorem walking_footprint_is_driving_rate `{JsEngine} d :
carbonFootprint (calculateCarbonFootprint d "walking") = (d * 0.21 * 1000)%float.
Proof. reflexivity. Qed.

(** The divergence at one input: a 1 km walk is 210 g, the specification's
  factor gives 0 g. *)
Example walking_footprint_counterexample :
carbonFootprint (calculateCarbonFootprint 1 "walking") = 210%float /\
(1 * spec_emission_factor Walking * 1000 = 0)%float.
Proof. split; vm_compute; reflexivity. Qed.

(** C3. For the four other buttons the footprint is the distance times the
  specification's factor times 1000. *)
Theorem carbonFootprint_refines_spec `{JsEngine} m d :
m <> Walking ->
carbonFootprint (calculateCarbonFootprint d (mode_value m)) =
(d * spec_emission_factor m * 1000)%float.
Proof. destruct m; intros Hm; [congruence|reflexivity..]. Qed.

Lemma carbonFootprint_refines_spec_witness :
Driving <> Walking /\
carbonFootprint (calculateCarbonFootprint 5 (mode_value Driving)) =
(5 * spec_emission_factor Driving * 1000)%float.
Proof. split; [discriminate|]. apply (carbonFootprint_refines_spec Driving 5). discriminate. Defined.

(** C4. The green points of every button are the specification's constant
  for that mode, so they are always one of 100, 85, 60, 40, 25. *)
Theorem greenPoints_refines_spec `{JsEngine} m d :
greenPoints (calculateCarbonFootprint d (mode_value m)) = JNum (spec_green_score m)
/\ In (spec_green_score m) [100; 85; 60; 40; 25]%float.
Proof. destruct m; split; simpl; tauto. Qed.

(** C5. The recommendations of every button, read as kinds of advice, are
  the specification's decision table, thresholds included; for the
  motorcycle button the code gives none (the specification is silent). *)
Theorem recommendations_refine_spec `{JsEngine} m d :
map advice_of (recommendations (calculateCarbonFootprint d (mode_value m))) = spec_advice m d.
Proof.
destruct m; simpl; [reflexivity|reflexivity| |reflexivity|];
  [destruct (PrimFloat.ltb d 3)|destruct (PrimFloat.ltb d 2)]; reflexivity.
Qed.

(** A mode string that is neither a button value nor inherited from
  [Object.prototype] falls back to the driving factor and score and gets
  no recommendation. *)
Theorem unknown_mode_defaults `{JsEngine} d mode :
~ In mode (map mode_value all_modes) -> ~ In mode object_proto_keys ->
mode <> "__proto__"%string ->
calculateCarbonFootprint d mode =
{| distance := d; carbonFootprint := (d * 0.21 * 1000)%float; greenPoints := JNum 25;
   travelMode := mode; recommendations := [] |}.
Proof.
intros Hm Hp Hq.
assert (He : ~ In mode (map fst emissionFactors)) by (simpl; intros Hin; apply Hm; simpl; tauto).
assert (Hg : ~ In mode (map fst greenPointsMap)) by (simpl; intros Hin; apply Hm; simpl; tauto).
unfold calculateCarbonFootprint, carbonPerKm, greenPointsOf, member.
rewrite !js_get_obj_absent by (try apply assoc_get_None; assumption).
unfold carbonRecommendations.
case_string_eqb; try (exfalso; apply Hm; simpl; tauto); reflexivity.
Qed.

Lemma unknown_mode_defaults_witness :
~ In "flying"%string (map mode_value all_modes) /\ ~ In "flying"%string object_proto_keys /\
"flying"%string <> "__proto__"%string /\
calculateCarbonFootprint 3 "flying" =
{| distance := 3; carbonFootprint := (3 * 0.21 * 1000)%float; greenPoints := JNum 25;
   travelMode := "flying"; recommendations := [] |}.
Proof.
assert (H1 : ~ In "flying"%string (map mode_value all_modes)) by (simpl; intuition discriminate).
assert (H2 : ~ In "flying"%string object_proto_keys) by (simpl; intuition discriminate).
assert (H3 : "flying"%string <> "__proto__"%string) by discriminate.
refine (conj H1 (conj H2 (conj H3 _))). exact (unknown_mode_defaults 3 "flying" H1 H2 H3).
Defined.

(** C6. A mode string inherited from [Object.prototype] (such as
  ["toString"]) defeats both fallbacks: the lookup returns a function,
  which is truthy, so the footprint is NaN and the green points are a
  function, not one of the five scores. *)
Theorem inherited_mode_breaks_footprint `{JsEngine} d mode :
In mode object_proto_keys ->
is_nan (carbonFootprint (calculateCarbonFootprint d mode)) = true /\
greenPoints (calculateCarbonFootprint d mode) = JFun mode.
Proof.
intros Hin.
assert (E : carbonPerKm mode = JFun mode /\ greenPointsOf mode = JFun mode)
  by (simpl in Hin; repeat (destruct Hin as [<-|Hin]; [split; reflexivity|]); destruct Hin).
destruct E as [E1 E2]. cbn [carbonFootprint greenPoints calculateCarbonFootprint].
rewrite E1, E2. cbn [to_number]. rewrite fmul_nan_r, fmul_nan_l. split; reflexivity.
Qed.

Lemma inherited_mode_breaks_footprint_witness :
In "toString"%string object_proto_keys /\
is_nan (carbonFootprint (calculateCarbonFootprint 2 "toString")) = true /\
greenPoints (calculateCarbonFootprint 2 "toString") = JFun "toString".
Proof.
assert (H : In "toString"%string object_proto_keys) by (simpl; tauto).
split; [exact H|]. exact (inherited_mode_breaks_footprint 2 "toString" H).
Defined.

(** A walking suggestion is made exactly for a drive shorter than 2 km
  or a transit trip shorter than 3 km; a NaN distance never gets one. *)
Theorem walking_suggested_iff `{JsEngine} d mode :
In msg_walk_100 (recommendations (calculateCarbonFootprint d mode)) <->
(mode = "driving"%string /\ PrimFloat.ltb d 2 = true) \/
(mode = "transit"%string /\ PrimFloat.ltb d 3 = true).
Proof.
cbn [recommendations calculateCarbonFootprint]. unfold carbonRecommendations.
case_string_eqb; destruct_ifs; simpl;
  unfold msg_walk_100, msg_transit_43, msg_bike_90, msg_bike_friendlier,
    msg_bike_great, msg_walk_excellent;
  intuition (try discriminate; try congruence).
Qed.

Lemma walking_suggested_iff_witness :
In msg_walk_100 (recommendations (calculateCarbonFootprint 1.5 "transit")) /\
In msg_bike_friendlier (recommendations (calculateCarbonFootprint 1.5 "transit")) /\
In msg_walk_100 (recommendations (calculateCarbonFootprint 1.5 "driving")).
Proof.
split; [|split].
- apply (walking_suggested_iff 1.5 "transit"). right. split; reflexivity.
- simpl. now left.
- apply (walking_suggested_iff 1.5 "driving"). left. split; reflexivity.
Defined.

(** The factor read by line 80, converted to a number, is never negative. *)
Lemma carbonPerKm_not_neg `{JsEngine} mode :
PrimFloat.ltb (to_number (carbonPerKm mode)) PrimFloat.zero = false.
Proof.
destruct (carbonPerKm_cases mode) as [[c [-> Hc]]|[v [-> [->| ->]]]];
  [simpl in Hc; repeat (destruct Hc as [<-|Hc]; [reflexivity|]); destruct Hc
  | apply fltb_nan_l..].
Qed.

(** C7. Whatever the mode string, the footprint of a distance that is not
  negative is not negative (it is NaN only for NaN distances or inherited
  modes). *)
Theorem carbonFootprint_not_negative `{JsEngine} d mode :
PrimFloat.ltb d PrimFloat.zero = false ->
PrimFloat.ltb (carbonFootprint (calculateCarbonFootprint d mode)) PrimFloat.zero = false.
Proof.
intros Hd. cbn [carbonFootprint calculateCarbonFootprint].
apply fmul_not_neg; [apply fmul_not_neg; [exact Hd | apply carbonPerKm_not_neg] | reflexivity].
Qed.

Lemma carbonFootprint_not_negative_witness :
PrimFloat.ltb 4.5 PrimFloat.zero = false /\
PrimFloat.ltb (carbonFootprint (calculateCarbonFootprint 4.5 "motorcycle")) PrimFloat.zero = false.
Proof.
assert (H : PrimFloat.ltb 4.5 PrimFloat.zero = false) by reflexivity.
split; [exact H | exact (carbonFootprint_not_negative 4.5 "motorcycle" H)].
Defined.

End CarbonTracker.
