(* ===== verification/CarbonPage.v ===== *)
(** * CarbonPage: the carbon tracker page as a state machine

    [src/app/carbon-tracker/page.tsx] keeps five pieces of React state
    (lines 34-46): the two locations, the travel mode, the last result and
    the loading flag.  Its handlers are the events of [step]:
    - the two location selects (lines 186-189, 226-229) look the chosen name
      up in [popularLocations] with [find];
    - the two coordinate fields (lines 201-210, 241-250) split the text on
      commas, require exactly two parts, read each with [parseFloat] after
      [trim] and accept the pair only when neither is NaN;
    - the mode buttons (line 269) set the mode to the button's value;
    - [handleCalculate] (lines 112-123) sets the loading flag, waits one
      second and then computes the result from the values its closure
      captured when the button was pressed; the button is disabled while
      loading (line 287).  The wait is the pending snapshot [pending] and
      the event [DelayElapsed].
    [render_result] is what lines 306-399 display for a result. *)

From Stdlib Require Import Ascii String ZArith Bool Floats List Lia.
From S2P Require Import Prelude Float64 JsEngine JsValue Carbon.
Import ListNotations.

#[local] Set Warnings "-inexact-float".

Module CarbonPage.
Import CarbonTracker.

(** ** State *)

Record PageState := mkPageState {
  startLocation : Location;
  endLocation : Location;
  travelModeSt : string;
  result : option CarbonResult;
  isLoading : bool;
  pending : option (Location * Location * string)
}.

(** [popularLocations] (lines 133-140). *)
Definition popularLocations : list Location :=
  [ mkLocation "นิมมานเหมินทร์" 18.8022 98.9525;
    mkLocation "ประตูท่าแพ" 18.7869 98.9953;
    mkLocation "ตลาดวโรรส" 18.7906 98.992;
    mkLocation "ดอยสุเทพ" 18.8048 98.9216;
    mkLocation "สนามบินเชียงใหม่" 18.7669 98.9625;
    mkLocation "เซ็นทรัลเฟสติวัล" 18.8041 98.9767 ].

(** The initial state of lines 34-46. *)
Definition initial_state : PageState :=
  {| startLocation := mkLocation "นิมมานเหมินทร์" 18.8022 98.9525;
     endLocation := mkLocation "ประตูท่าแพ" 18.7869 98.9953;
     travelModeSt := "driving";
     result := None;
     isLoading := false;
     pending := None |}.

Inductive Event :=
| SelectStart (value : string)
| SelectEnd (value : string)
| EditStartCoords (text : string)
| EditEndCoords (text : string)
| ClickMode (m : TravelMode)
| ClickCalculate
| DelayElapsed.

Section Handlers.
Context `{JsEngine}.

(** [popularLocations.find((loc) => loc.name === value)]. *)
Definition find_location (value : string) : option Location :=
  find (fun l => String.eqb (loc_name l) value) popularLocations.

(** Lines 202-209: the coordinates typed into a field, or [None] when the
    handler leaves the state alone. *)
Definition parse_coords (text : string) : option (float * float) :=
  match split_on "," text with
  | [c0; c1] =>
      let lat := parse_float (trim c0) in
      let lng := parse_float (trim c1) in
      if negb (is_nan lat) && negb (is_nan lng) then Some (lat, lng) else None
  | _ => None
  end.

Definition with_coords (l : Location) (c : float * float) : Location :=
  mkLocation (loc_name l) (fst c) (snd c).

Definition set_start (st : PageState) (l : Location) : PageState :=
  {| startLocation := l; endLocation := endLocation st; travelModeSt := travelModeSt st;
     result := result st; isLoading := isLoading st; pending := pending st |}.

Definition set_end (st : PageState) (l : Location) : PageState :=
  {| startLocation := startLocation st; endLocation := l; travelModeSt := travelModeSt st;
     result := result st; isLoading := isLoading st; pending := pending st |}.

(** [handleCalculate] after its delay: the result of the captured inputs. *)
Definition compute_result (s e : Location) (mode : string) : CarbonResult :=
  calculateCarbonFootprint (calculateDistance (lat s) (lng s) (lat e) (lng e)) mode.

Definition step (st : PageState) (ev : Event) : PageState :=
  match ev with
  | SelectStart v =>
      match find_location v with Some l => set_start st l | None => st end
  | SelectEnd v =>
      match find_location v with Some l => set_end st l | None => st end
  | EditStartCoords t =>
      match parse_coords t with Some c => set_start st (with_coords (startLocation st) c) | None => st end
  | EditEndCoords t =>
      match parse_coords t with Some c => set_end st (with_coords (endLocation st) c) | None => st end
  | ClickMode m =>
      {| startLocation := startLocation st; endLocation := endLocation st;
         travelModeSt := mode_value m; result := result st; isLoading := isLoading st;
         pending := pending st |}
  | ClickCalculate =>
      if isLoading st then st
      else {| startLocation := startLocation st; endLocation := endLocation st;
              travelModeSt := travelModeSt st; result := result st; isLoading := true;
              pending := Some (startLocation st, endLocation st, travelModeSt st) |}
  | DelayElapsed =>
      match pending st with
      | Some (s, e, m) =>
          {| startLocation := startLocation st; endLocation := endLocation st;
             travelModeSt := travelModeSt st; result := Some (compute_result s e m);
             isLoading := false; pending := None |}
      | None => st
      end
  end.

Definition run (st : PageState) (evs : list Event) : PageState := fold_left step evs st.

(** ** What the result cards show (lines 306-399) *)

Record ResultView := mkResultView {
  distance_text : string;
  route_text : string;
  carbon_text : string;
  green_text : string;
  green_bar_width : string;
  recommendation_items : list string;
  trees_text : string;
  led_text : string;
  phone_text : string
}.

Definition render_result (st : PageState) : option ResultView :=
  match result st with
  | None => None
  | Some r =>
      let cf := carbonFootprint r in
      Some {| distance_text := to_fixed (distance r) 2 ++ " กิโลเมตร";
              route_text := "จาก " ++ loc_name (startLocation st) ++ " ไป " ++ loc_name (endLocation st);
              carbon_text := to_fixed cf 0 ++ " กรัม CO₂";
              green_text := to_string (greenPoints r) ++ "/100 คะแนน";
              green_bar_width := to_string (greenPoints r) ++ "%";
              recommendation_items := recommendations r;
              trees_text := to_fixed (cf / 22000)%float 3;
              led_text := to_fixed (cf / 10)%float 0;
              phone_text := to_fixed (cf / 8.3)%float 0 |}%string
  end.

(** The text of a coordinate field (lines 200 and 240). *)
Definition coord_text (l : Location) : string :=
  (to_fixed (lat l) 4 ++ ", " ++ to_fixed (lng l) 4)%string.

End Handlers.

(** ** Invariant of the reachable states *)

Definition page_mode (m : string) : Prop := In m (map mode_value all_modes).

Definition coords_ok (l : Location) : Prop := is_nan (lat l) = false /\ is_nan (lng l) = false.

Definition page_inv `{JsEngine} (st : PageState) : Prop :=
  page_mode (travelModeSt st) /\
  coords_ok (startLocation st) /\ coords_ok (endLocation st) /\
  (isLoading st = true <-> pending st <> None) /\
  (forall s e m, pending st = Some (s, e, m) -> page_mode m /\ coords_ok s /\ coords_ok e) /\
  (forall r, result st = Some r ->
     exists s e m, page_mode m /\ coords_ok s /\ coords_ok e /\ r = compute_result s e m).

Lemma page_mode_value m : page_mode (mode_value m).
Proof. unfold page_mode. apply in_map. destruct m; simpl; tauto. Qed.

Lemma find_location_ok `{JsEngine} v l : find_location v = Some l -> coords_ok l.
Proof.
  unfold find_location. intros Hf. apply find_some in Hf as [Hin _].
  simpl in Hin. repeat (destruct Hin as [<-|Hin]; [split; reflexivity|]). destruct Hin.
Qed.

Lemma parse_coords_ok `{JsEngine} l t c : parse_coords t = Some c -> coords_ok (with_coords l c).
Proof.
  unfold parse_coords. destruct (split_on "," t) as [|c0 [|c1 [|]]]; try discriminate.
  destruct (is_nan (parse_float (trim c0))) eqn:E0, (is_nan (parse_float (trim c1))) eqn:E1;
    simpl; intros Hc; inversion Hc; subst; split; assumption.
Qed.

Lemma initial_inv `{JsEngine} : page_inv initial_state.
Proof.
  unfold page_inv, initial_state, page_mode, coords_ok; simpl.
  refine (conj _ (conj (conj eq_refl eq_refl) (conj (conj eq_refl eq_refl) (conj _ (conj _ _))))).
  - tauto.
  - split; [discriminate | intros Hc; exfalso; apply Hc; reflexivity].
  - intros; discriminate.
  - intros; discriminate.
Qed.

Lemma set_start_inv `{JsEngine} st l : page_inv st -> coords_ok l -> page_inv (set_start st l).
Proof. intros (Hm & Hs & He & Hl & Hp & Hr) Hc. exact (conj Hm (conj Hc (conj He (conj Hl (conj Hp Hr))))). Qed.

Lemma set_end_inv `{JsEngine} st l : page_inv st -> coords_ok l -> page_inv (set_end st l).
Proof. intros (Hm & Hs & He & Hl & Hp & Hr) Hc. exact (conj Hm (conj Hs (conj Hc (conj Hl (conj Hp Hr))))). Qed.

Lemma step_inv `{JsEngine} st ev : page_inv st -> page_inv (step st ev).
Proof.
  intros Hi. pose proof Hi as (Hm & Hs & He & Hl & Hp & Hr).
  destruct ev as [v|v|t|t|m| |]; unfold step.
  - destruct (find_location v) as [l|] eqn:F; [exact (set_start_inv st l Hi (find_location_ok v l F)) | exact Hi].
  - destruct (find_location v) as [l|] eqn:F; [exact (set_end_inv st l Hi (find_location_ok v l F)) | exact Hi].
  - destruct (parse_coords t) as [c|] eqn:F; [exact (set_start_inv st _ Hi (parse_coords_ok _ t c F)) | exact Hi].
  - destruct (parse_coords t) as [c|] eqn:F; [exact (set_end_inv st _ Hi (parse_coords_ok _ t c F)) | exact Hi].
  - exact (conj (page_mode_value m) (conj Hs (conj He (conj Hl (conj Hp Hr))))).
  - destruct (isLoading st) eqn:L; [exact Hi|].
    refine (conj Hm (conj Hs (conj He (conj _ (conj _ Hr))))); simpl.
    + split; intros Hc; first [discriminate | reflexivity | exfalso; apply Hc; reflexivity].
    + intros s e m0 E; inversion E; subst; auto.
  - destruct (pending st) as [[[s e] m]|] eqn:P; [|exact Hi].
    destruct (Hp s e m eq_refl) as (Hpm & Hps & Hpe).
    refine (conj Hm (conj Hs (conj He (conj _ (conj _ _))))); simpl.
    + split; intros Hc; first [discriminate | reflexivity | exfalso; apply Hc; reflexivity].
    + intros; discriminate.
    + intros r E; inversion E; subst. exists s, e, m. auto.
Qed.

Lemma run_inv `{JsEngine} st evs : page_inv st -> page_inv (run st evs).
Proof.
  revert st. induction evs as [|ev evs IH]; intros st H0; [exact H0|].
  apply IH. now apply step_inv.
Qed.

(** C8. Whatever the user does, every result the page shows was computed
    for one of the five button modes from coordinates that are not NaN, so
    its green points are one of the specification's five scores and the
    green bar is never wider than 100%. *)
Theorem shown_greenPoints_in_table `{JsEngine} evs r :
  result (run initial_state evs) = Some r ->
  exists m, greenPoints r = JNum (spec_green_score m) /\
            In (spec_green_score m) [100; 85; 60; 40; 25]%float.
Proof.
  intros Hr. destruct (run_inv initial_state evs initial_inv) as (_ & _ & _ & _ & _ & Hres).
  destruct (Hres r Hr) as (s & e & m & Hm & _ & _ & ->).
  unfold page_mode in Hm. apply in_map_iff in Hm as [m' [<- _]].
  exists m'. apply (greenPoints_refines_spec m').
Qed.

Lemma shown_greenPoints_in_table_witness :
  result (run initial_state [ClickMode Walking; ClickCalculate; DelayElapsed]) =
    Some (compute_result (startLocation initial_state) (endLocation initial_state) "walking") /\
  exists m, greenPoints (compute_result (startLocation initial_state) (endLocation initial_state) "walking")
            = JNum (spec_green_score m) /\ In (spec_green_score m) [100; 85; 60; 40; 25]%float.
Proof.
  assert (H : result (run initial_state [ClickMode Walking; ClickCalculate; DelayElapsed]) =
    Some (compute_result (startLocation initial_state) (endLocation initial_state) "walking"))
    by reflexivity.
  split; [exact H|]. exact (shown_greenPoints_in_table _ _ H).
Defined.

(** ** The calculation uses the inputs captured by the click *)

Definition not_delay (ev : Event) : bool := match ev with DelayElapsed => false | _ => true end.

Lemma step_keeps_pending `{JsEngine} st ev p :
  pending st = Some p -> isLoading st = true -> not_delay ev = true ->
  pending (step st ev) = Some p /\ isLoading (step st ev) = true.
Proof.
  intros Hp Hl Hd. destruct ev; simpl in Hd; try discriminate; unfold step; rewrite ?Hl;
    repeat match goal with |- context [match ?x with _ => _ end] => destruct x end;
    simpl; auto.
Qed.

Lemma run_keeps_pending `{JsEngine} st evs p :
  pending st = Some p -> isLoading st = true -> forallb not_delay evs = true ->
  pending (run st evs) = Some p.
Proof.
  revert st. induction evs as [|ev evs IH]; intros st Hp Hl Hd; [exact Hp|].
  simpl in Hd. apply andb_prop in Hd as [Hd1 Hd2].
  destruct (step_keeps_pending st ev p Hp Hl Hd1). apply IH; auto.
Qed.

(** C9. After a click, whatever the user changes during the one-second
    delay (locations, coordinates, mode, further clicks), the result is
    computed from the locations and mode of the moment of the click. *)
Theorem result_uses_click_snapshot `{JsEngine} st evs :
  isLoading st = false -> forallb not_delay evs = true ->
  result (run st (ClickCalculate :: evs ++ [DelayElapsed])) =
  Some (compute_result (startLocation st) (endLocation st) (travelModeSt st)).
Proof.
  intros Hl Hd. unfold run. simpl. rewrite Hl, fold_left_app. simpl.
  fold (run {| startLocation := startLocation st; endLocation := endLocation st;
               travelModeSt := travelModeSt st; result := result st; isLoading := true;
               pending := Some (startLocation st, endLocation st, travelModeSt st) |} evs).
  rewrite (run_keeps_pending _ evs (startLocation st, endLocation st, travelModeSt st)); auto.
Qed.

(** The consequence on the screen: the route line names the locations of
    the current state while the figures are those of the click.  Choosing
    Doi Suthep as destination during the delay shows "from Nimman to Doi
    Suthep" with the 4.82 km of the trip to Tha Phae Gate. *)
Lemma result_uses_click_snapshot_witness :
  isLoading initial_state = false /\
  forallb not_delay [SelectEnd "ดอยสุเทพ"] = true /\
  result (run initial_state (ClickCalculate :: [SelectEnd "ดอยสุเทพ"] ++ [DelayElapsed])) =
  Some (compute_result (startLocation initial_state) (endLocation initial_state) "driving") /\
  option_map route_text (render_result (run initial_state [ClickCalculate; SelectEnd "ดอยสุเทพ"; DelayElapsed]))
    = Some "จาก นิมมานเหมินทร์ ไป ดอยสุเทพ"%string /\
  option_map distance_text (render_result (run initial_state [ClickCalculate; SelectEnd "ดอยสุเทพ"; DelayElapsed]))
    = Some "4.82 กิโลเมตร"%string.
Proof.
  assert (H1 : isLoading initial_state = false) by reflexivity.
  assert (H2 : forallb not_delay [SelectEnd "ดอยสุเทพ"] = true) by reflexivity.
  refine (conj H1 (conj H2 (conj (result_uses_click_snapshot initial_state _ H1 H2) _))).
  split; vm_compute; reflexivity.
Defined.

(** Every coordinate the page ever holds is a number: the text
    handler refuses a pair unless both halves parse, so no calculation is
    run on NaN coordinates. *)
Theorem coordinates_never_nan `{JsEngine} evs :
  coords_ok (startLocation (run initial_state evs)) /\ coords_ok (endLocation (run initial_state evs)).
Proof. destruct (run_inv initial_state evs initial_inv) as (_ & Hs & He & _). auto. Qed.

(** The text shown in a coordinate field reads back to the same
    coordinates for every preset location ([toFixed(4)] then [parseFloat]). *)
Example coord_text_roundtrip :
  Forall (fun l => parse_coords (coord_text l) = Some (lat l, lng l)) popularLocations.
Proof. repeat constructor; vm_compute; reflexivity. Qed.

End CarbonPage.
