(* ===== verification/Results.v ===== *)
(** * Results: the results page and its normalisation of the answers

    [src/app/results/page.tsx] shows what the home page stored in
    [sessionStorage] under [searchResult], [searchQuery] and [searchMode].
    - On mount (lines 52-106) it parses the stored answer, rebuilds it as an
      object of four fields ([normalize], lines 71-84) and stores it in the
      [resultData] state; it redirects to ["/"] when nothing is stored and
      to ["/error"] when parsing or normalising throws ([on_mount]).
    - Each render (lines 172-184) reads [resultData.recommendations] as a
      list: an array as it is, another object through [Object.values], and
      otherwise the single [recommendation] ([recommendations_of]).
    - The page (lines 236-356) is a spinner until [resultData] is set, and
      then the search summary, the analysis paragraphs, the message, the
      recommendations as text ([renderTextRecommendations], lines 118-166),
      the recommendation cards ([renderRecommendationCard], lines 187-234),
      the "no results" panel and the two buttons ([render]).
    React renders a string or a number child as its text, [undefined],
    [null] and booleans as nothing, an array as its elements, and throws on
    any other object ([jsx_text]); [a && <X/>] renders the falsy [a] itself
    when [a] is falsy, which prints a number [0] ([slot], [stray]).
    A thrown exception is [None].  The parsed answer is any [jsval] without
    functions ([JSON.parse] builds no function); [JSON.parse] itself is the
    section variable [json_parse]. *)

From Stdlib Require Import Ascii String ZArith Bool Floats List Lia.
From S2P Require Import Prelude Float64 JsEngine JsValue.
Import ListNotations.

#[local] Set Warnings "-inexact-float".

Module Results.

(** [a || b] where evaluating either side may throw: [b] is only looked at
    when [a] is falsy. *)
Definition js_or_m (a b : option jsval) : option jsval :=
  let? x := a in if truthy x then Some x else b.

Declare Scope results_scope.
Infix "||?" := js_or_m (at level 50, left associativity) : results_scope.
Local Open Scope string_scope.
Local Open Scope results_scope.

(** [p.k1?.k2]. *)
Definition chain (p : jsval) (k1 k2 : string) : option jsval :=
  let? x := js_get p k1 in js_opt_get x k2.

(** ** Normalisation (lines 71-84) *)

Definition normalize (p : jsval) : option jsval :=
  let? recommendations :=
    js_get p "recommendations" ||? js_get p "places" ||? js_get p "suggestions"
    ||? chain p "data" "recommendations" ||? chain p "result" "recommendations"
    ||? Some (JArr []) in
  let? recommendation :=
    js_get p "recommendation" ||? chain p "data" "recommendation"
    ||? chain p "result" "recommendation" in
  let? analysis :=
    js_get p "analysis" ||? chain p "data" "analysis" ||? chain p "result" "analysis" in
  let? message :=
    js_get p "message" ||? js_get p "response" ||? chain p "data" "message"
    ||? chain p "result" "message" in
  Some (JObj [("recommendations", recommendations); ("recommendation", recommendation);
              ("analysis", analysis); ("message", message)]).

(** ** State and mount effect (lines 47-49, 52-106) *)

Record ResultsState := mkResultsState {
  resultData : option jsval;
  searchQuery : string;
  searchMode : string;
  navigatedTo : option string
}.

Definition results_initial : ResultsState :=
  {| resultData := None; searchQuery := ""; searchMode := ""; navigatedTo := None |}.

(** [stored || ""] for a value of [sessionStorage.getItem]. *)
Definition or_empty (v : option string) : string :=
  match v with Some s => s | None => "" end.

Definition navigate (st : ResultsState) (path : string) : ResultsState :=
  {| resultData := resultData st; searchQuery := searchQuery st; searchMode := searchMode st;
     navigatedTo := Some path |}.

Section Mount.
Variable json_parse : string -> option jsval.

Definition on_mount (storedResult storedQuery storedMode : option string)
  (st : ResultsState) : ResultsState :=
  match storedResult with
  | Some s =>
      if negb (String.eqb s "") then
        match json_parse s with
        | Some p =>
            match normalize p with
            | Some d => {| resultData := Some d; searchQuery := or_empty storedQuery;
                           searchMode := or_empty storedMode; navigatedTo := navigatedTo st |}
            | None => navigate st "/error"
            end
        | None => navigate st "/error"
        end
      else navigate st "/"
  | None => navigate st "/"
  end.
End Mount.

(** ** The list of recommendations (lines 172-184) *)

Definition recommendations_of (rd : option jsval) : list jsval :=
  let data := match rd with Some d => d | None => JNull end in
  let rawRecs := opt_chain data "recommendations" in
  match rawRecs with
  | JArr xs => xs
  | _ =>
      if truthy rawRecs && String.eqb (typeof rawRecs) "object" then
        match object_values rawRecs with Some vs => vs | None => [] end
      else
        let r := opt_chain data "recommendation" in
        if truthy r then [r] else []
  end.

(** ** Rendering *)

Inductive Slot := Hidden | Shown (text : string) | Stray (text : string).

Record Card := mkCard {
  card_image : option string;
  card_rating : Slot;
  card_name : string;
  card_description : string;
  card_location : Slot;
  card_link : option string
}.

Inductive Block :=
| Spinner
| Summary (badge query : string)
| Analysis (paragraphs : list string)
| MessageBox (text : string)
| TextRecs (heading content : string) (count : option string)
| Cards (heading count : string) (cards : list Card)
| NoResults
| StrayText (text : string)
| Actions.

Section Render.
Context `{JsEngine}.

(** The text React renders for a child value; [None] when it throws. *)
Fixpoint jsx_text (v : jsval) : option string :=
  match v with
  | JUndefined | JNull | JBool _ | JFun _ => Some ""
  | JNum _ => Some (to_string v)
  | JStr s => Some s
  | JArr xs =>
      (fix go (l : list jsval) : option string :=
         match l with
         | [] => Some ""
         | x :: r => let? a := jsx_text x in let? b := go r in Some (a ++ b)%string
         end) xs
  | JObj _ => None
  end.

(** [{a && <X>{a}</X>}]. *)
Definition slot (a : jsval) : option Slot :=
  if truthy a then let? t := jsx_text a in Some (Shown t)
  else match a with JNum _ => Some (Stray (to_string a)) | _ => Some Hidden end.

(** What [{a && ...}] renders when [a] is falsy. *)
Definition stray (a : jsval) : list Block :=
  match a with JNum _ => [StrayText (to_string a)] | _ => [] end.

Definition count_text (n : nat) : string := to_string (JNum (float_of_nat n)).

Definition heading (tourist : bool) : string :=
  if tourist then "สถานที่แนะนำ" else "คำแนะนำทางธุรกิจ".

Definition nl : string := String (ascii_of_nat 10) EmptyString.

(** The item of the text list (lines 142-148). *)
Definition text_item (index : nat) (rec : jsval) : option string :=
  let? name := js_get rec "name" in
  let? location := js_get rec "location" in
  let? rating := js_get rec "rating" in
  let? description := js_get rec "description" in
  let? url := js_get rec "google_maps_url" in
  Some (to_string (JNum (float_of_nat index + 1)%float) ++ ". "
        ++ to_string (js_or name (JStr "ไม่ระบุชื่อ")) ++ nl
        ++ "   📍 " ++ to_string (js_or location (JStr "ไม่ระบุตำแหน่ง")) ++ nl
        ++ "   ⭐ คะแนน: " ++ to_string (js_or rating (JStr "ไม่มีคะแนน")) ++ nl
        ++ "   📝 " ++ to_string (js_or description (JStr "ไม่มีคำอธิบาย")) ++ nl
        ++ "   " ++ (if truthy url then "🗺️ Google Maps: " ++ to_string url else "") ++ nl
        ++ "   " ++ nl)%string.

(** Lines 120-125: the text fields the function looks for. *)
Definition textContent (data : jsval) : option jsval :=
  js_get data "recommendations_text" ||? js_get data "suggestion_text"
  ||? js_get data "places_text" ||? js_get data "text_recommendations"
  ||? js_get data "formatted_recommendations".

Definition renderTextRecommendations (tourist : bool) (data : jsval) (recs : list jsval)
  : option (list Block) :=
  let? tc := textContent data in
  if truthy tc then let? t := jsx_text tc in Some [TextRecs (heading tourist) t None]
  else if (0 <? length recs)%nat then
    let? items := map_option_from text_item 0 recs in
    Some [TextRecs (heading tourist) (String.concat "" items) (Some (count_text (length recs)))]
  else Some [].

(** Lines 108-115: the page [window.open] is given, if any. *)
Definition openGoogleMaps (url name : jsval) : option string :=
  if truthy url then Some (to_string url)
  else if truthy name then
    Some ("https://www.google.com/maps/search/" ++ encodeURIComponent (to_string name))%string
  else None.

Definition renderRecommendationCard (rec : jsval) : option Card :=
  let? image := js_get rec "image" in
  let? rating := js_get rec "rating" in
  let? rs := slot rating in
  let? name := js_get rec "name" in
  let? nm := jsx_text (js_or name (JStr "ไม่ระบุชื่อ")) in
  let? description := js_get rec "description" in
  let? ds := jsx_text (js_or description (JStr "ไม่มีคำอธิบาย")) in
  let? location := js_get rec "location" in
  let? ls := slot location in
  let? url := js_get rec "google_maps_url" in
  Some {| card_image := if truthy image then Some (to_string image) else None;
          card_rating := rs; card_name := nm; card_description := ds;
          card_location := ls; card_link := openGoogleMaps url name |}.

(** Lines 286-297. *)
Definition analysis_section (data : jsval) : option (list Block) :=
  let? analysis := js_get data "analysis" in
  if truthy analysis then
    match analysis with
    | JStr s => Some [Analysis (split_on (ascii_of_nat 10) s)]
    | _ => None
    end
  else Some (stray analysis).

(** Lines 300-304. *)
Definition message_section (data : jsval) : option (list Block) :=
  let? message := js_get data "message" in
  if truthy message then let? t := jsx_text message in Some [MessageBox t]
  else Some (stray message).

(** Lines 310-321. *)
Definition card_section (tourist : bool) (data : jsval) (recs : list jsval) : option (list Block) :=
  if (0 <? length recs)%nat then
    let? rt := js_get data "recommendations_text" in
    if negb (truthy rt) then
      let? sg := js_get data "suggestion_text" in
      if negb (truthy sg) then
        let? cards := map_option renderRecommendationCard recs in
        Some [Cards (if tourist then "สถานที่แนะนำ (รูปแบบการ์ด)" else "คำแนะนำทางธุรกิจ (รูปแบบการ์ด)")
                    (count_text (length recs)) cards]
      else Some []
    else Some []
  else Some [].

(** Lines 324-336. *)
Definition no_results_section (data : jsval) (recs : list jsval) : option (list Block) :=
  if (length recs =? 0)%nat then
    let? analysis := js_get data "analysis" in
    if negb (truthy analysis) then
      let? message := js_get data "message" in
      if negb (truthy message) then Some [NoResults] else Some []
    else Some []
  else Some [].

(** Lines 236-356. *)
Definition render (st : ResultsState) : option (list Block) :=
  match resultData st with
  | None => Some [Spinner]
  | Some data =>
      let recs := recommendations_of (resultData st) in
      let tourist := String.eqb (searchMode st) "tourist" in
      let badge := if tourist then "นักท่องเที่ยว" else "ผู้ประกอบการ" in
      let? analysis_blocks := analysis_section data in
      let? message_blocks := message_section data in
      let? text_blocks := renderTextRecommendations tourist data recs in
      let? card_blocks := card_section tourist data recs in
      let? none_blocks := no_results_section data recs in
      Some ([Summary badge (searchQuery st)] ++ analysis_blocks ++ message_blocks ++ text_blocks
            ++ card_blocks ++ none_blocks ++ [Actions])%list
  end.

End Render.

(** ** Normalisation as a pure function of a value that is not nullish *)

Definition list_sources (p : jsval) : list jsval :=
  [opt_chain p "recommendations"; opt_chain p "places"; opt_chain p "suggestions";
   opt_chain (opt_chain p "data") "recommendations";
   opt_chain (opt_chain p "result") "recommendations"].

(** The object [normalize] builds, written with [||] on values. *)
Definition normalized (p : jsval) : jsval :=
  let o k := opt_chain p k in
  let c k1 k2 := opt_chain (opt_chain p k1) k2 in
  JObj [("recommendations",
         js_or (js_or (js_or (js_or (js_or (o "recommendations") (o "places")) (o "suggestions"))
           (c "data" "recommendations")) (c "result" "recommendations")) (JArr []));
        ("recommendation",
         js_or (js_or (o "recommendation") (c "data" "recommendation")) (c "result" "recommendation"));
        ("analysis", js_or (js_or (o "analysis") (c "data" "analysis")) (c "result" "analysis"));
        ("message",
         js_or (js_or (js_or (o "message") (o "response")) (c "data" "message")) (c "result" "message"))].

Lemma js_or_m_some x y : js_or_m (Some x) (Some y) = Some (js_or x y).
Proof. unfold js_or_m, js_or. destruct (truthy x); reflexivity. Qed.

Lemma js_or_m_None b : js_or_m None b = None.
Proof. reflexivity. Qed.

Lemma chain_some v k1 k2 : nullish v = false -> chain v k1 k2 = Some (opt_chain (opt_chain v k1) k2).
Proof. intros Hn. unfold chain. rewrite (js_get_some v k1 Hn). apply js_opt_get_some. Qed.

Lemma normalize_some p : nullish p = false -> normalize p = Some (normalized p).
Proof.
  intros Hn. unfold normalize.
  rewrite !(js_get_some p _ Hn), !(chain_some p _ _ Hn), !js_or_m_some. reflexivity.
Qed.

Lemma normalize_nullish p : nullish p = true -> normalize p = None.
Proof. intros Hn. unfold normalize. rewrite (js_get_None p _ Hn). reflexivity. Qed.

(** The list [recommendations_of] reads from a normalised answer. *)
Lemma recommendations_normalized p :
  recommendations_of (Some (normalized p)) =
  let raw := js_or (js_or (js_or (js_or (js_or (opt_chain p "recommendations") (opt_chain p "places"))
               (opt_chain p "suggestions")) (opt_chain (opt_chain p "data") "recommendations"))
               (opt_chain (opt_chain p "result") "recommendations")) (JArr []) in
  match raw with
  | JArr xs => xs
  | _ =>
      if truthy raw && String.eqb (typeof raw) "object" then
        match object_values raw with Some vs => vs | None => [] end
      else
        let r := js_or (js_or (opt_chain p "recommendation") (opt_chain (opt_chain p "data") "recommendation"))
                   (opt_chain (opt_chain p "result") "recommendation") in
        if truthy r then [r] else []
  end.
Proof. reflexivity. Qed.

Lemma js_or_falsy_chain a b c d e :
  forallb (fun v => negb (truthy v)) [a; b; c; d; e] = true ->
  js_or (js_or (js_or (js_or (js_or a b) c) d) e) (JArr []) = JArr [].
Proof.
  simpl. intros H. repeat (apply andb_prop in H as [H1 H]; apply negb_true_iff in H1;
    rewrite ?(js_or_falsy _ _ H1)). unfold js_or. simpl in *.
  destruct (truthy a), (truthy b), (truthy c), (truthy d), (truthy e); simpl in *; congruence.
Qed.

(** ** The sections of a rendered page *)

Definition is_listing (b : Block) : bool :=
  match b with TextRecs _ _ _ | Cards _ _ _ => true | _ => false end.

Lemma render_some_inv `{JsEngine} st d bs :
  resultData st = Some d -> render st = Some bs ->
  let recs := recommendations_of (Some d) in
  let tourist := String.eqb (searchMode st) "tourist" in
  exists a m t c n,
    analysis_section d = Some a /\ message_section d = Some m /\
    renderTextRecommendations tourist d recs = Some t /\
    card_section tourist d recs = Some c /\ no_results_section d recs = Some n /\
    bs = ([Summary (if tourist then "นักท่องเที่ยว" else "ผู้ประกอบการ") (searchQuery st)]
          ++ a ++ m ++ t ++ c ++ n ++ [Actions])%list.
Proof.
  intros Hd Hb. unfold render in Hb. rewrite Hd in Hb. cbv zeta in *.
  destruct (analysis_section d) as [a|]; [|discriminate].
  destruct (message_section d) as [m|]; [|discriminate].
  destruct (renderTextRecommendations _ d _) as [t|]; [|discriminate].
  destruct (card_section _ d _) as [c|]; [|discriminate].
  destruct (no_results_section d _) as [n|]; [|discriminate].
  exists a, m, t, c, n. inversion Hb. auto 7.
Qed.

Lemma stray_no_listing `{JsEngine} v : existsb is_listing (stray v) = false.
Proof. destruct v; reflexivity. Qed.

Lemma analysis_no_listing `{JsEngine} d a : analysis_section d = Some a -> existsb is_listing a = false.
Proof.
  unfold analysis_section. destruct (js_get d "analysis") as [v|]; [|discriminate].
  destruct (truthy v); [destruct v; intros Ha; inversion Ha; reflexivity|].
  intros Ha; inversion Ha; apply stray_no_listing.
Qed.

Lemma message_no_listing `{JsEngine} d m : message_section d = Some m -> existsb is_listing m = false.
Proof.
  unfold message_section. destruct (js_get d "message") as [v|]; [|discriminate].
  destruct (truthy v); [destruct (jsx_text v); intros Hm; inversion Hm; reflexivity|].
  intros Hm; inversion Hm; apply stray_no_listing.
Qed.

Lemma no_results_no_listing d recs n : no_results_section d recs = Some n -> existsb is_listing n = false.
Proof.
  unfold no_results_section. destruct_ifs; try (intros Hn; inversion Hn; reflexivity).
  destruct (js_get d "analysis") as [v|]; [|discriminate]. destruct_ifs; try (intros Hn; inversion Hn; reflexivity).
  destruct (js_get d "message") as [w|]; [|discriminate]. destruct_ifs; intros Hn; inversion Hn; reflexivity.
Qed.

Lemma normalize_Some_inv p d : normalize p = Some d -> d = normalized p /\ nullish p = false.
Proof.
  destruct (nullish p) eqn:Hn.
  - rewrite (normalize_nullish p Hn). discriminate.
  - rewrite (normalize_some p Hn). intros Hd. inversion Hd. auto.
Qed.

(** Reading the fields of [renderTextRecommendations] from a normalised answer. *)
Lemma textContent_normalized p : textContent (normalized p) = Some JUndefined.
Proof. reflexivity. Qed.



(** ** Theorems *)

(** Normalising an answer throws (and the page goes to [/error])
    exactly when the parsed answer is [null]: every other JSON value, a
    number, a string or an array included, is normalised. *)
Theorem normalize_throws_iff p : normalize p = None <-> nullish p = true.
Proof.
  split; [|apply normalize_nullish].
  destruct (nullish p) eqn:Hn; [reflexivity|]. now rewrite (normalize_some p Hn).
Qed.

(** C10. The normalised object has only four fields, so the text fields
    [renderTextRecommendations] looks for (lines 120-125) and the two the
    card section tests (line 310) are always [undefined]: the branch that
    shows a textual answer (lines 127-136) is never taken. *)
Theorem text_fields_never_reach_page p d :
  normalize p = Some d ->
  textContent d = Some JUndefined /\
  js_get d "recommendations_text" = Some JUndefined /\ js_get d "suggestion_text" = Some JUndefined.
Proof. intros Hd. apply normalize_Some_inv in Hd as [-> _]. repeat split. Qed.

Lemma text_fields_never_reach_page_witness :
  normalize (JObj [("recommendations_text", JStr "1. Doi Suthep")]) =
    Some (normalized (JObj [("recommendations_text", JStr "1. Doi Suthep")])) /\
  textContent (normalized (JObj [("recommendations_text", JStr "1. Doi Suthep")])) = Some JUndefined.
Proof.
  assert (H : normalize (JObj [("recommendations_text", JStr "1. Doi Suthep")]) =
    Some (normalized (JObj [("recommendations_text", JStr "1. Doi Suthep")]))) by reflexivity.
  split; [exact H|]. exact (proj1 (text_fields_never_reach_page _ _ H)).
Defined.

(** C11. When none of the five list fields is truthy, the normalised list
    is the fallback [[]], which is an array, so the single [recommendation]
    of lines 182-183 is never used: the page lists nothing, neither as text
    nor as cards, whatever [recommendation] holds. *)
Theorem single_recommendation_not_listed `{JsEngine} p d st bs :
  normalize p = Some d -> resultData st = Some d ->
  forallb (fun v => negb (truthy v)) (list_sources p) = true ->
  render st = Some bs ->
  recommendations_of (resultData st) = [] /\ existsb is_listing bs = false.
Proof.
  intros Hn Hd Hf Hb.
  destruct (render_some_inv st d bs Hd Hb) as (a & m & t & c & n & Ha & Hm & Ht & Hc & Hnr & ->).
  apply normalize_Some_inv in Hn as [-> _].
  assert (Hr : recommendations_of (Some (normalized p)) = []).
  { rewrite recommendations_normalized. cbv zeta. now rewrite js_or_falsy_chain. }
  rewrite Hd, Hr. split; [reflexivity|]. rewrite Hr in Ht, Hc.
  unfold renderTextRecommendations in Ht. rewrite textContent_normalized in Ht.
  simpl in Ht, Hc. inversion Ht; inversion Hc; subst.
  rewrite !existsb_app. simpl.
  rewrite (analysis_no_listing _ _ Ha), (message_no_listing _ _ Hm), (no_results_no_listing _ _ _ Hnr).
  reflexivity.
Qed.

Lemma single_recommendation_not_listed_witness :
  let p := JObj [("recommendation", JObj [("name", JStr "ดอยสุเทพ")])] in
  let st := {| resultData := Some (normalized p); searchQuery := "ดอยสุเทพ"; searchMode := "tourist";
               navigatedTo := None |} in
  render st = Some [Summary "นักท่องเที่ยว" "ดอยสุเทพ"; NoResults; Actions] /\
  recommendations_of (resultData st) = [] /\
  existsb is_listing [Summary "นักท่องเที่ยว" "ดอยสุเทพ"; NoResults; Actions] = false.
Proof.
  intros p st.
  assert (H1 : normalize p = Some (normalized p)) by reflexivity.
  assert (H2 : resultData st = Some (normalized p)) by reflexivity.
  assert (H3 : forallb (fun v => negb (truthy v)) (list_sources p) = true) by reflexivity.
  assert (H4 : render st = Some [Summary "นักท่องเที่ยว" "ดอยสุเทพ"; NoResults; Actions]) by (vm_compute; reflexivity).
  exact (conj H4 (single_recommendation_not_listed p _ st _ H1 H2 H3 H4)).
Defined.

Lemma recommendations_first_truthy p v :
  opt_chain p "recommendations" = v -> truthy v = true ->
  recommendations_of (Some (normalized p)) =
  match v with
  | JArr xs => xs
  | _ => if String.eqb (typeof v) "object" then match object_values v with Some vs => vs | None => [] end
         else let r := js_or (js_or (opt_chain p "recommendation") (opt_chain (opt_chain p "data") "recommendation"))
                        (opt_chain (opt_chain p "result") "recommendation") in
              if truthy r then [r] else []
  end.
Proof.
  intros Hv Ht. rewrite recommendations_normalized. cbv zeta. rewrite Hv.
  rewrite !(js_or_truthy v _ Ht), Ht. reflexivity.
Qed.

(** C12. The first list field that is present wins, even when it is an
    empty array: an answer with [recommendations: []] lists nothing, even
    if its [places] or [data.recommendations] are not empty. *)
Theorem first_list_source_wins p d xs :
  normalize p = Some d -> js_get p "recommendations" = Some (JArr xs) ->
  recommendations_of (Some d) = xs.
Proof.
  intros Hd Hx. apply normalize_Some_inv in Hd as [-> Hn].
  rewrite (js_get_some p _ Hn) in Hx. injection Hx as Hx.
  exact (recommendations_first_truthy p _ Hx eq_refl).
Qed.

Lemma first_list_source_wins_witness :
  let p := JObj [("recommendations", JArr []); ("places", JArr [JObj [("name", JStr "วัดพระสิงห์")]])] in
  normalize p = Some (normalized p) /\ js_get p "recommendations" = Some (JArr []) /\
  recommendations_of (Some (normalized p)) = [].
Proof.
  intros p. assert (H1 : normalize p = Some (normalized p)) by reflexivity.
  assert (H2 : js_get p "recommendations" = Some (JArr [])) by reflexivity.
  exact (conj H1 (conj H2 (first_list_source_wins p _ [] H1 H2))).
Defined.

(** An answer whose list is an object keyed by ids is listed by
    [Object.values]: integer keys in increasing order, then the other keys
    in the order they were written. *)
Theorem object_recommendations_values p d ps :
  normalize p = Some d -> js_get p "recommendations" = Some (JObj ps) ->
  recommendations_of (Some d) = map snd (ordered_props ps).
Proof.
  intros Hd Hx. apply normalize_Some_inv in Hd as [-> Hn].
  rewrite (js_get_some p _ Hn) in Hx. injection Hx as Hx.
  exact (recommendations_first_truthy p _ Hx eq_refl).
Qed.

Lemma object_recommendations_values_witness :
  let p := JObj [("recommendations", JObj [("2", JStr "b"); ("x", JStr "c"); ("1", JStr "a")])] in
  normalize p = Some (normalized p) /\
  js_get p "recommendations" = Some (JObj [("2", JStr "b"); ("x", JStr "c"); ("1", JStr "a")]) /\
  recommendations_of (Some (normalized p)) = [JStr "a"; JStr "b"; JStr "c"].
Proof.
  intros p. assert (H1 : normalize p = Some (normalized p)) by reflexivity.
  assert (H2 : js_get p "recommendations" = Some (JObj [("2", JStr "b"); ("x", JStr "c"); ("1", JStr "a")]))
    by reflexivity.
  refine (conj H1 (conj H2 _)). rewrite (object_recommendations_values p _ _ H1 H2). reflexivity.
Defined.

Lemma normalized_card_fields p :
  js_get (normalized p) "recommendations_text" = Some JUndefined /\
  js_get (normalized p) "suggestion_text" = Some JUndefined.
Proof. split; reflexivity. Qed.

(** Whenever a normalised answer has recommendations and the page
    renders, it lists them twice: once as the numbered text of lines
    139-162 and once as cards, both headed with the same count, one card
    per recommendation. *)
Theorem recommendations_listed_twice `{JsEngine} p d st bs :
  normalize p = Some d -> resultData st = Some d -> render st = Some bs ->
  recommendations_of (Some d) <> [] ->
  (exists h t, In (TextRecs h t (Some (count_text (length (recommendations_of (Some d)))))) bs) /\
  (exists h cs, In (Cards h (count_text (length (recommendations_of (Some d)))) cs) bs /\
                length cs = length (recommendations_of (Some d))).
Proof.
  intros Hn Hd Hb Hne.
  destruct (render_some_inv st d bs Hd Hb) as (a & m & t & c & n & _ & _ & Ht & Hc & _ & ->).
  apply normalize_Some_inv in Hn as [-> _].
  destruct (normalized_card_fields p) as [Hrt Hsg].
  unfold renderTextRecommendations in Ht. unfold card_section in Hc.
  rewrite textContent_normalized in Ht. rewrite Hrt, Hsg in Hc. cbn [truthy negb] in Ht, Hc.
  destruct (recommendations_of (Some (normalized p))) as [|r rs]; [contradiction|].
  cbn [length Nat.ltb Nat.leb] in Ht, Hc.
  destruct (map_option_from text_item 0 (r :: rs)) as [items|]; [|discriminate].
  destruct (map_option renderRecommendationCard (r :: rs)) as [cs|] eqn:Ecs; [|discriminate].
  injection Ht as <-. injection Hc as <-. split.
  - do 2 eexists. apply in_or_app; right. apply in_or_app; right. apply in_or_app; right.
    apply in_or_app; left. left. reflexivity.
  - do 2 eexists. split; [|exact (map_option_length _ _ _ Ecs)].
    apply in_or_app; right. apply in_or_app; right. apply in_or_app; right.
    apply in_or_app; right. apply in_or_app; left. left. reflexivity.
Qed.

Lemma recommendations_listed_twice_witness :
  let p := JObj [("places", JArr [JObj [("name", JStr "ตลาดวโรรส")]; JObj [("name", JStr "ดอยสุเทพ")]])] in
  let st := {| resultData := Some (normalized p); searchQuery := "ตลาด"; searchMode := "tourist";
               navigatedTo := None |} in
  exists bs, render st = Some bs /\
  (exists h t, In (TextRecs h t (Some (count_text (length (recommendations_of (Some (normalized p))))))) bs) /\
  (exists h cs, In (Cards h (count_text (length (recommendations_of (Some (normalized p))))) cs) bs /\
                length cs = length (recommendations_of (Some (normalized p)))).
Proof.
  intros p st.
  assert (H1 : normalize p = Some (normalized p)) by reflexivity.
  assert (H2 : resultData st = Some (normalized p)) by reflexivity.
  assert (H3 : recommendations_of (Some (normalized p)) <> []) by discriminate.
  destruct (render st) as [bs|] eqn:H4; [|vm_compute in H4; discriminate].
  exists bs. split; [reflexivity|]. exact (recommendations_listed_twice p _ st bs H1 H2 H4 H3).
Defined.

(** C13. A [null] among the recommendations makes the render throw: the
    text list reads [rec.name] of every element (line 142) before any card
    is drawn, so one [null] in an answer breaks the whole page. *)
Theorem null_recommendation_crashes `{JsEngine} p d st :
  normalize p = Some d -> resultData st = Some d -> In JNull (recommendations_of (Some d)) ->
  render st = None.
Proof.
  intros Hn Hd Hin. apply normalize_Some_inv in Hn as [-> _].
  unfold render. rewrite Hd. cbv zeta.
  destruct (analysis_section _); [|reflexivity]. destruct (message_section _); [|reflexivity].
  unfold renderTextRecommendations. rewrite textContent_normalized. cbn [truthy].
  destruct (recommendations_of (Some (normalized p))) as [|r rs] eqn:E; [destruct Hin|].
  cbn [length Nat.ltb Nat.leb].
  rewrite (map_option_from_None text_item (r :: rs) JNull Hin (fun i => eq_refl) 0). reflexivity.
Qed.

Lemma null_recommendation_crashes_witness :
  let p := JObj [("recommendations", JArr [JObj [("name", JStr "ดอยสุเทพ")]; JNull])] in
  let st := {| resultData := Some (normalized p); searchQuery := ""; searchMode := "tourist";
               navigatedTo := None |} in
  In JNull (recommendations_of (Some (normalized p))) /\ render st = None.
Proof.
  intros p st.
  assert (H1 : normalize p = Some (normalized p)) by reflexivity.
  assert (H2 : resultData st = Some (normalized p)) by reflexivity.
  assert (H3 : In JNull (recommendations_of (Some (normalized p)))) by (simpl; auto).
  exact (conj H3 (null_recommendation_crashes p _ st H1 H2 H3)).
Defined.

(** C14. An analysis that is truthy but not a string (an object, an array,
    a number) makes the render throw at [analysis.split] (line 290). *)
Theorem analysis_non_string_crashes `{JsEngine} d st a :
  resultData st = Some d -> js_get d "analysis" = Some a -> truthy a = true ->
  (forall s, a <> JStr s) -> render st = None.
Proof.
  intros Hd Ha Ht Hs. unfold render. rewrite Hd. cbv zeta.
  unfold analysis_section. rewrite Ha, Ht. destruct a; try reflexivity. now destruct (Hs s).
Qed.

Lemma analysis_non_string_crashes_witness :
  let p := JObj [("analysis", JObj [("summary", JStr "ok")])] in
  let st := {| resultData := Some (normalized p); searchQuery := ""; searchMode := "business";
               navigatedTo := None |} in
  js_get (normalized p) "analysis" = Some (JObj [("summary", JStr "ok")]) /\ render st = None.
Proof.
  intros p st.
  assert (H1 : resultData st = Some (normalized p)) by reflexivity.
  assert (H2 : js_get (normalized p) "analysis" = Some (JObj [("summary", JStr "ok")])) by reflexivity.
  split; [exact H2|].
  exact (analysis_non_string_crashes _ st _ H1 H2 eq_refl (fun s E => ltac:(discriminate E))).
Defined.

(** C15. A recommendation rated [0] (or [NaN]) shows a stray ["0"] in
    the corner of its card: [{rec.rating && ...}] (line 205) renders the
    falsy number itself. *)
Theorem falsy_rating_renders_stray `{JsEngine} rec c n :
  renderRecommendationCard rec = Some c -> js_get rec "rating" = Some (JNum n) ->
  truthy (JNum n) = false -> card_rating c = Stray (to_string (JNum n)).
Proof.
  intros Hc Hr Ht. unfold renderRecommendationCard, slot in Hc. rewrite Hr, Ht in Hc.
  repeat match type of Hc with
  | context [match ?x with Some _ => _ | None => None end] => destruct x; [|discriminate]
  end.
  injection Hc as <-. reflexivity.
Qed.

Lemma falsy_rating_renders_stray_witness :
  let rec := JObj [("name", JStr "ร้านกาแฟ"); ("rating", JNum 0)] in
  renderRecommendationCard rec =
    Some {| card_image := None; card_rating := Stray "0"; card_name := "ร้านกาแฟ";
            card_description := "ไม่มีคำอธิบาย"; card_location := Hidden;
            card_link := Some ("https://www.google.com/maps/search/" ++ encodeURIComponent "ร้านกาแฟ") |} /\
  card_rating {| card_image := None; card_rating := Stray "0"; card_name := "ร้านกาแฟ";
            card_description := "ไม่มีคำอธิบาย"; card_location := Hidden;
            card_link := Some ("https://www.google.com/maps/search/" ++ encodeURIComponent "ร้านกาแฟ") |}
  = Stray (to_string (JNum 0)).
Proof.
  intros rec.
  assert (H : renderRecommendationCard rec =
    Some {| card_image := None; card_rating := Stray "0"; card_name := "ร้านกาแฟ";
            card_description := "ไม่มีคำอธิบาย"; card_location := Hidden;
            card_link := Some ("https://www.google.com/maps/search/" ++ encodeURIComponent "ร้านกาแฟ") |})
    by (vm_compute; reflexivity).
  exact (conj H (falsy_rating_renders_stray rec _ 0 H eq_refl eq_refl)).
Defined.

(** Without a [google_maps_url], the card's button opens a search
    for the name, and the name is recovered exactly from the link:
    [decodeURIComponent] of the part after [/maps/search/] gives it back. *)
Theorem maps_search_link_roundtrip `{JsEngine} url name :
  truthy url = false -> name <> "" ->
  exists e, openGoogleMaps url (JStr name) = Some ("https://www.google.com/maps/search/" ++ e) /\
            decodeURIComponent e = Some name.
Proof.
  intros Hu Hn. exists (encodeURIComponent name). split; [|apply decode_encode].
  unfold openGoogleMaps. rewrite Hu. cbn [truthy to_string].
  destruct (String.eqb_spec name ""); [contradiction|reflexivity].
Qed.

Lemma maps_search_link_roundtrip_witness :
  truthy JNull = false /\ "วัดเจดีย์หลวง" <> "" /\
  exists e, openGoogleMaps JNull (JStr "วัดเจดีย์หลวง") = Some ("https://www.google.com/maps/search/" ++ e) /\
            decodeURIComponent e = Some "วัดเจดีย์หลวง".
Proof.
  assert (H1 : truthy JNull = false) by reflexivity.
  assert (H2 : "วัดเจดีย์หลวง" <> "") by discriminate.
  exact (conj H1 (conj H2 (maps_search_link_roundtrip JNull _ H1 H2))).
Defined.

(** The page holds a result after mounting exactly when a non-empty
    answer was stored, it parses, and it is not [null]; the result is then
    the normalised answer (otherwise the page navigates away). *)
Theorem on_mount_result_iff json_parse sr sq sm d :
  resultData (on_mount json_parse sr sq sm results_initial) = Some d <->
  exists s p, sr = Some s /\ s <> "" /\ json_parse s = Some p /\ nullish p = false /\ d = normalized p.
Proof.
  unfold on_mount. split.
  - destruct sr as [s|]; [|discriminate].
    destruct (String.eqb_spec s ""); [discriminate|]. cbn [negb].
    destruct (json_parse s) as [p|] eqn:Hp; [|discriminate].
    destruct (nullish p) eqn:Hn; [rewrite (normalize_nullish p Hn); discriminate|].
    rewrite (normalize_some p Hn). cbn. intros Hd; injection Hd as <-. exists s, p. auto 6.
  - intros (s & p & -> & Hs & Hp & Hn & ->).
    destruct (String.eqb_spec s ""); [contradiction|]. cbn [negb].
    rewrite Hp, (normalize_some p Hn). reflexivity.
Qed.

End Results.
