(* ===== verification/Routes.v ===== *)
(** * Routes: the route handlers of [src/app/api]

    Five POST handlers forward the request to the Python service behind an
    ngrok tunnel and one GET handler asks OpenWeatherMap:
    - [recommend-places], [recommend-new-investment] and
      [analyze-existing-investment] (three copies of one handler, [proxy_POST]
      with a [ProxyConfig]) read the upstream answer as text, keep a text
      that is not JSON under [message] and one more field, and answer 500
      with an [error], the [details] of the exception and a default field;
    - [typhoon-chat] parses the upstream answer with [response.json()], so a
      text that is not JSON is an error;
    - [analyze-image] forwards the form data and answers 500 without details;
    - [weather] defaults the coordinates, extracts eight fields of the
      OpenWeatherMap answer, and answers 500 with fixed data on any error.
    Each handler is an [Http Response] program over the incoming request. *)

From Stdlib Require Import Ascii String ZArith Bool Floats List Lia NArith.
From S2P Require Import Prelude Float64 JsEngine JsValue Json Http.
Import ListNotations.

#[local] Set Warnings "-inexact-float".
Local Open Scope string_scope.
Local Open Scope http_scope.

Module Routes.

Definition ngrok_base : string := "https://2f2a-203-156-9-142.ngrok-free.app".

(** ** The three copies of the proxy handler *)

Record ProxyConfig := mkProxyConfig {
  px_endpoint : string;
  px_text_key : string;
  px_error : string;
  px_default : string * jsval
}.

Definition cors_post : list (string * string) :=
  [("Access-Control-Allow-Origin", "*"); ("Access-Control-Allow-Methods", "POST, OPTIONS");
   ("Access-Control-Allow-Headers", "Content-Type")].

Definition upstream_request `{Json} (url : string) (body : jsval) (accept : bool) : Request :=
  {| req_url := url; req_method := "POST";
     req_headers := [("Content-Type", "application/json"); ("ngrok-skip-browser-warning", "true")]
                    ++ (if accept then [("Accept", "application/json")] else []);
     req_body := TextBody (json_stringify body) |}.

Definition status_error (status : N) : string :=
  "API responded with status: " ++ N_to_decimal status.

(** The value of a text that is not JSON (lines 33-36). *)
Definition text_fallback (cfg : ProxyConfig) (responseText : string) : jsval :=
  JObj [("message", JStr responseText); (px_text_key cfg, JStr responseText)].

Definition proxy_error_body (cfg : ProxyConfig) (msg : string) : jsval :=
  JObj [("error", JStr (px_error cfg)); ("details", JStr msg); px_default cfg].

Definition proxy_POST `{Json} (cfg : ProxyConfig) (request : Request) : Http Response :=
  catch
    (body <- request_json request ;;
     response <- fetch (upstream_request (px_endpoint cfg) body true) ;;
     let responseText := res_body response in
     if negb (ok (res_status response)) then throw (status_error (res_status response))
     else
       let data := match json_parse responseText with
                   | Some d => d
                   | None => text_fallback cfg responseText
                   end in
       ret (json_response 200 data cors_post))
    (fun msg => ret (json_response 500 (proxy_error_body cfg msg) [("Access-Control-Allow-Origin", "*")])).

Definition recommend_places_cfg : ProxyConfig :=
  {| px_endpoint := ngrok_base ++ "/recommend-places/"; px_text_key := "recommendations";
     px_error := "Failed to fetch recommendations"; px_default := ("recommendations", JArr []) |}.

Definition recommend_new_investment_cfg : ProxyConfig :=
  {| px_endpoint := ngrok_base ++ "/recommend-new-investment/"; px_text_key := "recommendation";
     px_error := "Failed to fetch investment recommendations";
     px_default := ("recommendation", JStr "ไม่สามารถให้คำแนะนำได้ในขณะนี้") |}.

Definition analyze_existing_investment_cfg : ProxyConfig :=
  {| px_endpoint := ngrok_base ++ "/analyze-existing-investment/"; px_text_key := "analysis";
     px_error := "Failed to analyze existing investment";
     px_default := ("analysis", JStr "ไม่สามารถวิเคราะห์ได้ในขณะนี้") |}.

Definition recommend_places_POST `{Json} := proxy_POST recommend_places_cfg.
Definition recommend_new_investment_POST `{Json} := proxy_POST recommend_new_investment_cfg.
Definition analyze_existing_investment_POST `{Json} := proxy_POST analyze_existing_investment_cfg.

(** ** [typhoon-chat] *)

Definition chat_error_body (msg : string) : jsval :=
  JObj [("error", JStr "Failed to get chat response"); ("details", JStr msg);
        ("response", JStr "ขออภัย ไม่สามารถตอบคำถามได้ในขณะนี้")].

Definition typhoon_chat_POST `{Json} (request : Request) : Http Response :=
  catch
    (body <- request_json request ;;
     response <- fetch (upstream_request (ngrok_base ++ "/typhoon-chat/") body false) ;;
     if negb (ok (res_status response)) then throw (status_error (res_status response))
     else data <- parse_json (res_body response) ;; ret (json_response 200 data []))
    (fun msg => ret (json_response 500 (chat_error_body msg) [])).

(** ** [analyze-image] *)

(** [await request.formData()]: undici's TypeError on another body. *)
Definition request_form (request : Request) : Http (list string) :=
  match req_body request with
  | FormBody files => ret files
  | _ => throw "Could not parse content as FormData."
  end.

Definition analyze_image_POST `{Json} (request : Request) : Http Response :=
  catch
    (files <- request_form request ;;
     response <- fetch {| req_url := ngrok_base ++ "/analyze-image/"; req_method := "POST";
                          req_headers := [("ngrok-skip-browser-warning", "true")];
                          req_body := FormBody files |} ;;
     if negb (ok (res_status response)) then throw (status_error (res_status response))
     else data <- parse_json (res_body response) ;; ret (json_response 200 data []))
    (fun _ => ret (json_response 500 (JObj [("error", JStr "Failed to analyze image")]) [])).

(** ** [weather] *)

(** [searchParams.get(k) || fallback]. *)
Definition param_or (query : list (string * string)) (k fallback : string) : string :=
  match assoc_get k query with
  | Some v => if String.eqb v "" then fallback else v
  | None => fallback
  end.

Definition weather_url (lat lon : string) : string :=
  "https://api.openweathermap.org/data/2.5/weather?lat=" ++ lat ++ "&lon=" ++ lon
  ++ "&appid=973959347b8a6178b1089d57b2fddf0a&units=metric&lang=th".

Definition cors_get : list (string * string) :=
  [("Access-Control-Allow-Origin", "*"); ("Access-Control-Allow-Methods", "GET, OPTIONS");
   ("Access-Control-Allow-Headers", "Content-Type")].

Definition weather_fallback (msg : string) : jsval :=
  JObj [("error", JStr "Failed to fetch weather data"); ("details", JStr msg);
        ("temperature", JNum 28); ("description", JStr "ท้องฟ้าแจ่มใส"); ("humidity", JNum 65);
        ("windSpeed", JNum 2.5); ("icon", JStr "01d"); ("pressure", JNum 1013);
        ("visibility", JNum 10000); ("feelsLike", JNum 30)].

Section Weather.
Context `{JsEngine} `{Json}.

(** [Math.round(v)] of a value. *)
Definition round_value (v : jsval) : jsval := JNum (math_round (to_number v)).

Definition weather_GET (query : list (string * string)) : Http Response :=
  catch
    (let lat := param_or query "lat" "18.8022" in
     let lon := param_or query "lon" "98.9525" in
     response <- fetch {| req_url := weather_url lat lon; req_method := "GET";
                          req_headers := [("Accept", "application/json")]; req_body := NoBody |} ;;
     if negb (ok (res_status response))
     then throw ("Weather API responded with status: " ++ N_to_decimal (res_status response))
     else
       data <- parse_json (res_body response) ;;
       main <- get data "main" ;; temp <- get main "temp" ;;
       weather <- get data "weather" ;; w0 <- get weather "0" ;; description <- get w0 "description" ;;
       main' <- get data "main" ;; humidity <- get main' "humidity" ;;
       wind <- get data "wind" ;; speed <- get wind "speed" ;;
       weather' <- get data "weather" ;; w0' <- get weather' "0" ;; icon <- get w0' "icon" ;;
       main'' <- get data "main" ;; pressure <- get main'' "pressure" ;;
       visibility <- get data "visibility" ;;
       main''' <- get data "main" ;; feels <- get main''' "feels_like" ;;
       ret (json_response 200
              (JObj [("temperature", round_value temp); ("description", description);
                     ("humidity", humidity); ("windSpeed", speed); ("icon", icon);
                     ("pressure", pressure); ("visibility", visibility);
                     ("feelsLike", round_value feels)]) cors_get))
    (fun msg => ret (json_response 500 (weather_fallback msg) [("Access-Control-Allow-Origin", "*")])).

End Weather.

(** The request the weather route sends upstream. *)
Definition weather_request (lat lon : string) : Request :=
  {| req_url := weather_url lat lon; req_method := "GET";
     req_headers := [("Accept", "application/json")]; req_body := NoBody |}.

(** The three proxies. *)
Definition proxy_configs : list ProxyConfig :=
  [recommend_places_cfg; recommend_new_investment_cfg; analyze_existing_investment_cfg].

(** ** What the proxy does, run against any network *)

(** The text of the request as [request.json()] reads it. *)
Definition request_text (rq : Request) : option string :=
  match req_body rq with TextBody t => Some t | NoBody => Some "" | FormBody _ => None end.

Definition proxy_answer `{Json} (cfg : ProxyConfig) (body : jsval) (a : FetchResult) : Response :=
  match a with
  | NetworkError msg => json_response 500 (proxy_error_body cfg msg) [("Access-Control-Allow-Origin", "*")]
  | Reply r =>
      if ok (res_status r) then
        json_response 200 (match json_parse (res_body r) with Some d => d | None => text_fallback cfg (res_body r) end)
          cors_post
      else json_response 500 (proxy_error_body cfg (status_error (res_status r)))
             [("Access-Control-Allow-Origin", "*")]
  end.

Lemma proxy_POST_run `{Json} cfg rq net :
  run_http net (proxy_POST cfg rq) =
  match request_text rq with
  | Some t =>
      match json_parse t with
      | Some body =>
          ([upstream_request (px_endpoint cfg) body true],
           Return (proxy_answer cfg body (net (upstream_request (px_endpoint cfg) body true))))
      | None => ([], Return (json_response 500 (proxy_error_body cfg (json_error t))
                                            [("Access-Control-Allow-Origin", "*")]))
      end
  | None => ([], Return (json_response 500 (proxy_error_body cfg (json_error ""))
                                      [("Access-Control-Allow-Origin", "*")]))
  end.
Proof.
  unfold proxy_POST, request_json, request_text, parse_json.
  destruct (req_body rq) as [|t|fs]; cbn [bind catch ret throw];
    try (destruct (json_parse _) as [body|]; [|reflexivity]); try reflexivity;
    cbn [bind catch fetch run_http ret throw];
    destruct (net (upstream_request (px_endpoint cfg) body true)) as [msg|r]; try reflexivity;
    cbn [bind catch run_http proxy_answer ret throw]; destruct (ok (res_status r)); reflexivity.
Qed.

Lemma request_json_text `{Json} rq t : request_text rq = Some t -> request_json rq = parse_json t.
Proof. unfold request_text, request_json. destruct (req_body rq); intros E; inversion E; reflexivity. Qed.

Lemma text_fallback_json cfg t : In cfg proxy_configs -> is_json (text_fallback cfg t) = true.
Proof. intros [<-|[<-|[<-|[]]]]; reflexivity. Qed.

(** [NextResponse.json] of a JSON value: the content type is JSON and
    [JSON.parse] reads the body back. *)
Lemma json_response_readable `{JsonLaws} status v hdrs :
  is_json v = true ->
  In ("content-type", "application/json") (res_headers (json_response status v hdrs)) /\
  json_parse (res_body (json_response status v hdrs)) = Some v.
Proof. intros Hv. split; [left; reflexivity|apply parse_stringify, Hv]. Qed.

Lemma proxy_error_body_json cfg msg : In cfg proxy_configs -> is_json (proxy_error_body cfg msg) = true.
Proof. intros [<-|[<-|[<-|[]]]]; reflexivity. Qed.


(** ** Theorems *)

(** C21. A proxy handler sends exactly one request upstream, to its
    endpoint with the parsed body, when the incoming body is JSON, and none
    otherwise; this holds whatever the network answers, so the 2xx and the
    failure paths send the same single request. *)
Theorem proxy_requests_sent `{Json} cfg rq net :
  fst (run_http net (proxy_POST cfg rq)) =
  match request_text rq with
  | Some t => match json_parse t with
              | Some body => [upstream_request (px_endpoint cfg) body true]
              | None => []
              end
  | None => []
  end.
Proof.
  rewrite proxy_POST_run. destruct (request_text rq) as [t|]; [|reflexivity].
  destruct (json_parse t); reflexivity.
Qed.

(** A proxy handler never throws: it answers 200 exactly when the
    request body is JSON, the upstream service answers, and its status is
    2xx; in every other case it answers 500. *)
Theorem proxy_status_200_iff `{Json} cfg rq net :
  exists resp, snd (run_http net (proxy_POST cfg rq)) = Return resp /\
    (res_status resp = 200%N \/ res_status resp = 500%N) /\
    (res_status resp = 200%N <->
     exists t body r, request_text rq = Some t /\ json_parse t = Some body /\
       net (upstream_request (px_endpoint cfg) body true) = Reply r /\ ok (res_status r) = true).
Proof.
  rewrite proxy_POST_run. destruct (request_text rq) as [t|] eqn:Et.
  2:{ eexists; split; [reflexivity|]. split; [now right|]. split; [discriminate|].
      intros (t' & _ & _ & E & _); discriminate. }
  destruct (json_parse t) as [body|] eqn:Ep.
  2:{ eexists; split; [reflexivity|]. split; [now right|]. split; [discriminate|].
      intros (t' & b & _ & E & E' & _); injection E as <-; congruence. }
  eexists; split; [reflexivity|]. unfold proxy_answer.
  destruct (net (upstream_request (px_endpoint cfg) body true)) as [msg|r] eqn:En.
  - split; [now right|]. split; [discriminate|].
    intros (t' & b & r & E & E' & E'' & _). injection E as <-. rewrite Ep in E'. injection E' as <-. congruence.
  - destruct (ok (res_status r)) eqn:Eo.
    + split; [now left|]. split; [intros _; exists t, body, r; auto|reflexivity].
    + split; [now right|]. split; [discriminate|].
      intros (t' & b & r' & E & E' & E'' & Eo'). injection E as <-. rewrite Ep in E'. injection E' as <-.
      rewrite En in E''. injection E'' as <-. congruence.
Qed.

(** When the service answers 2xx with a text that is not JSON, the
    proxy answers 200 with that text under [message] and under its own
    field, and the client reads this object back from the response. *)
Theorem proxy_text_answer_readable `{JsonLaws} cfg rq net t body r :
  In cfg proxy_configs ->
  request_text rq = Some t -> json_parse t = Some body ->
  net (upstream_request (px_endpoint cfg) body true) = Reply r -> ok (res_status r) = true ->
  json_parse (res_body r) = None ->
  exists resp, snd (run_http net (proxy_POST cfg rq)) = Return resp /\ res_status resp = 200%N /\
    json_parse (res_body resp) = Some (JObj [("message", JStr (res_body r)); (px_text_key cfg, JStr (res_body r))]).
Proof.
  intros Hk Ht Hb Hn Ho Hp. rewrite proxy_POST_run, Ht, Hb. eexists; split; [reflexivity|].
  unfold proxy_answer. rewrite Hn, Ho, Hp. split; [reflexivity|].
  cbn [json_response res_body]. apply parse_stringify, text_fallback_json, Hk.
Qed.

Lemma proxy_text_answer_readable_witness :
  let body := JObj [("user_message", JStr "คาเฟ่")] in
  let rq := {| req_url := "/api/recommend-places"; req_method := "POST"; req_headers := [];
               req_body := TextBody (json_stringify body) |} in
  let r := {| res_status := 200; res_headers := []; res_body := "Service busy" |} in
  let net := fun _ : Request => Reply r in
  exists resp, snd (run_http net (proxy_POST recommend_places_cfg rq)) = Return resp /\
    res_status resp = 200%N /\
    json_parse (res_body resp) = Some (JObj [("message", JStr "Service busy"); ("recommendations", JStr "Service busy")]).
Proof.
  intros body rq r net.
  exact (proxy_text_answer_readable recommend_places_cfg rq net _ body r ltac:(left; reflexivity)
           eq_refl ltac:(vm_compute; reflexivity) eq_refl eq_refl ltac:(vm_compute; reflexivity)).
Defined.

(** C22. Every answer of the three proxies is a JSON response: whatever
    the request and the network, the handler returns (it never throws) a
    response whose content type is [application/json] and whose body
    [JSON.parse] reads back as a JSON value, provided the service's own
    JSON answers are JSON values. *)
Theorem proxy_answers_json `{JsonLaws} cfg rq net :
  In cfg proxy_configs ->
  (forall rq' r d, net rq' = Reply r -> json_parse (res_body r) = Some d -> is_json d = true) ->
  exists resp v, snd (run_http net (proxy_POST cfg rq)) = Return resp /\ is_json v = true /\
    In ("content-type", "application/json") (res_headers resp) /\ json_parse (res_body resp) = Some v.
Proof.
  intros Hc Hd. rewrite proxy_POST_run.
  assert (G : forall status v hdrs, is_json v = true -> exists resp v',
            Return (json_response status v hdrs) = Return resp /\ is_json v' = true /\
            In ("content-type", "application/json") (res_headers resp) /\ json_parse (res_body resp) = Some v')
    by (intros status v hdrs Hv; exists (json_response status v hdrs), v;
        destruct (json_response_readable status v hdrs Hv); auto).
  destruct (request_text rq) as [t|]; [destruct (json_parse t) as [body|]|]; cbn [snd];
    try (apply G, proxy_error_body_json, Hc).
  unfold proxy_answer. destruct (net (upstream_request (px_endpoint cfg) body true)) as [msg|r] eqn:En;
    [apply G, proxy_error_body_json, Hc|].
  destruct (ok (res_status r)); [|apply G, proxy_error_body_json, Hc].
  apply G. destruct (json_parse (res_body r)) as [d|] eqn:Ep; [exact (Hd _ r d En Ep)|].
  apply text_fallback_json, Hc.
Qed.

Lemma proxy_answers_json_witness :
  let r := mkResponse 200 [] (json_stringify (JObj [("recommendations", JArr [JStr "Ristr8to"])])) in
  exists resp v, snd (run_http (fun _ => Reply r) (proxy_POST recommend_places_cfg
                      (mkRequest "/api/recommend-places" "POST" [] (TextBody (json_stringify (JObj []))))))
    = Return resp /\ is_json v = true /\
    In ("content-type", "application/json") (res_headers resp) /\ json_parse (res_body resp) = Some v.
Proof.
  intros r. apply (@proxy_answers_json ref_json ref_json_laws); [left; reflexivity|].
  intros rq' r' d E Hp. injection E as <-. vm_compute in Hp. injection Hp as <-. reflexivity.
Defined.

(** C23. Unlike the three proxies, the chat route answers 500 with its
    apology when the service answers 2xx with a text that is not JSON. *)
Theorem typhoon_chat_non_json_500 `{Json} rq net t body r :
  request_text rq = Some t -> json_parse t = Some body ->
  net (upstream_request (ngrok_base ++ "/typhoon-chat/") body false) = Reply r ->
  ok (res_status r) = true -> json_parse (res_body r) = None ->
  snd (run_http net (typhoon_chat_POST rq)) =
  Return (json_response 500 (chat_error_body (json_error (res_body r))) []).
Proof.
  intros Ht Hb Hn Ho Hp. unfold typhoon_chat_POST. rewrite (request_json_text rq t Ht).
  unfold parse_json. rewrite Hb. cbn [bind catch fetch run_http ret throw]. rewrite Hn.
  cbn [bind catch run_http ret throw]. rewrite Ho. cbn [negb]. rewrite Hp. reflexivity.
Qed.

Lemma typhoon_chat_non_json_500_witness :
  let body := JObj [("messages", JArr [])] in
  let rq := {| req_url := "/api/typhoon-chat"; req_method := "POST"; req_headers := [];
               req_body := TextBody (json_stringify body) |} in
  let r := {| res_status := 200; res_headers := []; res_body := "Service busy" |} in
  snd (run_http (fun _ => Reply r) (typhoon_chat_POST rq)) =
  Return (json_response 500 (chat_error_body (json_error "Service busy")) []).
Proof.
  intros body rq r.
  exact (@typhoon_chat_non_json_500 ref_json rq (fun _ => Reply r) _ body r eq_refl ltac:(vm_compute; reflexivity)
           eq_refl eq_refl ltac:(vm_compute; reflexivity)).
Defined.

Lemma weather_GET_sends `{JsEngine} `{Json} q net :
  fst (run_http net (weather_GET q)) =
  [weather_request (param_or q "lat" "18.8022") (param_or q "lon" "98.9525")].
Proof.
  unfold weather_GET. cbn [bind catch fetch run_http ret throw].
  destruct (net _) as [msg|r]; [reflexivity|].
  cbn [bind catch run_http ret throw]. destruct (negb (ok (res_status r))); [reflexivity|].
  unfold parse_json. destruct (json_parse (res_body r)) as [data|]; [|reflexivity].
  unfold get.
  repeat (cbn [bind catch run_http ret throw];
          match goal with
          | |- context [match js_get ?v ?k with Some _ => _ | None => _ end] => destruct (js_get v k)
          end); reflexivity.
Qed.

(** The weather route sends exactly one request upstream, and it asks
    for Nimmanhaemin (18.8022, 98.9525) when the query has no [lat] or
    [lon], or an empty one. *)
Theorem weather_default_location `{JsEngine} `{Json} q net :
  (assoc_get "lat" q = None \/ assoc_get "lat" q = Some "") ->
  (assoc_get "lon" q = None \/ assoc_get "lon" q = Some "") ->
  fst (run_http net (weather_GET q)) = [weather_request "18.8022" "98.9525"].
Proof.
  intros Hlat Hlon. rewrite weather_GET_sends. unfold param_or.
  destruct Hlat as [-> | ->], Hlon as [-> | ->]; reflexivity.
Qed.

Lemma weather_default_location_witness :
  fst (run_http (fun _ => NetworkError "fetch failed") (weather_GET [("lon", "")])) =
  [weather_request "18.8022" "98.9525"].
Proof.
  exact (@weather_default_location ref_engine ref_json [("lon", "")] (fun _ => NetworkError "fetch failed")
           (or_introl eq_refl) (or_intror eq_refl)).
Defined.

(** A 2xx answer of OpenWeatherMap without [main] (its "city not
    found" shape) makes the route read [undefined.temp]; the TypeError is
    caught and the route answers 500 with the fixed data of lines 116-124. *)
Theorem weather_missing_main_fallback `{JsEngine} `{Json} q net r data :
  net (weather_request (param_or q "lat" "18.8022") (param_or q "lon" "98.9525")) = Reply r ->
  ok (res_status r) = true -> json_parse (res_body r) = Some data ->
  js_get data "main" = Some JUndefined ->
  snd (run_http net (weather_GET q)) =
  Return (json_response 500 (weather_fallback (type_error JUndefined "temp")) [("Access-Control-Allow-Origin", "*")]).
Proof.
  intros Hn Ho Hp Hm. unfold weather_GET. cbn [bind catch fetch run_http ret throw].
  fold (weather_request (param_or q "lat" "18.8022") (param_or q "lon" "98.9525")). rewrite Hn.
  cbn [bind catch run_http ret throw]. rewrite Ho. cbn [negb]. unfold parse_json. rewrite Hp.
  cbn [bind catch run_http ret throw]. unfold get. rewrite Hm. reflexivity.
Qed.

Lemma weather_missing_main_fallback_witness :
  let data := JObj [("cod", JStr "404"); ("message", JStr "city not found")] in
  let r := {| res_status := 200; res_headers := []; res_body := json_stringify data |} in
  snd (run_http (fun _ => Reply r) (weather_GET [])) =
  Return (json_response 500 (weather_fallback (type_error JUndefined "temp")) [("Access-Control-Allow-Origin", "*")]).
Proof.
  intros data r.
  exact (@weather_missing_main_fallback ref_engine ref_json [] (fun _ => Reply r) r data eq_refl eq_refl
           ltac:(vm_compute; reflexivity) eq_refl).
Defined.

End Routes.
