(* ===== verification/ApiService.v ===== *)
(** * ApiService: the client of [src/lib/api-service.ts]

    [APIService.makeRequest] posts JSON to an endpoint: in the browser to
    the route handler [/api<endpoint>], on the server directly to the ngrok
    service (with its header).  A response that is not 2xx is an [Error]
    ["HTTP <status>: <text>"]; otherwise the value is [response.json()].
    The five API methods call it (or, for images and weather, [fetch]) with
    their endpoints.

    [link] puts the two sides together: it runs a browser program and
    serves each of its requests to [/api/...] by the route handler of
    [Routes], whose own request goes to the network.  A handler that throws
    would answer 500; the modelled handlers never throw.  Only the five POST
    routes are linked: the browser's [GET /api/weather?...] of
    [getWeatherData] goes to the network as it is, and the weather route is
    studied on its own in [Routes]. *)

From Stdlib Require Import Ascii String ZArith Bool Floats List Lia NArith.
From S2P Require Import Prelude Float64 JsEngine JsValue Json Http Routes.
Import ListNotations Routes.

#[local] Set Warnings "-inexact-float".
Local Open Scope string_scope.
Local Open Scope http_scope.

Module ApiService.

Definition API_BASE_URL : string := ngrok_base.

Section Client.
Context `{JsEngine} `{Json}.

(** [typeof window !== "undefined"]. *)
Variable isBrowser : bool.

Definition request_of (endpoint : string) (data : jsval) : Request :=
  {| req_url := if isBrowser then "/api" ++ endpoint else API_BASE_URL ++ endpoint;
     req_method := "POST";
     req_headers := [("Content-Type", "application/json")]
                    ++ (if isBrowser then [] else [("ngrok-skip-browser-warning", "true")]);
     req_body := TextBody (json_stringify data) |}.

Definition http_error (status : N) (text : string) : string :=
  "HTTP " ++ N_to_decimal status ++ ": " ++ text.

Definition makeRequest (endpoint : string) (data : jsval) : Http jsval :=
  catch
    (response <- fetch (request_of endpoint data) ;;
     if negb (ok (res_status response)) then throw (http_error (res_status response) (res_body response))
     else parse_json (res_body response))
    (fun msg => throw msg).

Definition recommendPlaces (data : jsval) : Http jsval := makeRequest "/recommend-places" data.
Definition recommendNewInvestment (data : jsval) : Http jsval := makeRequest "/recommend-new-investment" data.
Definition analyzeExistingBusiness (data : jsval) : Http jsval := makeRequest "/analyze-existing-investment" data.
Definition chatWithTyphoon (data : jsval) : Http jsval := makeRequest "/typhoon-chat" data.

Definition analyzeImages (files : list string) : Http jsval :=
  response <- fetch {| req_url := if isBrowser then "/api/analyze-image" else API_BASE_URL ++ "/analyze-image";
                       req_method := "POST";
                       req_headers := if isBrowser then [] else [("ngrok-skip-browser-warning", "true")];
                       req_body := FormBody files |} ;;
  if negb (ok (res_status response)) then throw (http_error (res_status response) (res_body response))
  else parse_json (res_body response).

(** [`${lat || 18.8022}`] for an optional number. *)
Definition coord_or (v : jsval) (default : float) : string := to_string (js_or v (JNum default)).

Definition weather_client_url (lat lng : jsval) : string :=
  if isBrowser
  then "/api/weather?lat=" ++ coord_or lat 18.8022 ++ "&lon=" ++ coord_or lng 98.9525
  else "https://api.openweathermap.org/data/2.5/weather?lat=" ++ coord_or lat 18.8022 ++ "&lon="
       ++ coord_or lng 98.9525 ++ "&appid=973959347b8a6178b1089d57b2fddf0a&units=metric&lang=th".

Definition getWeatherData (lat lng : jsval) : Http jsval :=
  response <- fetch {| req_url := weather_client_url lat lng; req_method := "GET";
                       req_headers := if isBrowser then [] else [("Accept", "application/json")];
                       req_body := NoBody |} ;;
  if negb (ok (res_status response))
  then throw ("Weather API failed: " ++ N_to_decimal (res_status response))
  else parse_json (res_body response).

End Client.

(** ** The browser and the route handlers together *)

Section Link.
Context `{JsEngine} `{Json}.

(** The handler of a POST route, by URL. *)
Definition route_of (url : string) : option (Request -> Http Response) :=
  if String.eqb url "/api/recommend-places" then Some recommend_places_POST
  else if String.eqb url "/api/recommend-new-investment" then Some recommend_new_investment_POST
  else if String.eqb url "/api/analyze-existing-investment" then Some analyze_existing_investment_POST
  else if String.eqb url "/api/typhoon-chat" then Some typhoon_chat_POST
  else if String.eqb url "/api/analyze-image" then Some analyze_image_POST
  else None.

Definition internal_error : Response :=
  {| res_status := 500; res_headers := []; res_body := "Internal Server Error" |}.

Definition serve (h : Request -> Http Response) (rq : Request) : Http FetchResult :=
  catch (resp <- h rq ;; ret (Reply resp)) (fun _ => ret (Reply internal_error)).

Fixpoint link {A} (m : Http A) : Http A :=
  match m with
  | Done o => Done o
  | Fetch rq k =>
      match route_of (req_url rq) with
      | Some h => bind (serve h rq) (fun r => link (k r))
      | None => Fetch rq (fun r => link (k r))
      end
  end.

(** What [makeRequest] makes of the route's answer. *)
Definition client_read (resp : Response) : Outcome jsval :=
  if ok (res_status resp) then
    match json_parse (res_body resp) with Some v => Return v | None => Throw (json_error (res_body resp)) end
  else Throw (http_error (res_status resp) (res_body resp)).

(** The three proxies by the endpoint the client uses. *)
Definition proxy_endpoints : list (string * ProxyConfig) :=
  [("/recommend-places", recommend_places_cfg);
   ("/recommend-new-investment", recommend_new_investment_cfg);
   ("/analyze-existing-investment", analyze_existing_investment_cfg)].

End Link.

(** ** Lemmas *)

Lemma link_route_run `{JsEngine} `{Json} h ep data net :
  route_of ("/api" ++ ep) = Some h ->
  run_http net (link (makeRequest true ep data)) =
  let '(sent, o) := run_http net (h (request_of true ep data)) in
  (sent, match o with Return resp => client_read resp | Throw _ => client_read internal_error end).
Proof.
  intros Hr. unfold makeRequest. cbn [catch bind fetch link req_url request_of]. rewrite Hr.
  unfold serve. rewrite run_http_bind, run_http_catch, run_http_bind.
  destruct (run_http net (h _)) as [sent [resp|e]].
  - cbn [run_http catch bind ret throw link]. unfold client_read.
    destruct (ok (res_status resp)); cbn [negb bind catch link run_http ret throw];
      [unfold parse_json; destruct (json_parse (res_body resp)); cbn [link run_http catch ret throw]|];
      rewrite ?app_nil_r; reflexivity.
  - cbn [run_http catch bind ret throw link]. unfold client_read. cbn. rewrite ?app_nil_r. reflexivity.
Qed.

Lemma proxy_endpoint_route `{JsEngine} `{Json} ep cfg :
  In (ep, cfg) proxy_endpoints -> route_of ("/api" ++ ep) = Some (proxy_POST cfg).
Proof. simpl. intros [E|[E|[E|[]]]]; injection E as <- <-; reflexivity. Qed.

Lemma parse_request_of `{JsonLaws} ep data :
  is_json data = true -> request_text (request_of true ep data) = Some (json_stringify data) /\
  json_parse (json_stringify data) = Some data.
Proof. intros Hj. split; [reflexivity|apply parse_stringify, Hj]. Qed.

Lemma proxy_endpoint_config ep cfg : In (ep, cfg) proxy_endpoints -> In cfg proxy_configs.
Proof. simpl. intros [E|[E|[E|[]]]]; injection E as <- <-; cbn; tauto. Qed.

Lemma proxy_failure_status `{Json} cfg data a :
  (forall r, a = Reply r -> ok (res_status r) = false) -> res_status (proxy_answer cfg data a) = 500%N.
Proof.
  intros Hf. destruct a as [msg|r]; [reflexivity|]. unfold proxy_answer.
  rewrite (Hf r eq_refl). reflexivity.
Qed.

Lemma serve_no_throw `{Json} net h rq s e : run_http net (serve h rq) <> (s, Throw e).
Proof.
  unfold serve. rewrite run_http_catch, run_http_bind.
  destruct (run_http net (h rq)) as [s1 [a|e1]]; cbn; congruence.
Qed.

(** [link] distributes over sequencing and [try]/[catch], as runs. *)
Lemma run_link_bind `{JsEngine} `{Json} {A B} net (m : Http A) (f : A -> Http B) :
  run_http net (link (bind m f)) = run_http net (bind (link m) (fun a => link (f a))).
Proof.
  induction m as [[a|e]|rq k IH]; [reflexivity|reflexivity|].
  cbn [bind link]. destruct (route_of (req_url rq)) as [h|].
  - rewrite !run_http_bind. destruct (run_http net (serve h rq)) as [s1 [r|e]]; [|reflexivity].
    rewrite IH, run_http_bind.
    destruct (run_http net (link (k r))) as [s2 [a|e]]; [|reflexivity].
    destruct (run_http net (link (f a))). rewrite app_assoc. reflexivity.
  - cbn [run_http]. rewrite IH, !run_http_bind. cbn [run_http].
    destruct (run_http net (link (k (net rq)))) as [s [a|e]]; [destruct (run_http net (link (f a)))|];
      reflexivity.
Qed.

Lemma run_link_catch `{JsEngine} `{Json} {A} net (m : Http A) (h : string -> Http A) :
  run_http net (link (catch m h)) = run_http net (catch (link m) (fun e => link (h e))).
Proof.
  induction m as [[a|e]|rq k IH]; [reflexivity|reflexivity|].
  cbn [catch link]. destruct (route_of (req_url rq)) as [hd|].
  - rewrite run_http_bind, run_http_catch, run_http_bind.
    destruct (run_http net (serve hd rq)) as [s1 [r|e]] eqn:Es; [|exfalso; exact (serve_no_throw _ _ _ _ _ Es)].
    rewrite IH, run_http_catch. destruct (run_http net (link (k r))) as [s2 [a|e]]; [reflexivity|].
    destruct (run_http net (link (h e))). rewrite app_assoc. reflexivity.
  - cbn [run_http]. rewrite IH, !run_http_catch. cbn [run_http].
    destruct (run_http net (link (k (net rq)))) as [s [a|e]]; [|destruct (run_http net (link (h e)))];
      reflexivity.
Qed.

(** A proxy reached from the browser when the service answers 2xx. *)
Lemma browser_proxy_ok_run `{JsonLaws} ep cfg data net r :
  In (ep, cfg) proxy_endpoints -> is_json data = true ->
  net (upstream_request (px_endpoint cfg) data true) = Reply r -> ok (res_status r) = true ->
  (forall d, json_parse (res_body r) = Some d -> is_json d = true) ->
  run_http net (link (makeRequest true ep data)) =
  ([upstream_request (px_endpoint cfg) data true],
   Return (match json_parse (res_body r) with Some d => d | None => text_fallback cfg (res_body r) end)).
Proof.
  intros Hin Hj Ha Ho Hd. rewrite (link_route_run _ ep data net (proxy_endpoint_route ep cfg Hin)).
  destruct (parse_request_of ep data Hj) as [Ht Hp].
  rewrite proxy_POST_run, Ht, Hp, Ha. unfold client_read, proxy_answer. rewrite Ho.
  cbn [json_response res_status res_body ok]. cbn [N.leb N.compare Pos.compare Pos.compare_cont andb].
  destruct (json_parse (res_body r)) as [d|] eqn:E.
  - rewrite (parse_stringify d (Hd d eq_refl)). reflexivity.
  - rewrite (parse_stringify _ (text_fallback_json cfg _ (proxy_endpoint_config ep cfg Hin))). reflexivity.
Qed.

(** A proxy reached from the browser when the service fails. *)
Lemma browser_proxy_failure_run `{JsonLaws} ep cfg data net a :
  In (ep, cfg) proxy_endpoints -> is_json data = true ->
  net (upstream_request (px_endpoint cfg) data true) = a ->
  (forall r, a = Reply r -> ok (res_status r) = false) ->
  run_http net (link (makeRequest true ep data)) =
  ([upstream_request (px_endpoint cfg) data true],
   Throw (http_error 500 (res_body (proxy_answer cfg data a)))).
Proof.
  intros Hin Hj Ha Hf. rewrite (link_route_run _ ep data net (proxy_endpoint_route ep cfg Hin)).
  destruct (parse_request_of ep data Hj) as [Ht Hp].
  rewrite proxy_POST_run, Ht, Hp, Ha. unfold client_read.
  rewrite (proxy_failure_status cfg data a Hf). reflexivity.
Qed.

(** The chat route reached from the browser when the service answers 2xx
    with JSON. *)
Lemma browser_chat_ok_run `{JsonLaws} data net r d :
  is_json data = true ->
  net (upstream_request (ngrok_base ++ "/typhoon-chat/") data false) = Reply r -> ok (res_status r) = true ->
  json_parse (res_body r) = Some d -> is_json d = true ->
  run_http net (link (makeRequest true "/typhoon-chat" data)) =
  ([upstream_request (ngrok_base ++ "/typhoon-chat/") data false], Return d).
Proof.
  intros Hj Ha Ho Hp Hd. rewrite (link_route_run typhoon_chat_POST "/typhoon-chat" data net eq_refl).
  destruct (parse_request_of "/typhoon-chat" data Hj) as [Ht Hq].
  unfold typhoon_chat_POST. rewrite (request_json_text _ _ Ht). unfold parse_json at 1. rewrite Hq.
  cbn [bind catch fetch run_http ret throw]. rewrite Ha. cbn [bind catch run_http ret throw].
  rewrite Ho. cbn [negb]. unfold parse_json. rewrite Hp. cbn [bind catch run_http ret throw].
  unfold client_read. cbn [json_response res_status res_body ok]. cbn [N.leb N.compare Pos.compare Pos.compare_cont andb].
  rewrite (parse_stringify d Hd). reflexivity.
Qed.

(** The first request the browser's call sends upstream. *)
Lemma browser_proxy_sent `{JsonLaws} ep cfg data net :
  In (ep, cfg) proxy_endpoints -> is_json data = true ->
  fst (run_http net (link (makeRequest true ep data))) = [upstream_request (px_endpoint cfg) data true].
Proof.
  intros Hin Hj. rewrite (link_route_run _ ep data net (proxy_endpoint_route ep cfg Hin)).
  destruct (parse_request_of ep data Hj) as [Ht Hp]. rewrite proxy_POST_run, Ht, Hp. reflexivity.
Qed.

(** ** Theorems *)

(** C24. In the browser, when the service fails (no answer, or a status
    that is not 2xx), the client throws ["HTTP 500: ..."] with the route's
    error body as text: the default fields the routes put in their 500
    answers ([recommendations: []], the Thai apologies) never reach the
    caller as a value. *)
Theorem browser_client_throws_on_failure `{JsonLaws} ep cfg data net a :
  In (ep, cfg) proxy_endpoints -> is_json data = true ->
  net (upstream_request (px_endpoint cfg) data true) = a ->
  (forall r, a = Reply r -> ok (res_status r) = false) ->
  snd (run_http net (link (makeRequest true ep data))) =
  Throw (http_error 500 (res_body (proxy_answer cfg data a))).
Proof.
  intros Hin Hj Ha Hf. now rewrite (browser_proxy_failure_run ep cfg data net a Hin Hj Ha Hf).
Qed.

Lemma browser_client_throws_on_failure_witness :
  let data := JObj [("user_message", JStr "คาเฟ่"); ("location", JStr "18.8022,98.9525")] in
  let net := fun _ : Request => NetworkError "fetch failed" in
  snd (run_http net (link (makeRequest true "/recommend-places" data))) =
  Throw (http_error 500 (res_body (proxy_answer recommend_places_cfg data (NetworkError "fetch failed")))).
Proof.
  intros data net.
  exact (browser_client_throws_on_failure "/recommend-places" recommend_places_cfg data net _
           ltac:(left; reflexivity) eq_refl eq_refl (fun r E => ltac:(discriminate E))).
Defined.

(** In the browser, when the service answers 2xx, the client returns
    exactly what the service sent: its JSON value, or for a text that is not
    JSON the route's object [{message: text, <field>: text}]. *)
Theorem browser_client_reads_upstream `{JsonLaws} ep cfg data net r :
  In (ep, cfg) proxy_endpoints -> is_json data = true ->
  net (upstream_request (px_endpoint cfg) data true) = Reply r -> ok (res_status r) = true ->
  (forall d, json_parse (res_body r) = Some d -> is_json d = true) ->
  snd (run_http net (link (makeRequest true ep data))) =
  Return (match json_parse (res_body r) with Some d => d | None => text_fallback cfg (res_body r) end).
Proof.
  intros Hin Hj Ha Ho Hd. now rewrite (browser_proxy_ok_run ep cfg data net r Hin Hj Ha Ho Hd).
Qed.

Lemma browser_client_reads_upstream_witness :
  let data := JObj [("user_message", JStr "คาเฟ่")] in
  let r := {| res_status := 200; res_headers := [];
              res_body := json_stringify (JObj [("recommendations", JArr [JObj [("name", JStr "Ristr8to")]])]) |} in
  snd (run_http (fun _ => Reply r) (link (makeRequest true "/recommend-places" data))) =
  Return (JObj [("recommendations", JArr [JObj [("name", JStr "Ristr8to")]])]).
Proof.
  intros data r.
  exact (browser_client_reads_upstream "/recommend-places" recommend_places_cfg data (fun _ => Reply r) r
           ltac:(left; reflexivity) eq_refl eq_refl eq_refl
           (fun d E => ltac:(vm_compute in E; injection E as <-; reflexivity))).
Defined.

(** C25. [getWeatherData] treats a latitude or longitude of [0] like a
    missing one ([lat || 18.8022]): asking for the equator or the Greenwich
    meridian asks for Chiang Mai. *)
Theorem weather_zero_coordinate_is_default `{JsEngine} isBrowser lng :
  weather_client_url isBrowser (JNum 0) lng = weather_client_url isBrowser JUndefined lng /\
  weather_client_url isBrowser lng (JNum 0) = weather_client_url isBrowser lng JUndefined.
Proof. split; reflexivity. Qed.

End ApiService.
