(* ===== verification/Session.v ===== *)
(** * Session: a page whose submit button starts a request

    The home, business and investment pages share a shape: fields the user
    edits, a submit button whose [disabled] expression includes the loading
    flag, a handler that does not test that flag itself, and a request
    whose answer clears it.  A session is the page's state and the
    requests in flight: the user edits, clicks the button when it is
    enabled (which runs the handler and sends the request built from the
    state of the click), and each request in flight is answered, in any
    order and with anything the network returns, by the page's [finish] on
    the state of that moment.

    [session_one_in_flight] shows, under four hypotheses a page discharges
    by computation, that a session has at most one request in flight and
    the loading flag up exactly while it has one. *)

From Stdlib Require Import String List Lia.
From S2P Require Import Prelude JsEngine JsValue Json Http ApiService.
Import ListNotations.

Section Session.
Context `{JsEngine} `{Json}.
Variables (S Edit R : Type).
Variable apply_edit : Edit -> S -> S.
(** The [disabled] expression of the submit button. *)
Variable disabled : S -> bool.
Variable handleSubmit : S -> option S.
Variable program : S -> Http R.
Variable finish : S -> Outcome R -> S.

Record Session := mkSession {
  page : S;
  in_flight : list S
}.

Inductive session_reachable (s0 : S) : Session -> Prop :=
| sess_init : session_reachable s0 (mkSession s0 [])
| sess_edit ss e : session_reachable s0 ss -> session_reachable s0 (mkSession (apply_edit e (page ss)) (in_flight ss))
| sess_submit ss s1 : session_reachable s0 ss -> disabled (page ss) = false ->
    handleSubmit (page ss) = Some s1 -> session_reachable s0 (mkSession s1 (s1 :: in_flight ss))
| sess_answer ss s1 l r net : session_reachable s0 ss -> in_flight ss = (l ++ s1 :: r)%list ->
    session_reachable s0 (mkSession (finish (page ss) (snd (run_http net (ApiService.link (program s1))))) (l ++ r)%list).

End Session.

Arguments mkSession {S}.
Arguments page {S}.
Arguments in_flight {S}.

Section OneInFlight.
Context `{JsEngine} `{Json}.
Variables (S Edit R : Type) (apply_edit : Edit -> S -> S) (disabled : S -> bool)
  (handleSubmit : S -> option S) (program : S -> Http R) (finish : S -> Outcome R -> S)
  (loading : S -> bool).
Hypothesis disabled_while_loading : forall s, loading s = true -> disabled s = true.
Hypothesis submit_loads : forall s s1, handleSubmit s = Some s1 -> loading s1 = true.
Hypothesis finish_unloads : forall s o, loading (finish s o) = false.
Hypothesis edit_keeps : forall e s, loading (apply_edit e s) = loading s.

(** A session has no request in flight and the flag down, or one request
    and the flag up. *)
Lemma session_one_in_flight s0 ss :
  loading s0 = false -> session_reachable S Edit R apply_edit disabled handleSubmit program finish s0 ss ->
  (in_flight ss = [] /\ loading (page ss) = false) \/ (exists s1, in_flight ss = [s1] /\ loading (page ss) = true).
Proof.
  intros Hl0. induction 1 as [|ss e _ IH|ss s1 _ IH Hd Hs|ss s1 l r net _ IH Hf].
  - left; split; [reflexivity|exact Hl0].
  - cbn. rewrite edit_keeps. exact IH.
  - destruct IH as [[-> Hl]|(s2 & -> & Hl)].
    + right. exists s1. split; [reflexivity|exact (submit_loads _ _ Hs)].
    + rewrite (disabled_while_loading _ Hl) in Hd. discriminate.
  - left. cbn. split; [|apply finish_unloads].
    destruct IH as [[E _]|(s2 & E & _)]; rewrite E in Hf; [destruct l; discriminate|].
    destruct l as [|x [|y l]]; cbn in Hf; injection Hf as _ Hf; [subst r; reflexivity|discriminate..].
Qed.

Lemma one_in_flight_facts (ss : Session S) :
  (in_flight ss = [] /\ loading (page ss) = false) \/ (exists s1, in_flight ss = [s1] /\ loading (page ss) = true) ->
  length (in_flight ss) <= 1 /\ (loading (page ss) = true <-> in_flight ss <> []).
Proof.
  intros [[-> ->]|(s1 & -> & ->)]; cbn; split; [lia| |lia|]; split; congruence.
Qed.

End OneInFlight.
