(* ===== verification/Home.v ===== *)
(** * Home: the search of the home page [src/app/page.tsx]

    The page keeps the mode (tourist or entrepreneur), the typed message,
    the location text, a loading flag and the last [results] (lines 24-28).
    [handleSubmit] (lines 31-85) ignores a blank message; otherwise it sets
    the loading flag, clears the results and asks the service through
    [APIService]: [recommendPlaces] for a tourist, and for an entrepreneur
    [recommendNewInvestment] when the message names a new business
    ([isNewBusiness], lines 49-54) or [analyzeExistingBusiness] otherwise.
    When that request throws it asks the chat instead and shows its
    [response || message]; when the chat throws too it goes to [/error].
    The submit is the program [submit_program] and its end [finish]; the
    results section (lines 341-397) is [results_view], with the page's own
    [renderRecommendationCard] (lines 95-145), and [home_view] renders it
    with the headings of the current mode.  The other controls (mode
    buttons, text fields, quick suggestions, retry) are the events of
    [home_step]. *)

From Stdlib Require Import Ascii String ZArith Bool Floats List Lia NArith.
From S2P Require Import Prelude Float64 JsEngine JsValue JsString Json Http Routes ApiService Session Results.
Import ListNotations.

#[local] Set Warnings "-inexact-float".
Local Open Scope string_scope.
Local Open Scope http_scope.

Module Home.
Import ApiService.

Record HomeState := mkHomeState {
  mode : string;
  userMessage : string;
  location : string;
  isLoading : bool;
  results : jsval;
  navigatedTo : option string
}.

Definition home_initial : HomeState :=
  {| mode := "tourist"; userMessage := ""; location := "18.8022,98.9525"; isLoading := false;
     results := JNull; navigatedTo := None |}.

(** Lines 49-54. *)
Definition isNewBusiness (userMessage : string) : bool :=
  includes (to_lower userMessage) "เปิดใหม่" || includes (to_lower userMessage) "ธุรกิจใหม่"
  || includes (to_lower userMessage) "เริ่มต้น" || includes (to_lower userMessage) "ลงทุน"
  || includes (to_lower userMessage) "งบ".

Inductive SubmitOutcome := ShowResults (v : jsval) | GoToError.

Section Submit.
Context `{JsEngine} `{Json}.

(** The bodies of lines 42-67 and 75-77. *)
Definition tourist_data (st : HomeState) : jsval :=
  JObj [("user_message", JStr (userMessage st)); ("location", JStr (location st)); ("radius", JNum 3000)].

Definition new_business_data (st : HomeState) : jsval :=
  JObj [("user_message", JStr (userMessage st)); ("location", JStr (location st));
        ("entrepreneur_type", JStr "new")].

Definition existing_business_data (st : HomeState) : jsval :=
  JObj [("business_name", JStr (userMessage st)); ("location", JStr (location st));
        ("category", JStr "general")].

Definition chat_data (st : HomeState) : jsval :=
  JObj [("messages", JArr [JObj [("role", JStr "user"); ("content", JStr (userMessage st))]])].

(** The request of lines 41-69. *)
Definition primary_request (st : HomeState) : Http jsval :=
  if String.eqb (mode st) "tourist" then recommendPlaces true (tourist_data st)
  else if isNewBusiness (userMessage st) then recommendNewInvestment true (new_business_data st)
  else analyzeExistingBusiness true (existing_business_data st).

(** Lines 74-81: the chat fallback. *)
Definition chat_fallback (st : HomeState) : Http SubmitOutcome :=
  catch
    (fallbackResult <- chatWithTyphoon true (chat_data st) ;;
     response <- get fallbackResult "response" ;;
     message <- (if truthy response then ret response else get fallbackResult "message") ;;
     ret (ShowResults (JObj [("message", message)])))
    (fun _ => ret GoToError).

Definition submit_program (st : HomeState) : Http SubmitOutcome :=
  catch (result <- primary_request st ;; ret (ShowResults result)) (fun _ => chat_fallback st).

(** Lines 33-36: the state while the request runs; [None] for a blank
    message, which the handler ignores.  The handler does not test the
    loading flag: the submit button, disabled while loading (line 304),
    prevents a second request. *)
Definition start_loading (st : HomeState) : HomeState :=
  {| mode := mode st; userMessage := userMessage st; location := location st;
     isLoading := true; results := JNull; navigatedTo := navigatedTo st |}.

Definition handleSubmit (st : HomeState) : option HomeState :=
  if String.eqb (trim (userMessage st)) "" then None
  else Some (start_loading st).

(** Lines 70, 78, 80 and 83. *)
Definition finish (st : HomeState) (o : Outcome SubmitOutcome) : HomeState :=
  match o with
  | Return (ShowResults v) =>
      {| mode := mode st; userMessage := userMessage st; location := location st;
         isLoading := false; results := v; navigatedTo := navigatedTo st |}
  | _ =>
      {| mode := mode st; userMessage := userMessage st; location := location st;
         isLoading := false; results := results st; navigatedTo := Some "/error" |}
  end.

(** A submit run to its end in the browser, with the route handlers serving
    [/api] and [net] answering their requests. *)
Definition submit (net : Request -> FetchResult) (st : HomeState) : list Request * HomeState :=
  match handleSubmit st with
  | None => ([], st)
  | Some st1 => let '(sent, o) := run_http net (link (submit_program st1)) in (sent, finish st1 o)
  end.

End Submit.

(** ** The results section (lines 341-397) *)

Inductive HomeBlock :=
| ErrorBox (text : string)
| Paragraphs (heading : string) (paragraphs : list string)
| HomeCards (heading count : string) (cards : list Results.Card)
| HomeStray (text : string).

Section View.
Context `{JsEngine}.

(** Lines 86-93: the page [window.open] is given, if any. *)
Definition openGoogleMaps (url name : jsval) : option string :=
  if truthy url then Some (to_string url)
  else if truthy name then
    Some ("https://www.google.com/maps/search/" ++ encodeURIComponent (to_string name))%string
  else None.

(** Lines 95-145: the card of one recommendation (image or icon, the
    rating badge, name, description, location and the Maps button). *)
Definition renderRecommendationCard (rec : jsval) : option Results.Card :=
  let? image := js_get rec "image" in
  let? rating := js_get rec "rating" in
  let? rs := Results.slot rating in
  let? name := js_get rec "name" in
  let? nm := Results.jsx_text (js_or name (JStr "ไม่ระบุชื่อ")) in
  let? description := js_get rec "description" in
  let? ds := Results.jsx_text (js_or description (JStr "ไม่มีคำอธิบาย")) in
  let? location := js_get rec "location" in
  let? ls := Results.slot location in
  let? url := js_get rec "google_maps_url" in
  Some {| Results.card_image := if truthy image then Some (to_string image) else None;
          Results.card_rating := rs; Results.card_name := nm; Results.card_description := ds;
          Results.card_location := ls; Results.card_link := openGoogleMaps url name |}.

Definition home_stray (v : jsval) : list HomeBlock :=
  match v with JNum _ => [HomeStray (to_string v)] | _ => [] end.

Definition results_view (tourist : bool) (results : jsval) : option (list HomeBlock) :=
  if negb (truthy results) then Some (home_stray results)
  else
    let? err := js_get results "error" in
    let? error_blocks :=
      if truthy err then let? t := Results.jsx_text err in Some [ErrorBox t] else Some (home_stray err) in
    let? analysis := js_get results "analysis" in
    let? message := js_get results "message" in
    let? recs := js_get results "recommendations" in
    let? recommendation := js_get results "recommendation" in
    let shown := js_or (js_or (js_or analysis message) recs) recommendation in
    let? text_blocks :=
      if truthy shown then
        match js_or shown (JStr "") with
        | JStr s => Some [Paragraphs (if tourist then "🏪 คำแนะนำสำหรับคุณ" else "💼 การวิเคราะห์ทางธุรกิจ")
                                     (split_on (ascii_of_nat 10) s)]
        | _ => None
        end
      else Some (home_stray shown) in
    let? card_blocks :=
      if truthy recs then
        match recs with
        | JArr (_ :: _ as xs) =>
            let? cards := map_option renderRecommendationCard xs in
            Some [HomeCards (if tourist then "🏪 สถานที่แนะนำ" else "💼 โอกาสทางธุรกิจ")
                            (Results.count_text (length xs)) cards]
        | _ => Some []
        end
      else Some (home_stray recs) in
    Some (error_blocks ++ text_blocks ++ card_blocks)%list.

(** The results section as the page renders it: the headings follow the
    mode of the current render (lines 366 and 385). *)
Definition home_view (st : HomeState) : option (list HomeBlock) :=
  results_view (String.eqb (mode st) "tourist") (results st).

End View.

(** ** The other controls of the page *)

(** Lines 147-160. *)
Definition quickSuggestions (mode : string) : list string :=
  if String.eqb mode "tourist" then
    ["หาร้านสเต็ก เหมาะสำหรับนั่งกินคนเดียว ฟังเพลงชิวๆ มีที่จอดรถ มีเงิน 2000 บาท";
     "คาเฟ่บรรยากาศดี วิวสวย เหมาะถ่ายรูป"; "ร้านอาหารเจ มังสวิรัติ ราคาไม่แพง";
     "ร้านอาหารเกาหลี อร่อย ใกล้นิมมาน"]
  else
    ["เป็นนักลงทุนรายใหม่ งบ 4000000 เปิดคาเฟ่ข้างเมญ่า อยากรู้ว่าควรทำขนมประมาณไหนดี";
     "วิเคราะห์ร้านข้าวมันไก่นิมมาน"; "อยากเปิดร้านอาหารใหม่ งบ 2 ล้าน ที่ไหนดี";
     "ปรับปรุงร้านกาแฟเดิม เพิ่มยอดขาย"].

Inductive HomeEvent :=
| ClickMode (m : string)         (** lines 248 and 259 *)
| TypeMessage (s : string)       (** line 281 *)
| TypeLocation (s : string)      (** line 297 *)
| ClickSuggestion (s : string)   (** line 329 *)
| ClickRetry                     (** line 352: [setResults(null)] *)
| ClickSubmit.                   (** the form, lines 273 and 304 *)

(** The handlers of the controls other than the submit. *)
Definition home_edit (ev : HomeEvent) (st : HomeState) : HomeState :=
  match ev with
  | ClickMode m => {| mode := m; userMessage := userMessage st; location := location st;
                      isLoading := isLoading st; results := results st; navigatedTo := navigatedTo st |}
  | TypeMessage s | ClickSuggestion s =>
      {| mode := mode st; userMessage := s; location := location st;
         isLoading := isLoading st; results := results st; navigatedTo := navigatedTo st |}
  | TypeLocation s => {| mode := mode st; userMessage := userMessage st; location := s;
                         isLoading := isLoading st; results := results st; navigatedTo := navigatedTo st |}
  | ClickRetry => {| mode := mode st; userMessage := userMessage st; location := location st;
                     isLoading := isLoading st; results := JNull; navigatedTo := navigatedTo st |}
  | ClickSubmit => st
  end.

(** One event of the page; a submit runs to its end against [net]. *)
Definition home_step `{JsEngine} `{Json} (net : Request -> FetchResult) (st : HomeState) (ev : HomeEvent)
  : HomeState :=
  match ev with
  | ClickSubmit => snd (submit net st)
  | _ => home_edit ev st
  end.

Record HomeControls := mkHomeControls {
  search_disabled : bool;
  search_label : string;
  suggestion_buttons : list string
}.

(** Lines 300-339: the submit button, disabled by
    [isLoading || !userMessage.trim()], and the suggestion buttons. *)
Definition home_controls (st : HomeState) : HomeControls :=
  {| search_disabled := isLoading st || String.eqb (trim (userMessage st)) "";
     search_label := if isLoading st then "กำลังค้นหา..." else "ถามเลย";
     suggestion_buttons := quickSuggestions (mode st) |}.

(** The sessions of the page (see [Session]): edits, clicks on the enabled
    button and answers in any order. *)
Definition home_session `{JsEngine} `{Json} : Session HomeState -> Prop :=
  session_reachable HomeState HomeEvent SubmitOutcome home_edit (fun st => search_disabled (home_controls st))
    handleSubmit submit_program finish home_initial.

(** ** Lemmas *)

(** Only an object can hold an array under a name. *)
Lemma object_proto_get_not_arr k xs : object_proto_get k <> JArr xs.
Proof. unfold object_proto_get. destruct_ifs; discriminate. Qed.

Lemma proto_get_not_arr keys k xs : proto_get keys k <> JArr xs.
Proof. unfold proto_get. destruct_ifs; [discriminate|apply object_proto_get_not_arr]. Qed.

Lemma js_get_arr_truthy v k xs : js_get v k = Some (JArr xs) -> truthy v = true.
Proof.
  intros E. destruct v as [| |b|n|s|ys|ps|nm]; try reflexivity; cbn [js_get] in E; try discriminate.
  - destruct b; [reflexivity|]. injection E as E. now apply object_proto_get_not_arr in E.
  - injection E as E. now apply proto_get_not_arr in E.
  - injection E as E. destruct (String.eqb k "length"); [discriminate|].
    destruct (array_index k); [|now apply proto_get_not_arr in E].
    destruct (String.get n s); discriminate.
Qed.

Lemma truthy_not_nullish v : truthy v = true -> nullish v = false.
Proof. destruct v; cbn; congruence. Qed.

Lemma results_view_list_crash `{JsEngine} tourist results xs a m :
  js_get results "analysis" = Some a -> truthy a = false ->
  js_get results "message" = Some m -> truthy m = false ->
  js_get results "recommendations" = Some (JArr xs) ->
  results_view tourist results = None.
Proof.
  intros Ha Hfa Hm Hfm Hr. pose proof (js_get_arr_truthy _ _ _ Hr) as Ht.
  unfold results_view. rewrite Ht. cbn [negb].
  rewrite (js_get_some results "error" (truthy_not_nullish _ Ht)).
  destruct (if truthy (opt_chain results "error") then _ else _); [|reflexivity].
  rewrite Ha, Hm, Hr, (js_get_some results "recommendation" (truthy_not_nullish _ Ht)).
  rewrite (js_or_falsy a m Hfa), (js_or_falsy m _ Hfm), (js_or_truthy (JArr xs) _ eq_refl).
  reflexivity.
Qed.

Lemma submit_start `{JsEngine} `{Json} net st :
  String.eqb (trim (userMessage st)) "" = false ->
  submit net st =
  let '(sent, o) := run_http net (link (submit_program (start_loading st))) in
  (sent, finish (start_loading st) o).
Proof. intros Hb. unfold submit, handleSubmit. now rewrite Hb. Qed.

Lemma submit_program_run `{JsEngine} `{Json} net st :
  run_http net (link (submit_program st)) =
  let '(s1, o) := run_http net (link (primary_request st)) in
  match o with
  | Return v => (s1, Return (ShowResults v))
  | Throw _ => let '(s2, o2) := run_http net (link (chat_fallback st)) in ((s1 ++ s2)%list, o2)
  end.
Proof.
  unfold submit_program. rewrite run_link_catch, run_http_catch, run_link_bind, run_http_bind.
  destruct (run_http net (link (primary_request st))) as [s1 [v|e]]; cbn [link run_http ret];
    rewrite ?app_nil_r; reflexivity.
Qed.

Lemma tourist_data_json st : is_json (tourist_data st) = true.
Proof. reflexivity. Qed.

Lemma chat_data_json st : is_json (chat_data st) = true.
Proof. reflexivity. Qed.

Lemma business_data_json st : is_json (new_business_data st) = true /\ is_json (existing_business_data st) = true.
Proof. split; reflexivity. Qed.

(** At most one search in flight, the flag up exactly while one is. *)
Lemma home_session_inv `{JsEngine} `{Json} ss :
  home_session ss ->
  (in_flight ss = [] /\ isLoading (page ss) = false) \/ (exists s1, in_flight ss = [s1] /\ isLoading (page ss) = true).
Proof.
  apply (session_one_in_flight _ _ _ _ _ _ _ _ isLoading); [| |intros st [[v|]|e]; reflexivity|intros []; reflexivity
                                                          |reflexivity].
  - intros st Hl. cbn. rewrite Hl. reflexivity.
  - intros st st1. unfold handleSubmit. destruct (String.eqb _ _); [discriminate|]. intros [= <-]. reflexivity.
Qed.

(** ** Theorems *)



(** The results section throws when the answer has no analysis and no
    message but a [recommendations] array (even an empty one): the text of
    line 369 is then that array, and arrays have no [split]. *)
Theorem home_view_crashes_on_list `{JsEngine} tourist results xs a m :
  js_get results "analysis" = Some a -> truthy a = false ->
  js_get results "message" = Some m -> truthy m = false ->
  js_get results "recommendations" = Some (JArr xs) ->
  results_view tourist results = None.
Proof. exact (results_view_list_crash tourist results xs a m). Qed.

Lemma home_view_crashes_on_list_witness :
  let results := JObj [("recommendations", JArr [])] in
  js_get results "analysis" = Some JUndefined /\ results_view true results = None.
Proof.
  intros results. split; [reflexivity|].
  exact (home_view_crashes_on_list true results [] JUndefined JUndefined eq_refl eq_refl eq_refl eq_refl eq_refl).
Defined.

(** C26. End to end: a tourist search whose service answers 2xx with a JSON
    list of recommendations and no analysis or message goes through the
    route and the client unchanged, becomes the page's [results], and then
    the results section throws: the page cannot show a list of places. *)
Theorem tourist_list_answer_crashes_home `{JsonLaws} `{JsEngine} net st r d xs a m :
  mode st = "tourist" -> String.eqb (trim (userMessage st)) "" = false ->
  net (Routes.upstream_request (Routes.px_endpoint Routes.recommend_places_cfg) (tourist_data st) true) = Reply r ->
  ok (res_status r) = true -> json_parse (res_body r) = Some d -> is_json d = true ->
  js_get d "analysis" = Some a -> truthy a = false ->
  js_get d "message" = Some m -> truthy m = false ->
  js_get d "recommendations" = Some (JArr xs) ->
  results (snd (submit net st)) = d /\ results_view true (results (snd (submit net st))) = None.
Proof.
  intros Hmode Hb Hn Ho Hp Hd Ha Hfa Hm Hfm Hr.
  assert (E : run_http net (link (primary_request (start_loading st))) =
              ([Routes.upstream_request (Routes.px_endpoint Routes.recommend_places_cfg) (tourist_data st) true],
               Return d)).
  { unfold primary_request. change (mode (start_loading st)) with (mode st). rewrite Hmode.
    cbn [String.eqb Ascii.eqb Bool.eqb]. unfold recommendPlaces.
    change (tourist_data (start_loading st)) with (tourist_data st).
    rewrite (browser_proxy_ok_run "/recommend-places" Routes.recommend_places_cfg (tourist_data st) net r
               ltac:(left; reflexivity) (tourist_data_json _) Hn Ho
               (fun d' E => ltac:(rewrite Hp in E; injection E as <-; exact Hd))).
    now rewrite Hp. }
  rewrite (submit_start net st Hb), submit_program_run, E. cbn [finish snd results]. split; [reflexivity|].
  exact (results_view_list_crash true d xs a m Ha Hfa Hm Hfm Hr).
Qed.

Lemma tourist_list_answer_crashes_home_witness :
  let st := {| mode := "tourist"; userMessage := "คาเฟ่ วิวสวย"; location := "18.8022,98.9525";
               isLoading := false; results := JNull; navigatedTo := None |} in
  let d := JObj [("recommendations", JArr [JObj [("name", JStr "Ristr8to")]])] in
  let r := {| res_status := 200; res_headers := []; res_body := json_stringify d |} in
  results (snd (submit (fun _ => Reply r) st)) = d /\
  results_view true (results (snd (submit (fun _ => Reply r) st))) = None.
Proof.
  intros st d r.
  apply (tourist_list_answer_crashes_home (fun _ => Reply r) st r d [JObj [("name", JStr "Ristr8to")]]
           JUndefined JUndefined); vm_compute; reflexivity.
Defined.

(** A blank message (only white space) sends nothing and changes
    nothing (line 33). *)
Theorem blank_message_sends_nothing `{JsEngine} `{Json} net st :
  String.eqb (trim (userMessage st)) "" = true -> submit net st = ([], st).
Proof. intros Hb. unfold submit, handleSubmit. now rewrite Hb. Qed.

Lemma blank_message_sends_nothing_witness :
  let st := {| mode := "tourist"; userMessage := "   "; location := "18.8022,98.9525";
               isLoading := false; results := JNull; navigatedTo := None |} in
  String.eqb (trim (userMessage st)) "" = true /\ submit (fun _ => NetworkError "offline") st = ([], st).
Proof.
  intros st. assert (H : String.eqb (trim (userMessage st)) "" = true) by (vm_compute; reflexivity).
  split; [exact H|]. exact (blank_message_sends_nothing (fun _ => NetworkError "offline") st H).
Defined.

(** End to end: when the search request fails upstream, the page asks
    the chat and shows its [response] as the message of the results. *)
Theorem failed_search_shows_chat_answer `{JsonLaws} `{JsEngine} net st msg r d s :
  mode st = "tourist" -> String.eqb (trim (userMessage st)) "" = false ->
  net (Routes.upstream_request (Routes.px_endpoint Routes.recommend_places_cfg) (tourist_data st) true)
    = NetworkError msg ->
  net (Routes.upstream_request (Routes.ngrok_base ++ "/typhoon-chat/") (chat_data st) false) = Reply r ->
  ok (res_status r) = true -> json_parse (res_body r) = Some d -> is_json d = true ->
  js_get d "response" = Some (JStr s) -> s <> "" ->
  results (snd (submit net st)) = JObj [("message", JStr s)] /\ isLoading (snd (submit net st)) = false.
Proof.
  intros Hmode Hb Hn Hc Ho Hp Hd Hr Hs.
  assert (E1 : run_http net (link (primary_request (start_loading st))) =
               ([Routes.upstream_request (Routes.px_endpoint Routes.recommend_places_cfg) (tourist_data st) true],
                Throw (http_error 500 (res_body (Routes.proxy_answer Routes.recommend_places_cfg (tourist_data st)
                                                   (NetworkError msg)))))).
  { unfold primary_request. change (mode (start_loading st)) with (mode st). rewrite Hmode.
    cbn [String.eqb Ascii.eqb Bool.eqb]. unfold recommendPlaces.
    change (tourist_data (start_loading st)) with (tourist_data st).
    exact (browser_proxy_failure_run "/recommend-places" Routes.recommend_places_cfg (tourist_data st) net _
             ltac:(left; reflexivity) (tourist_data_json _) Hn (fun r0 E => ltac:(discriminate E))). }
  assert (E2 : run_http net (link (chatWithTyphoon true (chat_data st))) =
               ([Routes.upstream_request (Routes.ngrok_base ++ "/typhoon-chat/") (chat_data st) false], Return d)).
  { exact (browser_chat_ok_run (chat_data st) net r d (chat_data_json st) Hc Ho Hp Hd). }
  rewrite (submit_start net st Hb), submit_program_run, E1.
  unfold chat_fallback. rewrite run_link_catch, run_http_catch, run_link_bind, run_http_bind.
  change (chat_data (start_loading st)) with (chat_data st). rewrite E2.
  unfold get. rewrite Hr. cbn [link run_http bind catch ret throw truthy].
  destruct (String.eqb_spec s ""); [contradiction|]. cbn [negb link run_http bind catch ret].
  split; reflexivity.
Qed.

Lemma failed_search_shows_chat_answer_witness :
  let st := {| mode := "tourist"; userMessage := "คาเฟ่ วิวสวย"; location := "18.8022,98.9525";
               isLoading := false; results := JNull; navigatedTo := None |} in
  let d := JObj [("response", JStr "ลองร้าน Ristr8to ที่นิมมาน")] in
  let r := {| res_status := 200; res_headers := []; res_body := json_stringify d |} in
  let net := fun rq => if String.eqb (req_url rq) (Routes.ngrok_base ++ "/typhoon-chat/") then Reply r
                       else NetworkError "fetch failed" in
  results (snd (submit net st)) = JObj [("message", JStr "ลองร้าน Ristr8to ที่นิมมาน")] /\
  isLoading (snd (submit net st)) = false.
Proof.
  intros st d r net.
  apply (failed_search_shows_chat_answer net st "fetch failed" r d "ลองร้าน Ristr8to ที่นิมมาน");
    try (vm_compute; reflexivity). discriminate.
Defined.

(** For an entrepreneur, the first request sent upstream goes to the
    new-investment service when the message names a new business (เปิดใหม่,
    ธุรกิจใหม่, เริ่มต้น, ลงทุน, งบ) and to the existing-business analysis
    otherwise, with the body lines 57-67 build. *)
Theorem entrepreneur_request_routing `{JsonLaws} `{JsEngine} net st :
  mode st <> "tourist" -> String.eqb (trim (userMessage st)) "" = false ->
  exists rest, fst (submit net st) =
    (if isNewBusiness (userMessage st)
     then Routes.upstream_request (Routes.px_endpoint Routes.recommend_new_investment_cfg) (new_business_data st) true
     else Routes.upstream_request (Routes.px_endpoint Routes.analyze_existing_investment_cfg)
            (existing_business_data st) true) :: rest.
Proof.
  intros Hmode Hb. rewrite (submit_start net st Hb), submit_program_run.
  destruct (business_data_json st) as [Hj1 Hj2].
  unfold primary_request. change (mode (start_loading st)) with (mode st).
  destruct (String.eqb_spec (mode st) "tourist"); [contradiction|].
  change (userMessage (start_loading st)) with (userMessage st).
  change (new_business_data (start_loading st)) with (new_business_data st).
  change (existing_business_data (start_loading st)) with (existing_business_data st).
  destruct (isNewBusiness (userMessage st)).
  - pose proof (browser_proxy_sent "/recommend-new-investment" Routes.recommend_new_investment_cfg
                  (new_business_data st) net ltac:(right; left; reflexivity) Hj1) as Hs.
    unfold recommendNewInvestment.
    destruct (run_http net (link (makeRequest true "/recommend-new-investment" (new_business_data st))))
      as [s1 [v|e]]; cbn in Hs; subst s1;
      [|destruct (run_http net (link (chat_fallback (start_loading st))))]; eexists; reflexivity.
  - pose proof (browser_proxy_sent "/analyze-existing-investment" Routes.analyze_existing_investment_cfg
                  (existing_business_data st) net ltac:(right; right; left; reflexivity) Hj2) as Hs.
    unfold analyzeExistingBusiness.
    destruct (run_http net (link (makeRequest true "/analyze-existing-investment" (existing_business_data st))))
      as [s1 [v|e]]; cbn in Hs; subst s1;
      [|destruct (run_http net (link (chat_fallback (start_loading st))))]; eexists; reflexivity.
Qed.

Lemma entrepreneur_request_routing_witness :
  let st := {| mode := "entrepreneur"; userMessage := "อยากเปิดร้านอาหารใหม่ งบ 2 ล้าน ที่ไหนดี";
               location := "18.8022,98.9525"; isLoading := false; results := JNull; navigatedTo := None |} in
  isNewBusiness (userMessage st) = true /\
  exists rest, fst (submit (fun _ => NetworkError "offline") st) =
    (if isNewBusiness (userMessage st)
     then Routes.upstream_request (Routes.px_endpoint Routes.recommend_new_investment_cfg) (new_business_data st) true
     else Routes.upstream_request (Routes.px_endpoint Routes.analyze_existing_investment_cfg)
            (existing_business_data st) true) :: rest.
Proof.
  intros st. split; [vm_compute; reflexivity|].
  apply (entrepreneur_request_routing (fun _ => NetworkError "offline") st); [discriminate|];
    vm_compute; reflexivity.
Defined.

End Home.
