(* ===== verification/Chat.v ===== *)
(** * Chat: the chat page [src/app/chat/page.tsx]

    The page keeps the conversation [messages] (it starts with a greeting
    of the assistant), the text of the input field and a loading flag
    (lines 17-26).  [handleSendMessage] (lines 38-77) refuses a blank text
    or a send while loading; otherwise it appends the user's message,
    clears the field, sets the flag and sends the whole conversation to
    [APIService.chatWithTyphoon]; the answer's [response || message] (or an
    apology) is appended as the assistant's message, an exception appends
    the error message, and the flag is cleared.

    The reachable states are the inductive [reachable]: from the initial
    state, a text typed (the field is disabled while loading, line 192), a
    quick action (its buttons are not disabled), a send, and the end of
    the outstanding request with any outcome.  [chat_view] is the message
    list (lines 118-181): one bubble per message with its content as React
    renders it, and the typing indicator while loading.  The timestamps and
    the scrolling are not modelled. *)

From Stdlib Require Import Ascii String ZArith Bool List Lia.
From S2P Require Import Prelude JsEngine JsValue Json Http Routes ApiService Results.
Import ListNotations.

Local Open Scope string_scope.

Module Chat.
Import ApiService.

Record ChatMessage := mkChatMessage { role : string; content : jsval }.

Record ChatState := mkChatState {
  messages : list ChatMessage;
  inputMessage : string;
  isLoading : bool;
  (** the conversation sent by the request that has not answered yet *)
  outstanding : option jsval
}.

Definition greeting : ChatMessage :=
  {| role := "assistant";
     content := JStr "สวัสดีครับ! ผมเป็น BDI Assistant ที่พร้อมช่วยตอบคำถามเกี่ยวกับสถานที่ท่องเที่ยว ร้านอาหาร และคำแนะนำทางธุรกิจในเชียงใหม่ มีอะไรให้ช่วยไหมครับ? 😊" |}.

Definition chat_initial : ChatState :=
  {| messages := [greeting]; inputMessage := ""; isLoading := false; outstanding := None |}.

Definition quickActions : list string :=
  ["แนะนำร้านอาหารอร่อยๆ ในนิมมาน"; "คาเฟ่บรรยากาศดีเชียงใหม่"; "ขอคำแนะนำเปิดร้านกาแฟ";
   "สถานที่ท่องเที่ยวน่าสนใจ"; "ร้านอาหารเจ/มังสวิรัติ"; "ตลาดนัดวันเสาร์อาทิตย์"].

Definition apology : string := "ขออภัย ไม่สามารถตอบคำถามได้ในขณะนี้".
Definition error_text : string := "ขออภัย เกิดข้อผิดพลาดในการติดต่อระบบ กรุณาลองใหม่อีกครั้ง 🙏".

(** Lines 53-58: the body sent, from the messages of the render. *)
Definition history (msgs : list ChatMessage) (input : string) : jsval :=
  JObj [("messages",
         JArr (map (fun m => JObj [("role", JStr (role m)); ("content", content m)]) msgs
               ++ [JObj [("role", JStr "user"); ("content", JStr input)]]))].

(** Lines 40-50. *)
Definition send (st : ChatState) : ChatState :=
  if String.eqb (trim (inputMessage st)) "" || isLoading st then st
  else {| messages := messages st ++ [{| role := "user"; content := JStr (inputMessage st) |}];
          inputMessage := ""; isLoading := true;
          outstanding := Some (history (messages st) (inputMessage st)) |}.

(** Lines 60-73: the assistant's message for the outcome of the request. *)
Definition answer (o : Outcome jsval) : ChatMessage :=
  {| role := "assistant";
     content :=
       match o with
       | Return data =>
           match js_get data "response" with
           | Some r =>
               if truthy r then r
               else match js_get data "message" with
                    | Some m => js_or m (JStr apology)
                    | None => JStr error_text
                    end
           | None => JStr error_text
           end
       | Throw _ => JStr error_text
       end |}.

(** Lines 65, 73 and 75. *)
Definition answered (st : ChatState) (o : Outcome jsval) : ChatState :=
  match outstanding st with
  | Some _ => {| messages := messages st ++ [answer o]; inputMessage := inputMessage st;
                 isLoading := false; outstanding := None |}
  | None => st
  end.

Definition type_text (st : ChatState) (s : string) : ChatState :=
  if isLoading st then st
  else {| messages := messages st; inputMessage := s; isLoading := false; outstanding := outstanding st |}.

Definition quick_action (st : ChatState) (s : string) : ChatState :=
  {| messages := messages st; inputMessage := s; isLoading := isLoading st; outstanding := outstanding st |}.

Inductive reachable : ChatState -> Prop :=
| reach_init : reachable chat_initial
| reach_type st s : reachable st -> reachable (type_text st s)
| reach_quick st s : reachable st -> In s quickActions -> reachable (quick_action st s)
| reach_send st : reachable st -> reachable (send st)
| reach_answer st o : reachable st -> reachable (answered st o).

(** A send run to its end in the browser, with the routes serving [/api]. *)
Definition send_and_wait `{JsEngine} `{Json} (net : Request -> FetchResult) (st : ChatState) : ChatState :=
  match outstanding (send st) with
  | Some body => answered (send st) (snd (run_http net (link (chatWithTyphoon true body))))
  | None => send st
  end.

(** ** The conversation on the screen (lines 118-181) *)

Inductive Side := LeftSide | RightSide.

(** A message bubble: the user's on the right, the assistant's on the
    left, with the content as React renders it. *)
Record Bubble := mkBubble { side : Side; bubble_text : string }.

Definition bubble `{JsEngine} (m : ChatMessage) : option Bubble :=
  let? t := Results.jsx_text (content m) in
  Some {| side := if String.eqb (role m) "user" then RightSide else LeftSide; bubble_text := t |}.

(** The messages, then the typing indicator while loading; [None] when
    rendering throws. *)
Definition chat_view `{JsEngine} (st : ChatState) : option (list Bubble * bool) :=
  let? bs := map_option bubble (messages st) in Some (bs, isLoading st).

(** ** The shape of the conversation *)

Fixpoint turns (n : nat) : list string :=
  match n with O => [] | S k => "user" :: "assistant" :: turns k end.

(** The greeting, [n] answered questions, and the pending question while
    a request is outstanding. *)
Definition conversation_ok (st : ChatState) : Prop :=
  exists n, map role (messages st) = "assistant" :: (turns n ++ (if isLoading st then ["user"] else []))%list
  /\ (isLoading st = true <-> outstanding st <> None).

Lemma turns_snoc n : (turns n ++ ["user"; "assistant"])%list = turns (S n).
Proof. induction n as [|n IH]; simpl; [reflexivity|]. now rewrite IH. Qed.

Lemma send_ok st : conversation_ok st -> conversation_ok (send st).
Proof.
  intros (n & Hm & Hl). unfold send.
  destruct (String.eqb (trim (inputMessage st)) "" || isLoading st) eqn:E; [exists n; auto|].
  apply orb_false_iff in E as [_ E]. rewrite E in Hm. exists n. cbn [messages isLoading outstanding].
  rewrite map_app, Hm. split; [simpl; now rewrite app_nil_r|].
  split; [discriminate|reflexivity].
Qed.

Lemma answered_ok st o : conversation_ok st -> conversation_ok (answered st o).
Proof.
  intros (n & Hm & Hl). unfold answered. destruct (outstanding st) as [b|] eqn:Eo;
    [|exists n; split; [exact Hm|rewrite Eo; exact Hl]].
  assert (L : isLoading st = true) by (apply Hl; discriminate). rewrite L in Hm.
  exists (S n). cbn [messages isLoading outstanding]. rewrite map_app, Hm, <- turns_snoc, app_nil_r.
  split; [cbn [map answer role]; rewrite <- app_comm_cons, <- app_assoc; reflexivity|].
  split; [discriminate|congruence].
Qed.

Lemma type_text_ok st s : conversation_ok st -> conversation_ok (type_text st s).
Proof.
  intros (n & Hm & Hl). unfold type_text. case_eq (isLoading st); intros E.
  - exists n. rewrite E in *. split; assumption.
  - exists n. cbn. rewrite E in Hm, Hl. split; assumption.
Qed.

Lemma quick_action_ok st s : conversation_ok st -> conversation_ok (quick_action st s).
Proof. intros (n & Hm & Hl). exists n. auto. Qed.

(** C28. In every reachable state the conversation is the greeting, then
    question/answer pairs, then one unanswered question exactly while a
    request is outstanding: sends cannot overlap, every question gets one
    answer, and every conversation sent to the service ends with the user's
    question. *)
Theorem conversation_alternates st :
  reachable st ->
  exists n, map role (messages st) = "assistant" :: (turns n ++ (if isLoading st then ["user"] else []))%list
  /\ (isLoading st = true <-> outstanding st <> None).
Proof.
  induction 1 as [| st s _ IH | st s _ IH _ | st _ IH | st o _ IH].
  - exists 0. split; [reflexivity|]. split; [discriminate|intros H; exfalso; apply H; reflexivity].
  - exact (type_text_ok st s IH).
  - exact (quick_action_ok st s IH).
  - exact (send_ok st IH).
  - exact (answered_ok st o IH).
Qed.

Lemma conversation_alternates_witness :
  let st := answered (send (quick_action chat_initial "คาเฟ่บรรยากาศดีเชียงใหม่")) (Throw "fetch failed") in
  reachable st /\
  exists n, map role (messages st) = "assistant" :: (turns n ++ (if isLoading st then ["user"] else []))%list
  /\ (isLoading st = true <-> outstanding st <> None).
Proof.
  intros st.
  assert (H : reachable st).
  { apply reach_answer, reach_send, reach_quick; [exact reach_init|simpl; tauto]. }
  exact (conj H (conversation_alternates st H)).
Defined.

(** The answer of a service that replies 2xx with JSON, end to end. *)
Lemma send_and_wait_ok `{JsonLaws} `{JsEngine} net st r d :
  String.eqb (trim (inputMessage st)) "" = false -> isLoading st = false ->
  outstanding st = None ->
  is_json (history (messages st) (inputMessage st)) = true ->
  net (Routes.upstream_request (Routes.ngrok_base ++ "/typhoon-chat/") (history (messages st) (inputMessage st)) false)
    = Reply r ->
  ok (res_status r) = true -> json_parse (res_body r) = Some d -> is_json d = true ->
  messages (send_and_wait net st) =
    (messages st ++ [{| role := "user"; content := JStr (inputMessage st) |}] ++ [answer (Return d)])%list.
Proof.
  intros Hb Hl Ho Hj Hn Hok Hp Hd. unfold send_and_wait, send. rewrite Hb, Hl. cbn [orb outstanding].
  unfold chatWithTyphoon. rewrite (browser_chat_ok_run _ net r d Hj Hn Hok Hp Hd).
  cbn [answered outstanding messages snd]. now rewrite <- app_assoc.
Qed.

(** C37. The chat page throws when the service answers with an object under
    [response]: the assistant's message takes [data.response] whenever it
    is truthy, and React cannot render an object as the bubble's text, so
    the whole conversation disappears. *)
Theorem chat_object_response_crashes `{JsonLaws} `{JsEngine} net st r d ps :
  String.eqb (trim (inputMessage st)) "" = false -> isLoading st = false -> outstanding st = None ->
  is_json (history (messages st) (inputMessage st)) = true ->
  net (Routes.upstream_request (Routes.ngrok_base ++ "/typhoon-chat/") (history (messages st) (inputMessage st)) false)
    = Reply r ->
  ok (res_status r) = true -> json_parse (res_body r) = Some d -> is_json d = true ->
  js_get d "response" = Some (JObj ps) ->
  chat_view (send_and_wait net st) = None.
Proof.
  intros Hb Hl Ho Hj Hn Hok Hp Hd Hr. unfold chat_view.
  rewrite (send_and_wait_ok net st r d Hb Hl Ho Hj Hn Hok Hp Hd).
  rewrite (map_option_None bubble _ (answer (Return d))); [reflexivity| |].
  - apply in_or_app. right. apply in_or_app. right. left. reflexivity.
  - unfold bubble, answer. cbn [content]. rewrite Hr. reflexivity.
Qed.

Lemma chat_object_response_crashes_witness :
  let st := type_text chat_initial "คาเฟ่ที่ไหนดี" in
  let d := JObj [("response", JObj [("text", JStr "ลอง Ristr8to")])] in
  let r := mkResponse 200 [] (json_stringify d) in
  chat_view (send_and_wait (fun _ => Reply r) st) = None.
Proof.
  intros st d r.
  apply (@chat_object_response_crashes ref_json ref_json_laws ref_engine (fun _ => Reply r) st r d
           [("text", JStr "ลอง Ristr8to")]); vm_compute; reflexivity.
Defined.

End Chat.
