(* ===== verification/Upload.v ===== *)
(** * Upload: the image upload page [src/app/upload/page.tsx]

    The page keeps the selected files, a loading flag, the analysis result,
    an error text and the drag flag (lines 11-15).  [handleFileSelect]
    (lines 18-46) accepts at most five files, all images of at most 10 MB,
    and otherwise shows an error and keeps the previous selection; the drop
    zone (lines 126-155) is shown only while nothing is selected and there
    is no result.  [handleUpload] (lines 68-83) posts the files through
    [APIService.analyzeImages]; [resetUpload] (lines 85-89) clears
    everything.  The result section (lines 222-294) is [result_view].

    The reachable states are the inductive [reachable], whose rules carry
    the conditions under which the page shows the control of each event. *)

From Stdlib Require Import Ascii String ZArith Bool Floats List Lia NArith.
From S2P Require Import Prelude JsEngine JsValue Json Http ApiService Results.
Import ListNotations.

Local Open Scope string_scope.

Module Upload.
Import ApiService.

Record File := mkFile { file_name : string; file_type : string; file_size : N }.

Record UploadState := mkUploadState {
  selectedFiles : list File;
  isLoading : bool;
  result : jsval;
  error : option string;
  dragActive : bool
}.

Definition upload_initial : UploadState :=
  {| selectedFiles := []; isLoading := false; result := JNull; error := None; dragActive := false |}.

Definition too_many : string := "คุณสามารถอัปโหลดได้สูงสุด 5 ไฟล์".
Definition not_image : string := "กรุณาเลือกไฟล์รูปภาพเท่านั้น (PNG, JPG, JPEG)".
Definition too_large : string := "ขนาดไฟล์ต้องไม่เกิน 10MB".
Definition upload_failed : string := "เกิดข้อผิดพลาดในการวิเคราะห์ภาพ กรุณาลองใหม่อีกครั้ง".

Definition set_error (st : UploadState) (e : string) : UploadState :=
  {| selectedFiles := selectedFiles st; isLoading := isLoading st; result := result st;
     error := Some e; dragActive := dragActive st |}.

(** The loop of lines 28-41: the first file that fails a test stops it. *)
Fixpoint validate (files : list File) : option string :=
  match files with
  | [] => None
  | f :: r =>
      if negb (String.prefix "image/" (file_type f)) then Some not_image
      else if (10 * 1024 * 1024 <? file_size f)%N then Some too_large
      else validate r
  end.

Definition handleFileSelect (st : UploadState) (files : list File) : UploadState :=
  if (5 <? length files)%nat then set_error st too_many
  else match validate files with
       | Some e => set_error st e
       | None => {| selectedFiles := files; isLoading := isLoading st; result := JNull;
                    error := None; dragActive := dragActive st |}
       end.

(** Lines 48-66. *)
Definition handleDrag (st : UploadState) (type_ : string) : UploadState :=
  if String.eqb type_ "dragenter" || String.eqb type_ "dragover" then
    {| selectedFiles := selectedFiles st; isLoading := isLoading st; result := result st;
       error := error st; dragActive := true |}
  else if String.eqb type_ "dragleave" then
    {| selectedFiles := selectedFiles st; isLoading := isLoading st; result := result st;
       error := error st; dragActive := false |}
  else st.

Definition handleDrop (st : UploadState) (files : list File) : UploadState :=
  handleFileSelect {| selectedFiles := selectedFiles st; isLoading := isLoading st; result := result st;
                      error := error st; dragActive := false |} files.

(** Lines 69-72: the state while the request runs. *)
Definition upload_start (st : UploadState) : UploadState :=
  match selectedFiles st with
  | [] => st
  | _ => {| selectedFiles := selectedFiles st; isLoading := true; result := result st;
            error := None; dragActive := dragActive st |}
  end.

(** Lines 75-82: the end of the request. *)
Definition upload_done (st : UploadState) (o : Outcome jsval) : UploadState :=
  match o with
  | Return data => {| selectedFiles := selectedFiles st; isLoading := false; result := data;
                      error := error st; dragActive := dragActive st |}
  | Throw _ => {| selectedFiles := selectedFiles st; isLoading := false; result := result st;
                  error := Some upload_failed; dragActive := dragActive st |}
  end.

Definition resetUpload (st : UploadState) : UploadState :=
  {| selectedFiles := []; isLoading := isLoading st; result := JNull; error := None;
     dragActive := dragActive st |}.

Definition dismissError (st : UploadState) : UploadState :=
  {| selectedFiles := selectedFiles st; isLoading := isLoading st; result := result st;
     error := None; dragActive := dragActive st |}.

(** The drop zone is shown while nothing is selected and there is no
    result (line 126); the buttons of lines 181-204 while files are selected
    and there is no result, the upload button enabled when not loading. *)
Definition drop_zone_shown (st : UploadState) : bool :=
  match selectedFiles st with [] => negb (truthy (result st)) | _ => false end.

Definition upload_buttons_shown (st : UploadState) : bool :=
  match selectedFiles st with [] => false | _ => negb (truthy (result st)) end.

Inductive reachable : UploadState -> Prop :=
| reach_init : reachable upload_initial
| reach_select st files : reachable st -> drop_zone_shown st = true -> reachable (handleFileSelect st files)
| reach_drag st t : reachable st -> drop_zone_shown st = true -> reachable (handleDrag st t)
| reach_drop st files : reachable st -> drop_zone_shown st = true -> reachable (handleDrop st files)
| reach_start st : reachable st -> upload_buttons_shown st = true -> isLoading st = false ->
    reachable (upload_start st)
| reach_done st o : reachable st -> isLoading st = true -> reachable (upload_done st o)
| reach_reset st : reachable st -> truthy (result st) || upload_buttons_shown st = true ->
    reachable (resetUpload st)
| reach_dismiss st : reachable st -> reachable (dismissError st).

(** An upload run to its end in the browser. *)
Definition upload_and_wait `{JsEngine} `{Json} (net : Request -> FetchResult) (st : UploadState) : UploadState :=
  match selectedFiles st with
  | [] => st
  | _ => upload_done (upload_start st)
           (snd (run_http net (link (analyzeImages true (map file_name (selectedFiles st))))))
  end.

(** ** The result section (lines 222-294) *)

Inductive UploadBlock :=
| ImageAnalysis (title : string) (paragraphs : list string)
| Personality (paragraphs : list string)
| General (paragraphs : list string)
| UploadStray (text : string).

Section View.
Context `{JsEngine}.

(** [v.split(sep)]: only strings have [split]; a value of JSON that is not
    a string makes the call throw. *)
Definition js_split (v : jsval) (sep : ascii) : option (list string) :=
  match v with JStr s => Some (split_on sep s) | _ => None end.

Definition nl_char : ascii := ascii_of_nat 10.

(** What [{v && ...}] renders for a falsy [v]. *)
Definition upload_stray (v : jsval) : list UploadBlock :=
  match v with JNum _ => [UploadStray (to_string v)] | _ => [] end.

(** [s?.split("_")?.pop()]. *)
Definition last_part (v : jsval) : option jsval :=
  if nullish v then Some JUndefined
  else let? parts := js_split v "_"%char in Some (JStr (last parts "")).

Definition image_block (index : nat) (img : jsval) : option UploadBlock :=
  let? path := js_get img "image_path" in
  let? name := last_part path in
  let title := js_or name (JStr ("Image " ++ to_string (JNum (float_of_nat index + 1)%float))) in
  let? t := Results.jsx_text title in
  let? description := js_get img "description" in
  let? paragraphs := if nullish description then Some [] else js_split description nl_char in
  Some (ImageAnalysis ("ภาพที่ " ++ to_string (JNum (float_of_nat index + 1)%float) ++ ": " ++ t) paragraphs).

(** Line 222 renders [result] itself when it is falsy: a [0] answer shows
    a stray [0]. *)
Definition result_view (result : jsval) : option (list UploadBlock) :=
  if negb (truthy result) then Some (upload_stray result)
  else
    let? analysis := js_get result "analysis" in
    let images := opt_chain analysis "images" in
    let? image_blocks :=
      if truthy images then
        match images with
        | JArr xs => map_option_from image_block 0 xs
        | _ => None
        end
      else Some (upload_stray images) in
    let personality := opt_chain analysis "personality_analysis" in
    let? personality_blocks :=
      if truthy personality then let? ps := js_split personality nl_char in Some [Personality ps]
      else Some (upload_stray personality) in
    let? description := js_get result "description" in
    let general := js_or analysis description in
    let? general_blocks :=
      if truthy general then
        if negb (truthy (opt_chain analysis "images")) then
          let? ps := js_split general nl_char in Some [General ps]
        else Some []
      else Some (upload_stray general) in
    Some (image_blocks ++ personality_blocks ++ general_blocks)%list.

End View.

(** ** The selection invariant *)

Definition valid_file (f : File) : Prop :=
  String.prefix "image/" (file_type f) = true /\ (file_size f <= 10 * 1024 * 1024)%N.

Definition selection_ok (st : UploadState) : Prop :=
  length (selectedFiles st) <= 5 /\ Forall valid_file (selectedFiles st).

Lemma validate_None files : validate files = None -> Forall valid_file files.
Proof.
  induction files as [|f r IH]; cbn [validate]; [constructor|].
  destruct (String.prefix "image/" (file_type f)) eqn:Ei; [|discriminate]. cbn [negb].
  destruct (10 * 1024 * 1024 <? file_size f)%N eqn:Es; [discriminate|].
  intros Hv. constructor; [|exact (IH Hv)]. split; [exact Ei|]. apply N.ltb_ge, Es.
Qed.

Lemma handleFileSelect_ok st files : selection_ok st -> selection_ok (handleFileSelect st files).
Proof.
  intros Hs. unfold handleFileSelect. destruct (5 <? length files)%nat eqn:E5; [exact Hs|].
  destruct (validate files) as [e|] eqn:Ev; [exact Hs|].
  split; [apply Nat.ltb_ge, E5|exact (validate_None files Ev)].
Qed.

Lemma reachable_selection_ok st : reachable st -> selection_ok st.
Proof.
  induction 1 as [|st files _ IH _|st t _ IH _|st files _ IH _|st _ IH _ _|st o _ IH _|st _ IH _|st _ IH];
    try exact IH.
  - split; [simpl; lia|constructor].
  - now apply handleFileSelect_ok.
  - unfold handleDrag. destruct_ifs; exact IH.
  - now apply handleFileSelect_ok.
  - unfold upload_start. destruct (selectedFiles st) eqn:E; [exact IH|]. unfold selection_ok in *.
    rewrite E in IH. exact IH.
  - destruct o; exact IH.
  - split; [simpl; lia|constructor].
Qed.

(** ** Theorems *)

(** C29. In every reachable state of the upload page the selection has at
    most five files, each an image ([image/...]) of at most 10 MB: a
    selection that breaks a rule is refused whole and leaves the previous
    one in place, and only the drop zone (shown while nothing is selected)
    changes the selection. *)
Theorem selection_always_valid st :
  reachable st ->
  length (selectedFiles st) <= 5 /\
  Forall (fun f => String.prefix "image/" (file_type f) = true /\ (file_size f <= 10 * 1024 * 1024)%N)
         (selectedFiles st).
Proof. exact (reachable_selection_ok st). Qed.

Lemma selection_always_valid_witness :
  let st := handleFileSelect upload_initial [mkFile "menu.jpg" "image/jpeg" 2000000] in
  reachable st /\ length (selectedFiles st) <= 5 /\
  Forall (fun f => String.prefix "image/" (file_type f) = true /\ (file_size f <= 10 * 1024 * 1024)%N)
         (selectedFiles st).
Proof.
  intros st. assert (H : reachable st) by (apply reach_select; [exact reach_init|reflexivity]).
  exact (conj H (selection_always_valid st H)).
Defined.

(** C30. The result section throws when the analysis is an object without
    [images]: the general block of line 270 calls [split] on
    [result.analysis || result.description], which is then that object, so
    an answer carrying only [personality_analysis] cannot be shown. *)
Theorem analysis_object_without_images_crashes `{JsEngine} result ps :
  truthy result = true ->
  js_get result "analysis" = Some (JObj ps) ->
  truthy (opt_chain (JObj ps) "images") = false ->
  result_view result = None.
Proof.
  intros Ht Ha Hi. unfold result_view. rewrite Ht, Ha, Hi. cbn [negb].
  destruct (if truthy (opt_chain (JObj ps) "personality_analysis") then _ else _); [|reflexivity].
  rewrite (js_get_some result "description") by (destruct result; cbn in Ht |- *; congruence).
  reflexivity.
Qed.

Lemma analysis_object_without_images_crashes_witness :
  let result := JObj [("analysis", JObj [("personality_analysis", JStr "ชอบความเรียบง่าย")])] in
  truthy result = true /\
  js_get result "analysis" = Some (JObj [("personality_analysis", JStr "ชอบความเรียบง่าย")]) /\
  result_view result = None.
Proof.
  intros result. assert (H : js_get result "analysis" = Some (JObj [("personality_analysis", JStr "ชอบความเรียบง่าย")]))
    by reflexivity.
  exact (conj eq_refl (conj H (@analysis_object_without_images_crashes ref_engine result _ eq_refl H eq_refl))).
Defined.

End Upload.
