(* ===== verification/Forms.v ===== *)
(** * Forms: the business analysis and investment pages
    [src/app/business/page.tsx] and [src/app/investment/page.tsx]

    Both pages are a form whose [handleSubmit] ignores a blank text, sets
    the loading flag, clears the result and posts one request through
    [APIService] with a [location] text [`${lat},${lon}`]; the answer
    becomes [result], an exception the object [{ error: ... }], and the
    flag is cleared.  The business page reads the coordinates from the place
    field when it is a pair ["lat,lon"] (lines 28-35) and otherwise uses
    the Nimman coordinates; the investment page always uses them (lines
    30-31).  Neither sends the province.  The result section of both pages
    is [form_view] over the page's list of text fields.

    Module [Business] and module [Investment] hold each page's state and
    its handler as an [Http] program run by [submit] in the browser, with
    the route handlers serving [/api].  [business_form] and
    [investment_form] are the rendered controls (field values, select
    options, the submit button's [disabled] and label) and
    [business_edit], [investment_edit] the [onChange] handlers.  The
    handlers do not test the loading flag: the submit button, disabled
    while loading (lines 161 and 145), is what prevents a second request.
    [business_session] and [investment_session] are the sessions of
    [Session] for the two pages: edits, enabled clicks and answers, with
    the requests in flight made explicit. *)

From Stdlib Require Import Ascii String ZArith Bool Floats List Lia NArith.
From S2P Require Import Prelude Float64 JsEngine JsValue Json Http Routes ApiService Session Results Home.
Import ListNotations.

#[local] Set Warnings "-inexact-float".
Local Open Scope string_scope.
Local Open Scope http_scope.

(** ** The result section shared by the two pages *)

Inductive FormBlock :=
| FormError (text : string)
| FormText (paragraphs : list string)
| FormStray (text : string).

Section FormView.
Context `{JsEngine}.

Definition form_stray (v : jsval) : list FormBlock :=
  match v with JNum _ => [FormStray (to_string v)] | _ => [] end.

(** [result.f1 || result.f2 || ...]: the reads stop at the first truthy
    value. *)
Fixpoint first_truthy (result : jsval) (fields : list string) : option jsval :=
  match fields with
  | [] => Some JUndefined
  | [f] => js_get result f
  | f :: r => let? v := js_get result f in if truthy v then Some v else first_truthy result r
  end.

(** [{result && (...)}] with the error box and the text block; the text is
    [(result.f1 || ... || "").split("\n")] when it is shown. *)
Definition form_view (fields : list string) (result : jsval) : option (list FormBlock) :=
  if negb (truthy result) then Some (form_stray result)
  else
    let? err := js_get result "error" in
    let? error_blocks :=
      if truthy err then let? t := Results.jsx_text err in Some [FormError t] else Some (form_stray err) in
    let? shown := first_truthy result fields in
    let? text_blocks :=
      if truthy shown then
        match js_or shown (JStr "") with
        | JStr s => Some [FormText (split_on (ascii_of_nat 10) s)]
        | _ => None
        end
      else Some (form_stray shown) in
    Some (error_blocks ++ text_blocks)%list.

End FormView.

(** The controls of a form as rendered: each text field's label and
    value, the select's value and options, and the submit button. *)
Record FormControls := mkFormControls {
  text_fields : list (string * string);
  select_value : string;
  select_options : list (string * string);
  submit_disabled : bool;
  submit_label : string
}.

(** The Nimman coordinates used when no pair is given. *)
Definition default_lat : float := 18.8022.
Definition default_lon : float := 98.9525.

(** [`${lat},${lon}`]. *)
Definition location_text `{JsEngine} (lat lon : float) : string :=
  to_string (JNum lat) ++ "," ++ to_string (JNum lon).

Module Business.

Record BusinessState := mkBusinessState {
  businessName : string;
  placeName : string;
  province : string;
  category : string;
  isLoading : bool;
  result : jsval
}.

Definition business_initial : BusinessState :=
  {| businessName := "ร้านข้าวมันไก่นิมมาน"; placeName := "นิมมานเหมินทร์"; province := "เชียงใหม่";
     category := "food"; isLoading := false; result := JNull |}.

Definition businessCategories : list (string * string) :=
  [("food", "ร้านอาหาร"); ("cafe", "คาเฟ่"); ("retail", "ร้านค้าปลีก"); ("service", "ธุรกิจบริการ");
   ("entertainment", "ธุรกิจบันเทิง"); ("general", "ทั่วไป")].

Definition business_error : string := "เกิดข้อผิดพลาดในการวิเคราะห์ธุรกิจ กรุณาลองใหม่อีกครั้ง".

Section Submit.
Context `{JsEngine} `{Json}.

(** Lines 28-35: [placeName.includes(",") && placeName.split(",").length
    === 2] selects the parsed pair, destructured from the mapped array. *)
Definition coordinates (placeName : string) : float * float :=
  if includes placeName "," && (length (split_on "," placeName) =? 2)%nat then
    match map (fun coord => parse_float (trim coord)) (split_on "," placeName) with
    | [lat; lon] => (lat, lon)
    | _ => (default_lat, default_lon)
    end
  else (default_lat, default_lon).

(** Lines 37-41. *)
Definition business_data (st : BusinessState) : jsval :=
  let '(lat, lon) := coordinates (placeName st) in
  JObj [("business_name", JStr (businessName st)); ("location", JStr (location_text lat lon));
        ("category", JStr (category st))].

(** Lines 26-46: the request, and the error object of the catch. *)
Definition submit_program (st : BusinessState) : Http jsval :=
  catch (ApiService.analyzeExistingBusiness true (business_data st))
        (fun _ => ret (JObj [("error", JStr business_error)])).

(** Lines 21-24. *)
Definition handleSubmit (st : BusinessState) : option BusinessState :=
  if String.eqb (trim (businessName st)) "" then None
  else Some {| businessName := businessName st; placeName := placeName st; province := province st;
               category := category st; isLoading := true; result := JNull |}.

(** Lines 43, 46 and 48: [submit_program] never throws. *)
Definition finish (st : BusinessState) (o : Outcome jsval) : BusinessState :=
  {| businessName := businessName st; placeName := placeName st; province := province st;
     category := category st; isLoading := false;
     result := match o with Return v => v | Throw _ => result st end |}.

(** A submit run to its end in the browser. *)
Definition submit (net : Request -> FetchResult) (st : BusinessState) : list Request * BusinessState :=
  match handleSubmit st with
  | None => ([], st)
  | Some st1 => let '(sent, o) := run_http net (ApiService.link (submit_program st1)) in (sent, finish st1 o)
  end.

End Submit.

(** The text fields (lines 101-155). *)
Definition set_fields (st : BusinessState) (name place prov cat : string) : BusinessState :=
  {| businessName := name; placeName := place; province := prov; category := cat;
     isLoading := isLoading st; result := result st |}.

(** Lines 95-177: the form; the button is disabled by
    [isLoading || !businessName.trim()]. *)
Definition business_form (st : BusinessState) : FormControls :=
  {| text_fields := [("ชื่อธุรกิจ", businessName st); ("สถานที่ / พิกัด", placeName st); ("จังหวัด", province st)];
     select_value := category st; select_options := businessCategories;
     submit_disabled := isLoading st || String.eqb (trim (businessName st)) "";
     submit_label := if isLoading st then "กำลังวิเคราะห์..." else "วิเคราะห์ธุรกิจ" |}.

Inductive BusinessEdit :=
| TypeName (s : string) | TypePlace (s : string) | TypeProvince (s : string) | SelectCategory (c : string).

(** The [onChange] handlers of lines 104, 119, 131 and 142. *)
Definition business_edit (e : BusinessEdit) (st : BusinessState) : BusinessState :=
  match e with
  | TypeName s => set_fields st s (placeName st) (province st) (category st)
  | TypePlace s => set_fields st (businessName st) s (province st) (category st)
  | TypeProvince s => set_fields st (businessName st) (placeName st) s (category st)
  | SelectCategory c => set_fields st (businessName st) (placeName st) (province st) c
  end.

Definition business_view `{JsEngine} (st : BusinessState) : option (list FormBlock) :=
  form_view ["analysis"; "message"] (result st).

End Business.

Module Investment.

Record InvestmentState := mkInvestmentState {
  investMessage : string;
  placeName : string;
  province : string;
  entrepreneurType : string;
  isLoading : bool;
  result : jsval
}.

Definition investment_initial : InvestmentState :=
  {| investMessage := "เป็นนักลงทุนรายใหม่ งบ 4000000 เปิดคาเฟ่ข้างเมญ่า อยากรู้ว่าควรทำขนมประมาณไหนดี ควรวางกลยุทธ์ทางการตลาดยังไง";
     placeName := "เมญ่า"; province := "เชียงใหม่"; entrepreneurType := "new"; isLoading := false;
     result := JNull |}.

Definition investment_error : string := "เกิดข้อผิดพลาดในการขอคำแนะนำ กรุณาลองใหม่อีกครั้ง".

Section Submit.
Context `{JsEngine} `{Json}.

(** Lines 30-37. *)
Definition investment_data (st : InvestmentState) : jsval :=
  JObj [("user_message", JStr (investMessage st)); ("location", JStr (location_text default_lat default_lon));
        ("entrepreneur_type", JStr (entrepreneurType st))].

Definition submit_program (st : InvestmentState) : Http jsval :=
  catch (ApiService.recommendNewInvestment true (investment_data st))
        (fun _ => ret (JObj [("error", JStr investment_error)])).

Definition handleSubmit (st : InvestmentState) : option InvestmentState :=
  if String.eqb (trim (investMessage st)) "" then None
  else Some {| investMessage := investMessage st; placeName := placeName st; province := province st;
               entrepreneurType := entrepreneurType st; isLoading := true; result := JNull |}.

Definition finish (st : InvestmentState) (o : Outcome jsval) : InvestmentState :=
  {| investMessage := investMessage st; placeName := placeName st; province := province st;
     entrepreneurType := entrepreneurType st; isLoading := false;
     result := match o with Return v => v | Throw _ => result st end |}.

Definition submit (net : Request -> FetchResult) (st : InvestmentState) : list Request * InvestmentState :=
  match handleSubmit st with
  | None => ([], st)
  | Some st1 => let '(sent, o) := run_http net (ApiService.link (submit_program st1)) in (sent, finish st1 o)
  end.

End Submit.

Definition set_place (st : InvestmentState) (place prov : string) : InvestmentState :=
  {| investMessage := investMessage st; placeName := place; province := prov;
     entrepreneurType := entrepreneurType st; isLoading := isLoading st; result := result st |}.

(** Lines 77-159: the form; the button is disabled by
    [isLoading || !investMessage.trim()]. *)
Definition investment_form (st : InvestmentState) : FormControls :=
  {| text_fields := [("อธิบายแผนการลงทุนของคุณ", investMessage st); ("สถานที่", placeName st);
                     ("จังหวัด", province st)];
     select_value := entrepreneurType st;
     select_options := [("new", "นักลงทุนใหม่"); ("experienced", "มีประสบการณ์")];
     submit_disabled := isLoading st || String.eqb (trim (investMessage st)) "";
     submit_label := if isLoading st then "กำลังวิเคราะห์..." else "ขอคำแนะนำการลงทุน" |}.

Inductive InvestmentEdit :=
| TypeMessage (s : string) | TypePlace (s : string) | TypeProvince (s : string) | SelectType (t : string).

(** The [onChange] handlers of lines 88, 107, 120 and 133. *)
Definition investment_edit (e : InvestmentEdit) (st : InvestmentState) : InvestmentState :=
  match e with
  | TypeMessage s => {| investMessage := s; placeName := placeName st; province := province st;
                        entrepreneurType := entrepreneurType st; isLoading := isLoading st; result := result st |}
  | TypePlace s => set_place st s (province st)
  | TypeProvince s => set_place st (placeName st) s
  | SelectType t => {| investMessage := investMessage st; placeName := placeName st; province := province st;
                       entrepreneurType := t; isLoading := isLoading st; result := result st |}
  end.

Definition investment_view `{JsEngine} (st : InvestmentState) : option (list FormBlock) :=
  form_view ["recommendation"; "analysis"; "message"] (result st).

End Investment.

(** ** The sessions of the two pages *)

(** The sessions of the two pages, from their initial state. *)
Definition business_session `{JsEngine} `{Json} : Session Business.BusinessState -> Prop :=
  session_reachable Business.BusinessState Business.BusinessEdit jsval Business.business_edit
    (fun st => submit_disabled (Business.business_form st))
    Business.handleSubmit Business.submit_program Business.finish Business.business_initial.

Definition investment_session `{JsEngine} `{Json} : Session Investment.InvestmentState -> Prop :=
  session_reachable Investment.InvestmentState Investment.InvestmentEdit jsval Investment.investment_edit
    (fun st => submit_disabled (Investment.investment_form st))
    Investment.handleSubmit Investment.submit_program Investment.finish Investment.investment_initial.

(** ** Lemmas shared by the two pages *)

Section Shared.
Context `{JsEngine} `{JsonLaws}.

(** The request a form page's [try]/[catch] sends upstream, through the
    route, whatever the network answers. *)
Lemma form_sent net ep cfg data v :
  In (ep, cfg) ApiService.proxy_endpoints -> is_json data = true ->
  fst (run_http net (ApiService.link (catch (ApiService.makeRequest true ep data) (fun _ => ret v)))) =
  [Routes.upstream_request (Routes.px_endpoint cfg) data true].
Proof.
  intros Hin Hj. rewrite ApiService.run_link_catch, run_http_catch.
  pose proof (ApiService.browser_proxy_sent ep cfg data net Hin Hj) as Hs.
  destruct (run_http net (ApiService.link (ApiService.makeRequest true ep data))) as [s [a|e]];
    cbn in Hs |- *; rewrite ?app_nil_r; exact Hs.
Qed.

(** When the service fails, the page's [catch] gives its error object. *)
Lemma form_failure net ep cfg data v a :
  In (ep, cfg) ApiService.proxy_endpoints -> is_json data = true ->
  net (Routes.upstream_request (Routes.px_endpoint cfg) data true) = a ->
  (forall r, a = Reply r -> ok (res_status r) = false) ->
  snd (run_http net (ApiService.link (catch (ApiService.makeRequest true ep data) (fun _ => ret v)))) = Return v.
Proof.
  intros Hin Hj Ha Hf. rewrite ApiService.run_link_catch, run_http_catch.
  rewrite (ApiService.browser_proxy_failure_run ep cfg data net a Hin Hj Ha Hf). reflexivity.
Qed.


(** The sent requests of a run that ends in [finish]. *)
Lemma fst_finish {S} (p : list Request * Outcome jsval) (f : Outcome jsval -> S) :
  fst (let '(sent, o) := p in (sent, f o)) = fst p.
Proof. destruct p; reflexivity. Qed.

Lemma snd_finish {S} (p : list Request * Outcome jsval) (f : Outcome jsval -> S) :
  snd (let '(sent, o) := p in (sent, f o)) = f (snd p).
Proof. destruct p; reflexivity. Qed.

Lemma business_form_data_json st : is_json (Business.business_data st) = true.
Proof. unfold Business.business_data. destruct (Business.coordinates _). reflexivity. Qed.

End Shared.

Lemma business_session_inv `{JsEngine} `{Json} ss :
  business_session ss ->
  (in_flight ss = [] /\ Business.isLoading (page ss) = false) \/
  (exists s1, in_flight ss = [s1] /\ Business.isLoading (page ss) = true).
Proof.
  apply (session_one_in_flight _ _ _ _ _ _ _ _ Business.isLoading); [| |reflexivity|intros []; reflexivity|reflexivity].
  - intros st Hl. cbn. rewrite Hl. reflexivity.
  - intros st st1. unfold Business.handleSubmit. destruct (String.eqb _ _); [discriminate|]. intros [= <-]. reflexivity.
Qed.

Lemma investment_session_inv `{JsEngine} `{Json} ss :
  investment_session ss ->
  (in_flight ss = [] /\ Investment.isLoading (page ss) = false) \/
  (exists s1, in_flight ss = [s1] /\ Investment.isLoading (page ss) = true).
Proof.
  apply (session_one_in_flight _ _ _ _ _ _ _ _ Investment.isLoading); [| |reflexivity|intros []; reflexivity|reflexivity].
  - intros st Hl. cbn. rewrite Hl. reflexivity.
  - intros st st1. unfold Investment.handleSubmit. destruct (String.eqb _ _); [discriminate|]. intros [= <-]. reflexivity.
Qed.

(** ** Theorems *)

(** C33. On the home, business and investment pages at most one request
    is in flight at any time, and the loading flag is up exactly while one
    is, whatever the user types, selects and clicks and in whatever order
    the answers come: the handlers do not test the flag, but the submit
    button is disabled while it is up (home line 304, business line 161,
    investment line 145). *)
Theorem forms_one_request_in_flight `{JsEngine} `{Json} :
  (forall ss, Home.home_session ss ->
     length (in_flight ss) <= 1 /\ (Home.isLoading (page ss) = true <-> in_flight ss <> [])) /\
  (forall ss, business_session ss ->
     length (in_flight ss) <= 1 /\ (Business.isLoading (page ss) = true <-> in_flight ss <> [])) /\
  (forall ss, investment_session ss ->
     length (in_flight ss) <= 1 /\ (Investment.isLoading (page ss) = true <-> in_flight ss <> [])).
Proof.
  split; [|split]; intros ss Hr; apply one_in_flight_facts;
    [exact (Home.home_session_inv ss Hr)|exact (business_session_inv ss Hr)|exact (investment_session_inv ss Hr)].
Qed.

Lemma forms_one_request_in_flight_witness :
  @business_session ref_engine ref_json (mkSession Business.business_initial []) /\
  length (in_flight (mkSession Business.business_initial [])) <= 1 /\
  (Business.isLoading (page (mkSession Business.business_initial [])) = true <->
   in_flight (mkSession Business.business_initial []) <> []).
Proof.
  assert (Hr : @business_session ref_engine ref_json (mkSession Business.business_initial [])) by constructor.
  split; [exact Hr|]. exact (proj1 (proj2 (@forms_one_request_in_flight ref_engine ref_json)) _ Hr).
Defined.

(** C31. The business page ignores a place name that is not a pair
    ["lat,lon"] and never sends the province: whatever place the user
    types (["ประตูท่าแพ"], ["Old City"], ...), the one request that reaches
    the service carries the Nimman coordinates. *)
Theorem business_place_ignored `{JsEngine} `{JsonLaws} net st :
  String.eqb (trim (Business.businessName st)) "" = false ->
  (includes (Business.placeName st) "," && (length (split_on "," (Business.placeName st)) =? 2)%nat) = false ->
  fst (Business.submit net st) =
  [Routes.upstream_request (Routes.px_endpoint Routes.analyze_existing_investment_cfg)
     (JObj [("business_name", JStr (Business.businessName st));
            ("location", JStr (location_text default_lat default_lon));
            ("category", JStr (Business.category st))]) true].
Proof.
  intros Hn Hp. unfold Business.submit, Business.handleSubmit. rewrite Hn. cbn [negb]. rewrite fst_finish.
  unfold Business.submit_program, ApiService.analyzeExistingBusiness, Business.business_data, Business.coordinates.
  cbn [Business.placeName Business.businessName Business.category]. rewrite Hp.
  apply form_sent; [simpl; tauto|reflexivity].
Qed.

Lemma business_place_ignored_witness :
  let st := Business.set_fields Business.business_initial "ร้านข้าวมันไก่" "ประตูท่าแพ" "เชียงใหม่" "food" in
  fst (Business.submit (fun _ => NetworkError "offline") st) =
  [Routes.upstream_request (Routes.px_endpoint Routes.analyze_existing_investment_cfg)
     (JObj [("business_name", JStr "ร้านข้าวมันไก่");
            ("location", JStr (location_text default_lat default_lon));
            ("category", JStr "food")]) true].
Proof. intros st. exact (@business_place_ignored ref_engine ref_json ref_json_laws _ st eq_refl eq_refl). Defined.

(** C32. The investment page sends the Nimman coordinates whatever the
    place and province fields hold: the place name (["เมญ่า"] by default)
    and the province never reach the service. *)
Theorem investment_location_fixed `{JsEngine} `{JsonLaws} net st place prov :
  String.eqb (trim (Investment.investMessage st)) "" = false ->
  fst (Investment.submit net (Investment.set_place st place prov)) =
  [Routes.upstream_request (Routes.px_endpoint Routes.recommend_new_investment_cfg)
     (JObj [("user_message", JStr (Investment.investMessage st));
            ("location", JStr (location_text default_lat default_lon));
            ("entrepreneur_type", JStr (Investment.entrepreneurType st))]) true].
Proof.
  intros Hn. unfold Investment.submit, Investment.handleSubmit. cbn [Investment.set_place Investment.investMessage].
  rewrite Hn. cbn [negb]. rewrite fst_finish.
  unfold Investment.submit_program, ApiService.recommendNewInvestment, Investment.investment_data.
  apply form_sent; [simpl; tauto|reflexivity].
Qed.

Lemma investment_location_fixed_witness :
  fst (Investment.submit (fun _ => NetworkError "offline")
         (Investment.set_place Investment.investment_initial "ท่าแพ" "ลำพูน")) =
  [Routes.upstream_request (Routes.px_endpoint Routes.recommend_new_investment_cfg)
     (JObj [("user_message", JStr (Investment.investMessage Investment.investment_initial));
            ("location", JStr (location_text default_lat default_lon));
            ("entrepreneur_type", JStr "new")]) true].
Proof.
  exact (@investment_location_fixed ref_engine ref_json ref_json_laws _ Investment.investment_initial _ _ eq_refl).
Defined.

(** When the service is down or answers an error status, the business
    page ends with the loading flag cleared and shows exactly its error box
    with the apology text. *)
Theorem business_failure_shows_error `{JsEngine} `{JsonLaws} net st :
  String.eqb (trim (Business.businessName st)) "" = false ->
  (forall rq r, net rq = Reply r -> ok (res_status r) = false) ->
  Business.isLoading (snd (Business.submit net st)) = false /\
  Business.business_view (snd (Business.submit net st)) = Some [FormError Business.business_error].
Proof.
  intros Hn Hf. unfold Business.submit, Business.handleSubmit. rewrite Hn. cbn [negb]. rewrite snd_finish.
  unfold Business.submit_program, ApiService.analyzeExistingBusiness.
  erewrite form_failure; [split; reflexivity|simpl; tauto|apply business_form_data_json|reflexivity|].
  intros r E. exact (Hf _ r E).
Qed.

Lemma business_failure_shows_error_witness :
  Business.isLoading (snd (Business.submit (fun _ => Reply (mkResponse 502 [] "Bad Gateway")) Business.business_initial))
  = false /\
  Business.business_view (snd (Business.submit (fun _ => Reply (mkResponse 502 [] "Bad Gateway")) Business.business_initial))
  = Some [FormError Business.business_error].
Proof.
  apply (@business_failure_shows_error ref_engine ref_json ref_json_laws); [reflexivity|].
  intros rq r E. injection E as <-. reflexivity.
Defined.
