(* ===== verification/Maps.v ===== *)
(** * Maps: the traffic map page [src/app/maps/page.tsx]

    The page keeps the Google map instance, a loading flag, the traffic
    hotspots and the weather (lines 30-35).  Its mount effect (lines 78-97)
    sets the six Nimman hotspots, loads the Google Maps script (or, when it
    is already loaded, draws the map at once) and fetches the weather; two
    intervals refresh the traffic (every 30 s, with [Math.random]) and the
    weather.  [initializeMap] (lines 152-184) creates the map and adds one
    marker per hotspot of [trafficData].

    Every function the effect calls is a closure of the first render, whose
    [trafficData] is still [[]]: [initializeMap], called directly or as
    [window.initMap], reads that empty list, so the map never gets a
    hotspot marker.  The model makes the capture explicit:
    [initializeMap captured st] reads the hotspots of [captured], and the
    effect passes the initial state.

    [Math.random] is the section variable [random], a generator on a seed
    of any type; the traffic rule of [reachable] allows every seed, so the
    theorems hold for every sequence of random numbers.  The Google map is
    the record [GMap] of what the page sets on it: the options of
    [new google.maps.Map] (centre, zoom 16, road map), the traffic layer,
    the markers with their info windows and [BOUNCE] animation, the open
    info windows ([open_info], a marker click), the end of the bounce three
    seconds later ([stop_bounce]) and the card button's [setCenter] and
    [setZoom(18)] ([view_on_map]); the library's drawing is not modelled.
    The [mapRef] div is always rendered (line 403), so [mapRef.current] is
    set when the effect runs.  [maps_view] is what the page shows around the
    map: the weather cards, the four counters and the hotspot list. *)

From Stdlib Require Import Ascii String ZArith Bool Floats List Lia NArith.
From S2P Require Import Prelude JsEngine JsValue Json Http Results Routes.
Import ListNotations.

#[local] Set Warnings "-inexact-float".
Local Open Scope string_scope.
Local Open Scope http_scope.

Module Maps.

(** [intensity: "high" | "medium" | "low"]. *)
Inductive Intensity := High | Medium | Low.

Record TrafficHotspot := mkHotspot {
  lat : float;
  lng : float;
  intensity : Intensity;
  description : string
}.

(** Lines 39-76. *)
Definition nimmanTrafficHotspots : list TrafficHotspot :=
  [mkHotspot 18.8022 98.9525 High "นิมมานเหมินทร์ - หน้า Maya Mall";
   mkHotspot 18.8035 98.9515 Medium "ถนนนิมมานเหมินทร์ ซอย 1";
   mkHotspot 18.8045 98.9535 High "สี่แยกนิมมาน - One Nimman";
   mkHotspot 18.8015 98.9545 Medium "ถนนนิมมานเหมินทร์ ซอย 3";
   mkHotspot 18.8055 98.9525 Low "ถนนนิมมานเหมินทร์ ซอย 5";
   mkHotspot 18.8025 98.9505 High "หน้า Think Park"].

(** Lines 226-250. *)
Definition getTrafficColor (i : Intensity) : string :=
  match i with High => "#ff4444" | Medium => "#ff8800" | Low => "#ffdd00" end.

Definition getTrafficLabel (i : Intensity) : string :=
  match i with High => "สูง" | Medium => "ปานกลาง" | Low => "ต่ำ" end.

(** Lines 252-257. *)
Definition getTrafficStats (hs : list TrafficHotspot) : nat * nat * nat :=
  (length (filter (fun t => match intensity t with High => true | _ => false end) hs),
   length (filter (fun t => match intensity t with Medium => true | _ => false end) hs),
   length (filter (fun t => match intensity t with Low => true | _ => false end) hs)).

(** The info window of lines 203-212: the description and the label (the
    time of the last update, a [Date], is not modelled). *)
Record InfoWindow := mkInfoWindow { iw_title : string; iw_label : string }.

(** The marker of lines 188-201: position, title, fill colour, the
    [BOUNCE] animation while it runs, and its info window. *)
Record Marker := mkMarker {
  m_lat : float;
  m_lng : float;
  m_title : string;
  m_color : string;
  m_bouncing : bool;
  m_info : InfoWindow
}.

Definition marker_of (h : TrafficHotspot) : Marker :=
  {| m_lat := lat h; m_lng := lng h; m_title := description h; m_color := getTrafficColor (intensity h);
     m_bouncing := true; m_info := mkInfoWindow (description h) (getTrafficLabel (intensity h)) |}.

(** The Google map as the page drives it: centre, zoom, map type, the
    traffic layer, the markers and the indices of the open info windows. *)
Record GMap := mkGMap {
  center : float * float;
  zoom : nat;
  map_type : string;
  traffic_layer : bool;
  markers : list Marker;
  open_infos : list nat
}.

(** Lines 152-180: the map of [new google.maps.Map] with its options, the
    traffic layer, and the markers of [updateMapMarkers] for [hs]. *)
Definition new_map (hs : list TrafficHotspot) : GMap :=
  {| center := (18.8022%float, 98.9525%float); zoom := 16; map_type := "roadmap"; traffic_layer := true;
     markers := map marker_of hs; open_infos := [] |}.

(** Lines 214-216: a click on marker [i] opens its info window. *)
Definition open_info (i : nat) (g : GMap) : GMap :=
  {| center := center g; zoom := zoom g; map_type := map_type g; traffic_layer := traffic_layer g;
     markers := markers g; open_infos := i :: open_infos g |}.

Fixpoint update_nth {A} (i : nat) (f : A -> A) (l : list A) : list A :=
  match l, i with
  | [], _ => []
  | x :: r, O => f x :: r
  | x :: r, S j => x :: update_nth j f r
  end.

(** Lines 219-221: three seconds after it was added, marker [i] stops
    bouncing. *)
Definition stop_bounce (i : nat) (g : GMap) : GMap :=
  {| center := center g; zoom := zoom g; map_type := map_type g; traffic_layer := traffic_layer g;
     markers := update_nth i (fun m => {| m_lat := m_lat m; m_lng := m_lng m; m_title := m_title m;
                                          m_color := m_color m; m_bouncing := false; m_info := m_info m |})
                  (markers g);
     open_infos := open_infos g |}.

(** Lines 474-479: [map.setCenter(...)] and [map.setZoom(18)]. *)
Definition center_on (la ln : float) (g : GMap) : GMap :=
  {| center := (la, ln); zoom := 18; map_type := map_type g; traffic_layer := traffic_layer g;
     markers := markers g; open_infos := open_infos g |}.

Record WeatherData := mkWeather {
  temperature : jsval;
  w_description : jsval;
  humidity : jsval;
  windSpeed : jsval;
  icon : jsval
}.

(** Lines 116-122. *)
Definition fallback_weather : WeatherData :=
  mkWeather (JNum 28) (JStr "ท้องฟ้าแจ่มใส") (JNum 65) (JNum 2.5) (JStr "01d").

Definition maps_weather_url : string :=
  "https://api.openweathermap.org/data/2.5/weather?lat=18.8022&lon=98.9525&appid=973959347b8a6178b1089d57b2fddf0a&units=metric&lang=th".

Section Weather.
Context `{JsEngine} `{Json}.

(** Lines 99-124: [response.json()] without a status test, the five field
    reads, and the fallback on any exception. *)
Definition fetchWeatherData : Http WeatherData :=
  catch
    (response <- fetch {| req_url := maps_weather_url; req_method := "GET"; req_headers := [];
                          req_body := NoBody |} ;;
     data <- parse_json (res_body response) ;;
     main <- get data "main" ;; temp <- get main "temp" ;;
     weather <- get data "weather" ;; w0 <- get weather "0" ;; description <- get w0 "description" ;;
     main' <- get data "main" ;; humidity <- get main' "humidity" ;;
     wind <- get data "wind" ;; speed <- get wind "speed" ;;
     weather' <- get data "weather" ;; w0' <- get weather' "0" ;; icon <- get w0' "icon" ;;
     ret (mkWeather (Routes.round_value temp) description humidity speed icon))
    (fun _ => ret fallback_weather).

End Weather.

Record MapsState := mkMapsState {
  (** [map]: [None] while [null] *)
  gmap : option GMap;
  isLoading : bool;
  trafficData : list TrafficHotspot;
  weather : option WeatherData;
  (** the mount effect has run *)
  mounted : bool;
  (** [window.initMap] is set and the script is loading *)
  initMap_pending : bool
}.

Definition maps_initial : MapsState :=
  {| gmap := None; isLoading := true; trafficData := []; weather := None; mounted := false;
     initMap_pending := false |}.

Definition set_traffic (st : MapsState) (hs : list TrafficHotspot) : MapsState :=
  {| gmap := gmap st; isLoading := isLoading st; trafficData := hs; weather := weather st;
     mounted := mounted st; initMap_pending := initMap_pending st |}.

(** Lines 152-184, as a closure of the render whose state is [captured]. *)
Definition initializeMap (captured st : MapsState) : MapsState :=
  {| gmap := Some (new_map (trafficData captured)); isLoading := false;
     trafficData := trafficData st; weather := weather st; mounted := mounted st;
     initMap_pending := initMap_pending st |}.

(** Lines 136-150: [google_loaded] is [window.google]. *)
Definition loadGoogleMapsScript (captured : MapsState) (google_loaded : bool) (st : MapsState) : MapsState :=
  if google_loaded then initializeMap captured st
  else {| gmap := gmap st; isLoading := isLoading st; trafficData := trafficData st;
          weather := weather st; mounted := mounted st; initMap_pending := true |}.

(** Lines 78-81: the effect runs once, with the closures of the first
    render. *)
Definition mount (google_loaded : bool) (st : MapsState) : MapsState :=
  let st1 := set_traffic st nimmanTrafficHotspots in
  let st2 := loadGoogleMapsScript maps_initial google_loaded st1 in
  {| gmap := gmap st2; isLoading := isLoading st2; trafficData := trafficData st2;
     weather := weather st2; mounted := true; initMap_pending := initMap_pending st2 |}.

Definition set_weather (st : MapsState) (o : Outcome WeatherData) : MapsState :=
  {| gmap := gmap st; isLoading := isLoading st; trafficData := trafficData st;
     weather := match o with Return w => Some w | Throw _ => weather st end;
     mounted := mounted st; initMap_pending := initMap_pending st |}.

Definition with_map (st : MapsState) (g : GMap) : MapsState :=
  {| gmap := Some g; isLoading := isLoading st; trafficData := trafficData st; weather := weather st;
     mounted := mounted st; initMap_pending := initMap_pending st |}.

(** Lines 472-482: the button of a hotspot card; nothing happens while
    [map] is [null]. *)
Definition view_on_map (h : TrafficHotspot) (st : MapsState) : MapsState :=
  match gmap st with
  | Some g => with_map st (center_on (lat h) (lng h) g)
  | None => st
  end.

Section Random.
(** [Math.random()]: a generator on seeds of any type. *)
Variable Seed : Type.
Variable random : Seed -> float * Seed.

(** Line 130: the second number is drawn only when the first is at most
    0.7. *)
Definition draw_intensity (s : Seed) : Intensity * Seed :=
  let '(r1, s1) := random s in
  if (0.7 <? r1)%float then (High, s1)
  else let '(r2, s2) := random s1 in if (0.4 <? r2)%float then (Medium, s2) else (Low, s2).

(** Lines 126-134: [{...hotspot, intensity}] for each of the six hotspots. *)
Fixpoint updateTrafficData (hs : list TrafficHotspot) (s : Seed) : list TrafficHotspot * Seed :=
  match hs with
  | [] => ([], s)
  | h :: r =>
      let '(i, s1) := draw_intensity s in
      let '(r', s2) := updateTrafficData r s1 in
      (mkHotspot (lat h) (lng h) i (description h) :: r', s2)
  end.

Inductive reachable `{JsEngine} `{Json} : MapsState -> Prop :=
| reach_init : reachable maps_initial
| reach_mount st g : reachable st -> mounted st = false -> reachable (mount g st)
| reach_script st : reachable st -> initMap_pending st = true -> reachable (initializeMap maps_initial st)
| reach_traffic st s : reachable st -> mounted st = true ->
    reachable (set_traffic st (fst (updateTrafficData nimmanTrafficHotspots s)))
| reach_weather st net : reachable st -> mounted st = true ->
    reachable (set_weather st (snd (run_http net fetchWeatherData)))
| reach_marker_click st g i : reachable st -> gmap st = Some g -> i < length (markers g) ->
    reachable (with_map st (open_info i g))
| reach_bounce_stop st g i : reachable st -> gmap st = Some g -> i < length (markers g) ->
    reachable (with_map st (stop_bounce i g))
| reach_view_on_map st h : reachable st -> In h (trafficData st) -> reachable (view_on_map h st).

End Random.

(** ** What the page shows (lines 296-490) *)

(** One card of the hotspot list (lines 447-487): the colour of the card
    and of its dot ([=== "high"], [=== "medium"], otherwise yellow), the
    description, the label and the coordinates with four decimals. *)
Record HotspotCard := mkHotspotCard {
  card_red : bool;
  card_orange : bool;
  card_title : string;
  card_label : string;
  card_coords : string
}.

Record MapsView := mkMapsView {
  weather_card : option (string * string);
  stat_high : nat;
  stat_medium : nat;
  stat_low : nat;
  stat_total : nat;
  loading_overlay : bool;
  weather_details : option (list string);
  hotspot_cards : list HotspotCard
}.

Section View.
Context `{JsEngine}.

Definition hotspot_card (h : TrafficHotspot) : HotspotCard :=
  {| card_red := match intensity h with High => true | _ => false end;
     card_orange := match intensity h with Medium => true | _ => false end;
     card_title := description h; card_label := getTrafficLabel (intensity h);
     card_coords := "พิกัด: " ++ to_fixed (lat h) 4 ++ ", " ++ to_fixed (lng h) 4 |}.

(** The whole page; [None] when React throws on a weather value. *)
Definition maps_view (st : MapsState) : option MapsView :=
  let? card := match weather st with
               | None => Some None
               | Some w => let? t := Results.jsx_text (temperature w) in
                           let? d := Results.jsx_text (w_description w) in Some (Some (t ++ "°C", d))
               end in
  let? details := match weather st with
                  | None => Some None
                  | Some w => let? t := Results.jsx_text (temperature w) in
                              let? d := Results.jsx_text (w_description w) in
                              let? hu := Results.jsx_text (humidity w) in
                              let? ws := Results.jsx_text (windSpeed w) in
                              Some (Some [t ++ "°C"; d; hu ++ "%"; ws ++ " m/s"])
                  end in
  let '(high, medium, low) := getTrafficStats (trafficData st) in
  Some {| weather_card := card; stat_high := high; stat_medium := medium; stat_low := low;
          stat_total := length (trafficData st); loading_overlay := isLoading st;
          weather_details := details; hotspot_cards := map hotspot_card (trafficData st) |}.

End View.

(** ** Invariant of the page *)

Definition places (hs : list TrafficHotspot) : list (float * float * string) :=
  map (fun h => (lat h, lng h, description h)) hs.

(** An update changes the intensities only. *)
Lemma updateTrafficData_places {Seed} (random : Seed -> float * Seed) hs s :
  places (fst (updateTrafficData Seed random hs s)) = places hs.
Proof.
  revert s. induction hs as [|h r IH]; intros s; [reflexivity|]. cbn [updateTrafficData].
  destruct (draw_intensity Seed random s) as [i s1].
  specialize (IH s1). destruct (updateTrafficData Seed random r s1) as [r' s2]. cbn in IH |- *. now rewrite IH.
Qed.

Definition maps_inv (st : MapsState) : Prop :=
  (forall g, gmap st = Some g -> markers g = []) /\
  (mounted st = true -> places (trafficData st) = places nimmanTrafficHotspots).

Lemma reachable_maps_inv `{JsEngine} `{Json} {Seed} (random : Seed -> float * Seed) st :
  reachable Seed random st -> maps_inv st.
Proof.
  induction 1 as [|st g _ [Hm Ht] Hn|st _ [Hm Ht] _|st s _ [Hm Ht] _|st net _ [Hm Ht] _
                 |st g i _ [Hm Ht] Hg _|st g i _ [Hm Ht] Hg _|st h _ [Hm Ht] _].
  - split; [discriminate|discriminate].
  - unfold mount, loadGoogleMapsScript. split; [|destruct g; reflexivity].
    destruct g; cbn; [intros g' E; injection E as <-; reflexivity|exact Hm].
  - split; [cbn; intros g' E; injection E as <-; reflexivity|exact Ht].
  - split; [exact Hm|intros _; apply updateTrafficData_places].
  - split; [exact Hm|exact Ht].
  - split; [|exact Ht]. intros g' E. injection E as <-. exact (Hm g Hg).
  - split; [|exact Ht]. intros g' E. injection E as <-. cbn. rewrite (Hm g Hg). destruct i; reflexivity.
  - unfold view_on_map. destruct (gmap st) as [g|] eqn:Hg; [|split; [intros g' E; rewrite Hg in E|]; easy].
    split; [|exact Ht]. intros g' E. injection E as <-. exact (Hm g eq_refl).
Qed.

Lemma stats_sum hs :
  let '(h, m, l) := getTrafficStats hs in h + m + l = length hs.
Proof.
  unfold getTrafficStats. induction hs as [|x r IH]; [reflexivity|]. cbn [filter length].
  destruct (intensity x); cbn [length]; lia.
Qed.

Lemma places_length hs : length (places hs) = length hs.
Proof. apply length_map. Qed.

(** ** Theorems *)

(** C34. The map never shows a hotspot marker: [initializeMap] runs as a
    closure of the first render, whose [trafficData] is empty, so in every
    reachable state the map has no marker while, once mounted, the list
    below it shows the six Nimman hotspots, whatever [Math.random] returns
    and in whatever order the script, the intervals and the weather answer
    arrive. *)
Theorem map_has_no_hotspot_markers `{JsEngine} `{Json} {Seed} (random : Seed -> float * Seed) st :
  reachable Seed random st -> mounted st = true ->
  map (fun h => (lat h, lng h, description h)) (trafficData st) =
  map (fun h => (lat h, lng h, description h)) nimmanTrafficHotspots /\
  (forall g, gmap st = Some g -> markers g = []).
Proof. intros Hr Hm. destruct (reachable_maps_inv random st Hr) as [Hk Ht]. exact (conj (Ht Hm) Hk). Qed.

Lemma map_has_no_hotspot_markers_witness :
  let st := mount true maps_initial in
  reachable unit (fun u => (0.5%float, u)) st /\ mounted st = true /\
  map (fun h => (lat h, lng h, description h)) (trafficData st) =
  map (fun h => (lat h, lng h, description h)) nimmanTrafficHotspots /\
  (forall g, gmap st = Some g -> markers g = []).
Proof.
  intros st. assert (Hr : reachable unit (fun u => (0.5%float, u)) st)
    by (apply reach_mount; [apply reach_init|reflexivity]).
  exact (conj Hr (conj eq_refl (map_has_no_hotspot_markers _ st Hr eq_refl))).
Defined.

(** The weather fetch never throws: whatever the network answers, the
    weather card gets data, the fallback when the answer has no [main]. *)
Theorem fetchWeatherData_total `{JsEngine} `{Json} net :
  (exists w, snd (run_http net fetchWeatherData) = Return w) /\
  (forall r d, net {| req_url := maps_weather_url; req_method := "GET"; req_headers := []; req_body := NoBody |}
                 = Reply r ->
     json_parse (res_body r) = Some d -> js_get d "main" = Some JUndefined ->
     snd (run_http net fetchWeatherData) = Return fallback_weather).
Proof.
  split.
  - unfold fetchWeatherData. rewrite run_http_catch.
    destruct (run_http net _) as [s [w|e]]; [now exists w|now exists fallback_weather].
  - intros r d Hn Hp Hm. unfold fetchWeatherData. cbn [catch bind fetch run_http]. rewrite Hn.
    cbn [catch bind run_http ret throw]. unfold parse_json. rewrite Hp. cbn [catch bind run_http ret throw].
    unfold get at 1. rewrite Hm. reflexivity.
Qed.

Lemma weather_unauthorized_falls_back :
  snd (run_http (fun _ => Reply (mkResponse 401 [] "{cod:401}")) (@fetchWeatherData ref_engine ref_json))
  = Return fallback_weather.
Proof. vm_compute. reflexivity. Qed.

(** The counters agree with the list: in every reachable state of the
    mounted page that renders, the high, medium and low counters add up to
    the total, which is six, the number of cards in the hotspot list. *)
Theorem maps_stats_add_up `{JsEngine} `{Json} {Seed} (random : Seed -> float * Seed) st v :
  reachable Seed random st -> mounted st = true -> maps_view st = Some v ->
  stat_high v + stat_medium v + stat_low v = stat_total v /\ stat_total v = 6 /\
  length (hotspot_cards v) = 6.
Proof.
  intros Hr Hm Hv. destruct (reachable_maps_inv random st Hr) as [_ Ht].
  pose proof (f_equal (@length _) (Ht Hm)) as L. rewrite !places_length in L. cbn in L.
  unfold maps_view in Hv. pose proof (stats_sum (trafficData st)) as S.
  destruct (match weather st with Some _ => _ | None => _ end) as [c|]; [|discriminate].
  destruct (match weather st with Some _ => _ | None => _ end) as [d|]; [|discriminate].
  destruct (getTrafficStats (trafficData st)) as [[h m] l]. injection Hv as <-. cbn.
  rewrite length_map. lia.
Qed.

Lemma maps_stats_add_up_witness :
  let st := mount false maps_initial in
  reachable unit (fun u => (0.5%float, u)) st /\ mounted st = true /\
  exists v, maps_view st = Some v /\
  stat_high v + stat_medium v + stat_low v = stat_total v /\ stat_total v = 6 /\ length (hotspot_cards v) = 6.
Proof.
  intros st. assert (Hr : reachable unit (fun u => (0.5%float, u)) st)
    by (apply reach_mount; [apply reach_init|reflexivity]).
  split; [exact Hr|]. split; [reflexivity|].
  eexists. split; [reflexivity|].
  exact (@maps_stats_add_up ref_engine ref_json unit _ st _ Hr eq_refl eq_refl).
Defined.

End Maps.
