(* ===== verification/Dashboard.v ===== *)
(** * Dashboard: the business dashboard [src/app/dashboard/page.tsx]

    The page keeps the metrics (or [null]), the selected period, the
    full-page loading flag, the refreshing flag and the time of the last
    update (lines 57-61).  [fetchBusinessMetrics] (lines 75-125) sets one
    of the two flags and schedules a timeout (1.5 s, or 0.5 s for an
    automatic refresh) that draws new metrics with [Math.random] and clears
    both flags.  The mount effect fetches once and every five minutes; the
    refresh button (disabled while refreshing) fetches too.  While the
    loading flag is set the page is only a spinner (lines 189-198).

    [Math.random] is the section variable [random] on seeds of any type;
    [random_metrics] draws in the order of the object literal.  The
    timeouts are a count [pending]: each one, whenever it fires, does the
    same work.  [dashboard_view] is the page's render: the spinner, or the
    cards, charts, insights and alerts with their texts.
    [Intl.NumberFormat] (the currency and number formatters) is host code,
    a parameter of the view; the time of the last update is not
    modelled. *)

From Stdlib Require Import Ascii String ZArith Bool Floats List Lia NArith.
From S2P Require Import Prelude JsEngine JsValue.
Import ListNotations.

#[local] Set Warnings "-inexact-float -abstract-large-number".
Local Open Scope string_scope.

Module Dashboard.

Record Revenue := mkRevenue { current : float; previous : float; growth : float }.
Record Customers := mkCustomers {
  total : float; new_ : float; returning : float; conversionRate : float; lifetimeValue : float }.
Record Roi := mkRoi { percentage : float; investment : float; returns : float }.
Record Sales := mkSales { today : float; thisWeek : float; thisMonth : float; target : float }.
Record Performance := mkPerformance {
  pageViews : float; engagement : float; avgSessionTime : float; bounceRate : float }.

(** [interface BusinessMetrics], lines 24-54. *)
Record BusinessMetrics := mkMetrics {
  revenue : Revenue; customers : Customers; roi : Roi; sales : Sales; performance : Performance }.

Section Random.
Variable Seed : Type.
Variable random : Seed -> float * Seed.

(** Lines 85-118: the thirteen draws, in the order of the literal. *)
Definition random_metrics (s : Seed) : BusinessMetrics * Seed :=
  let baseRevenue := 2850000%float in
  let '(r0, s) := random s in
  let variation := ((r0 - 0.5) * 100000)%float in
  let '(r1, s) := random s in
  let '(r2, s) := random s in
  let '(r3, s) := random s in
  let '(r4, s) := random s in
  let '(r5, s) := random s in
  let '(r6, s) := random s in
  let '(r7, s) := random s in
  let '(r8, s) := random s in
  let '(r9, s) := random s in
  let '(r10, s) := random s in
  let '(r11, s) := random s in
  let '(r12, s) := random s in
  (mkMetrics
     (mkRevenue (baseRevenue + variation) 2450000 (16.3 + (r1 - 0.5) * 2))
     (mkCustomers (1247 + math_floor (r2 * 20)) (89 + math_floor (r3 * 10)) 1158
                  (3.2 + (r4 - 0.5) * 0.5) (15600 + math_floor (r5 * 1000)))
     (mkRoi (24.5 + (r6 - 0.5) * 2) 5000000 (6225000 + math_floor (r7 * 100000)))
     (mkSales (45000 + math_floor (r8 * 10000)) 285000 1150000 50000)
     (mkPerformance (12450 + math_floor (r9 * 500)) (68.5 + (r10 - 0.5) * 5)
                    (4.2 + (r11 - 0.5) * 0.5) (32.1 + (r12 - 0.5) * 3)), s)%float.

(** The first [n] numbers the generator gives from [s]. *)
Fixpoint draws (n : nat) (s : Seed) : list float :=
  match n with
  | O => []
  | S k => let '(r, s') := random s in r :: draws k s'
  end.

End Random.

Record DashboardState := mkDashboardState {
  metrics : option BusinessMetrics;
  selectedPeriod : string;
  isLoading : bool;
  isRefreshing : bool;
  (** timeouts scheduled by [fetchBusinessMetrics] that have not fired *)
  pending : nat;
  (** the mount effect has run *)
  mounted : bool
}.

Definition dashboard_initial : DashboardState :=
  {| metrics := None; selectedPeriod := "thisMonth"; isLoading := true; isRefreshing := false;
     pending := 0; mounted := false |}.

(** Lines 75-80 and 83: the flag and the scheduled timeout. *)
Definition fetchBusinessMetrics (isAutoRefresh : bool) (st : DashboardState) : DashboardState :=
  {| metrics := metrics st; selectedPeriod := selectedPeriod st;
     isLoading := if isAutoRefresh then isLoading st else true;
     isRefreshing := if isAutoRefresh then true else isRefreshing st;
     pending := S (pending st); mounted := mounted st |}.

(** Lines 84-122: a timeout fires with the metrics it drew. *)
Definition timeout_fires (m : BusinessMetrics) (st : DashboardState) : DashboardState :=
  match pending st with
  | O => st
  | S n => {| metrics := Some m; selectedPeriod := selectedPeriod st; isLoading := false;
              isRefreshing := false; pending := n; mounted := mounted st |}
  end.

(** Lines 64-73. *)
Definition mount (st : DashboardState) : DashboardState :=
  let st1 := fetchBusinessMetrics false st in
  {| metrics := metrics st1; selectedPeriod := selectedPeriod st1; isLoading := isLoading st1;
     isRefreshing := isRefreshing st1; pending := pending st1; mounted := true |}.

Definition setSelectedPeriod (st : DashboardState) (p : string) : DashboardState :=
  {| metrics := metrics st; selectedPeriod := p; isLoading := isLoading st;
     isRefreshing := isRefreshing st; pending := pending st; mounted := mounted st |}.

(** [x || d] on a number. *)
Definition num_or (x : option float) (d : float) : float :=
  match x with Some v => if truthy (JNum v) then v else d | None => d end.

Definition opt_field {A} (f : BusinessMetrics -> A) (m : option BusinessMetrics) : option A :=
  match m with Some v => Some (f v) | None => None end.

(** [formatPercentage], lines 139-141. *)
Definition formatPercentage (num : float) : string := to_fixed num 1 ++ "%".

(** The sales card, lines 326-335 and 541-542: the bar's width in percent
    and the text after the amount. *)
Definition sales_width (m : option BusinessMetrics) : float :=
  (num_or (opt_field (fun v => today (sales v)) m) 0 / num_or (opt_field (fun v => target (sales v)) m) 50000
   * 100)%float.

Definition below_target : string := " ต่ำกว่าเป้าหมาย".
Definition target_reached : string := " บรรลุเป้าหมายแล้ว".

Definition sales_status (m : option BusinessMetrics) : string :=
  if (num_or (opt_field (fun v => today (sales v)) m) 0 <? num_or (opt_field (fun v => target (sales v)) m) 50000)%float
  then below_target else target_reached.

(** The four performance cards, lines 158-187 and 355-356. *)
Definition performance_texts (m : option BusinessMetrics) : list string :=
  [to_fixed (num_or (opt_field (fun v => pageViews (performance v)) m) 0) 1 ++ " views";
   to_fixed (num_or (opt_field (fun v => engagement (performance v)) m) 0) 1 ++ "%";
   to_fixed (num_or (opt_field (fun v => avgSessionTime (performance v)) m) 0) 1 ++ " min";
   to_fixed (num_or (opt_field (fun v => bounceRate (performance v)) m) 0) 1 ++ "%"].

(** ** The dashboard on the screen (lines 143-187 and 200-560) *)

(** Lines 144-150: the last bar is the current revenue. *)
Definition revenueChartData (m : option BusinessMetrics) : list (string * float) :=
  [("ม.ค.", 2100000); ("ก.พ.", 2300000); ("มี.ค.", 2450000); ("เม.ย.", 2650000);
   ("พ.ค.", num_or (opt_field (fun v => current (revenue v)) m) 2850000)]%float.

(** Lines 152-156: segment, percentage and count. *)
Definition customerSegmentData (m : option BusinessMetrics) : list (string * float * float) :=
  [("ลูกค้าใหม่", 35, num_or (opt_field (fun v => new_ (customers v)) m) 89);
   ("ลูกค้าเก่า", 45, num_or (opt_field (fun v => returning (customers v)) m) 1158);
   ("ลูกค้า VIP", 20, 250)]%float.

(** [{metrics?.customers.new}]: nothing while there are no metrics. *)
Definition new_text `{JsEngine} (m : option BusinessMetrics) : string :=
  match m with Some v => to_string (JNum (new_ (customers v))) | None => "" end.

Record DashboardView := mkDashboardView {
  key_texts : list string;
  sales_bar : float;
  performance_cards : list string;
  revenue_bars : list (string * float * string * bool);
  segments : list (string * string * string * float);
  kpi_texts : list string;
  roi_texts : list string;
  insight_texts : list string;
  alert_texts : list string
}.

Inductive Screen := Spinner | Shown (v : DashboardView).

Section View.
Context `{JsEngine}.
(** [Intl.NumberFormat("th-TH", ...)]: host code, as parameters. *)
Variable formatCurrency formatNumber : float -> string.

(** [metrics?.g || d]. *)
Definition field (m : option BusinessMetrics) (g : BusinessMetrics -> float) (d : float) : float :=
  num_or (opt_field g m) d.

(** Lines 264-337: the four key cards. *)
Definition key_cards (m : option BusinessMetrics) : list string :=
  ["+" ++ formatPercentage (field m (fun v => growth (revenue v)) 0%float);
   formatCurrency (field m (fun v => current (revenue v)) 0%float);
   "+" ++ new_text m; formatNumber (field m (fun v => total (customers v)) 0%float);
   "ลูกค้าใหม่ " ++ new_text m ++ " คน";
   formatPercentage (field m (fun v => percentage (roi v)) 0%float);
   formatCurrency (field m (fun v => today (sales v)) 0%float);
   "เป้าหมาย " ++ formatCurrency (field m (fun v => target (sales v)) 50000%float)].

(** Lines 365-390: one bar per month, the current month (index 4)
    highlighted. *)
Definition revenue_chart (m : option BusinessMetrics) : list (string * float * string * bool) :=
  map (fun '(i, (month, r)) => (month, (r / 3000000 * 100)%float, formatCurrency r, (i =? 4)%nat))
      (combine (seq 0 5) (revenueChartData m)).

(** Lines 392-418. *)
Definition segment_bars (m : option BusinessMetrics) : list (string * string * string * float) :=
  map (fun '(sg, p, c) => (sg, to_string (JNum p) ++ "%", "(" ++ formatNumber c ++ " คน)", p))
      (customerSegmentData m).

(** Lines 420-456. *)
Definition kpi_section (m : option BusinessMetrics) : list string :=
  [formatPercentage (field m (fun v => conversionRate (customers v)) 0%float);
   formatCurrency (field m (fun v => lifetimeValue (customers v)) 0%float); "18.5%"].

(** Lines 458-494: the three figures and the advice box. *)
Definition roi_section (m : option BusinessMetrics) : list string :=
  [formatCurrency (field m (fun v => investment (roi v)) 0%float);
   formatCurrency (field m (fun v => returns (roi v)) 0%float);
   formatPercentage (field m (fun v => percentage (roi v)) 0%float);
   "ROI ของคุณอยู่ที่ " ++ formatPercentage (field m (fun v => percentage (roi v)) 0%float)
   ++ " ซึ่งถือว่าดีมาก! เมื่อเทียบกับอุตสาหกรรมเดียวกันที่มี ROI เฉลี่ย 15-20% แนะนำให้คงกลยุทธ์ปัจจุบันและขยายการลงทุนในช่องทางที่ให้ผลตอบแทนสูง"].

(** Lines 498-529: the texts of the four recommendations. *)
Definition insights (m : option BusinessMetrics) : list string :=
  ["ลูกค้าใหม่เพิ่มขึ้น " ++ new_text m ++ " คน แนะนำให้เพิ่มงบการตลาดดิจิทัล 15%";
   "ROI " ++ formatPercentage (field m (fun v => percentage (roi v)) 0%float)
   ++ " ดีมาก แต่ยังสามารถเพิ่มได้โดยลดต้นทุนการดำเนินงาน";
   "ลูกค้า VIP 20% สร้างรายได้ 40% ควรมีโปรแกรมพิเศษ";
   "Engagement Rate " ++ formatPercentage (field m (fun v => engagement (performance v)) 0%float)
   ++ " แนะนำให้พัฒนาแอปเพื่อเพิ่มการมีส่วนร่วม"].

(** Lines 531-561: the texts of the four alerts.  [minutes] is the [Math.random()] that line 547 draws
    during the render itself. *)
Definition alerts (minutes : float) (m : option BusinessMetrics) : list string :=
  ["ยอดขาย " ++ formatCurrency (field m (fun v => today (sales v)) 0%float) ++ sales_status m;
   "ข้อมูลลูกค้าอัปเดตล่าสุด " ++ to_string (JNum (math_floor (minutes * 60))) ++ " นาทีที่แล้ว";
   "บรรลุเป้าหมายรายได้เดือนนี้แล้ว 95%";
   "Bounce Rate " ++ formatPercentage (field m (fun v => bounceRate (performance v)) 0%float) ++ " ควรปรับปรุง UX"].

(** Lines 189-200 and 262-561: the spinner while loading, else the
    sections. *)
Definition dashboard_view (minutes : float) (st : DashboardState) : Screen :=
  if isLoading st then Spinner
  else
    let m := metrics st in
    Shown {| key_texts := key_cards m; sales_bar := sales_width m; performance_cards := performance_texts m;
             revenue_bars := revenue_chart m; segments := segment_bars m; kpi_texts := kpi_section m;
             roi_texts := roi_section m; insight_texts := insights m; alert_texts := alerts minutes m |}.

End View.

Section Reach.
Variable Seed : Type.
Variable random : Seed -> float * Seed.

Inductive reachable : DashboardState -> Prop :=
| reach_init : reachable dashboard_initial
| reach_mount st : reachable st -> mounted st = false -> reachable (mount st)
| reach_interval st : reachable st -> mounted st = true -> reachable (fetchBusinessMetrics true st)
| reach_refresh st : reachable st -> isLoading st = false -> isRefreshing st = false ->
    reachable (fetchBusinessMetrics false st)
| reach_timeout st s : reachable st -> (0 < pending st)%nat ->
    reachable (timeout_fires (fst (random_metrics Seed random s)) st)
| reach_period st p : reachable st -> isLoading st = false -> reachable (setSelectedPeriod st p).

End Reach.

(** ** Invariant and lemmas *)

Definition dashboard_inv (st : DashboardState) : Prop :=
  (isLoading st = true -> mounted st = true -> (0 < pending st)%nat) /\
  (metrics st = None -> isLoading st = true).

Lemma reachable_dashboard_inv {Seed} (random : Seed -> float * Seed) st :
  reachable Seed random st -> dashboard_inv st.
Proof.
  induction 1 as [|st _ [Hp Hm] _|st _ [Hp Hm] _|st _ [Hp Hm] _ _|st s _ [Hp Hm] Hpos|st p _ [Hp Hm] _];
    unfold dashboard_inv; cbn.
  - split; [discriminate|reflexivity].
  - split; [intros; lia|reflexivity].
  - split; [intros; lia|exact Hm].
  - split; [intros; lia|reflexivity].
  - unfold timeout_fires. destruct (pending st) as [|n]; [lia|]. split; discriminate.
  - split; [exact Hp|exact Hm].
Qed.

Lemma timeout_fires_shows (m : BusinessMetrics) st :
  (0 < pending st)%nat -> isLoading (timeout_fires m st) = false /\ metrics (timeout_fires m st) = Some m.
Proof. unfold timeout_fires. destruct (pending st); [lia|]. split; reflexivity. Qed.

(** The sales card over the 10 000 values [45000 + Math.floor(r * 10000)]
    takes for [r] in [[0, 1)], checked one by one. *)
Definition sales_ok (k : nat) : bool :=
  let m := Some (mkMetrics (mkRevenue 0 0 0) (mkCustomers 0 0 0 0 0) (mkRoi 0 0 0)
                           (mkSales (45000 + float_of_nat k)%float 285000 1150000 50000)
                           (mkPerformance 0 0 0 0)) in
  Bool.eqb (String.eqb (sales_status m) below_target) (sales_width m <? 100)%float
  && (sales_width m <=? 110)%float
  && Bool.eqb (50000 <? 45000 + float_of_nat k)%float (100 <? sales_width m)%float.

Lemma sales_ok_all k : (k < 10000)%nat -> sales_ok k = true.
Proof.
  intros Hk. assert (H : forallb sales_ok (seq 0 10000) = true) by (vm_compute; reflexivity).
  rewrite forallb_forall in H. apply H, in_seq. lia.
Qed.

(** The customer card over the 200 pairs of draws [Math.floor(r * 20)]
    and [Math.floor(r' * 10)]: the total against new plus returning, and the
    share of new customers against the 35% the segment shows. *)
Definition customers_ok (a b : nat) : bool :=
  let total := (1247 + float_of_nat a)%float in
  let new := (89 + float_of_nat b)%float in
  Bool.eqb (PrimFloat.eqb total (new + 1158)%float) (Nat.eqb a b)
  && (new / (new + 1158 + 250) * 100 <? 7)%float.

Lemma customers_ok_all a b : (a < 20)%nat -> (b < 10)%nat -> customers_ok a b = true.
Proof.
  intros Ha Hb.
  assert (H : forallb (fun a => forallb (customers_ok a) (seq 0 10)) (seq 0 20) = true)
    by (vm_compute; reflexivity).
  rewrite forallb_forall in H. specialize (H a ltac:(apply in_seq; lia)).
  rewrite forallb_forall in H. apply H, in_seq. lia.
Qed.

(** ** Theorems *)

(** C35. The loading screen is never stuck: in every reachable state where the
    mounted page shows its spinner, a timeout is pending, and its firing
    (whatever [Math.random] draws) is a reachable state showing the
    dashboard with metrics. *)
Theorem loading_screen_never_stuck {Seed} (random : Seed -> float * Seed) st :
  reachable Seed random st -> isLoading st = true -> mounted st = true ->
  (0 < pending st)%nat /\
  forall s, let st' := timeout_fires (fst (random_metrics Seed random s)) st in
            reachable Seed random st' /\ isLoading st' = false /\ metrics st' <> None.
Proof.
  intros Hr Hl Hm. destruct (reachable_dashboard_inv random st Hr) as [Hp _].
  specialize (Hp Hl Hm). split; [exact Hp|]. intros s st'.
  destruct (timeout_fires_shows (fst (random_metrics Seed random s)) st Hp) as [H1 H2].
  split; [now apply reach_timeout|]. split; [exact H1|]. unfold st'. rewrite H2. discriminate.
Qed.

Lemma loading_screen_never_stuck_witness :
  let st := mount dashboard_initial in
  reachable unit (fun u => (0.25%float, u)) st /\ isLoading st = true /\ mounted st = true /\
  (0 < pending st)%nat /\
  forall s, let st' := timeout_fires (fst (random_metrics unit (fun u => (0.25%float, u)) s)) st in
            reachable unit (fun u => (0.25%float, u)) st' /\ isLoading st' = false /\ metrics st' <> None.
Proof.
  intros st. assert (Hr : reachable unit (fun u => (0.25%float, u)) st)
    by (apply reach_mount; [apply reach_init|reflexivity]).
  exact (conj Hr (conj eq_refl (conj eq_refl (loading_screen_never_stuck _ st Hr eq_refl eq_refl)))).
Defined.

(** C36. The sales bar overflows its track: for every value of today's sales
    the page can draw, the text says "below target" exactly when the bar
    is under 100%, but above the 50 000 target the bar's width exceeds
    100% (up to 110%), so it is drawn past the end of its track. *)
Theorem sales_bar_overflows k m :
  (k < 10000)%nat ->
  today (sales m) = (45000 + float_of_nat k)%float -> target (sales m) = 50000%float ->
  (sales_status (Some m) = below_target <-> (sales_width (Some m) <? 100)%float = true) /\
  (sales_width (Some m) <=? 110)%float = true /\
  ((50000 <? today (sales m))%float = (100 <? sales_width (Some m))%float).
Proof.
  intros Hk Ht Hg. pose proof (sales_ok_all k Hk) as H. unfold sales_ok in H.
  destruct m as [rv cu ro [t w mo g] pe]; cbn [sales today target] in Ht, Hg |- *; subst t g.
  unfold sales_status, sales_width, opt_field in *. cbn [sales today target] in *.
  apply andb_prop in H as [H H3]. apply andb_prop in H as [H1 H2].
  apply Bool.eqb_prop in H1, H3. split; [|split; [exact H2|exact H3]].
  rewrite <- H1. split; [intros ->; apply String.eqb_refl|intros E; apply String.eqb_eq, E].
Qed.

Lemma sales_bar_overflows_witness :
  let m := mkMetrics (mkRevenue 2850000 2450000 16.3) (mkCustomers 1247 89 1158 3.2 15600)
                     (mkRoi 24.5 5000000 6225000) (mkSales 54000 285000 1150000 50000)
                     (mkPerformance 12450 68.5 4.2 32.1) in
  (9000 < 10000)%nat /\ (100 <? sales_width (Some m))%float = true /\
  ((sales_status (Some m) = below_target <-> (sales_width (Some m) <? 100)%float = true) /\
   (sales_width (Some m) <=? 110)%float = true /\
   ((50000 <? today (sales m))%float = (100 <? sales_width (Some m))%float)).
Proof.
  intros m. split; [apply Nat.ltb_lt; vm_compute; reflexivity|]. split; [vm_compute; reflexivity|].
  apply (sales_bar_overflows 9000 m); [apply Nat.ltb_lt; vm_compute; reflexivity|vm_compute; reflexivity|reflexivity].
Defined.


(** The customers of the drawn metrics: the third and fourth numbers of
    [Math.random()] give the total and the new customers (lines 95-97). *)
Lemma random_metrics_customers {Seed} (random : Seed -> float * Seed) s :
  let c := customers (fst (random_metrics Seed random s)) in
  let rs := draws Seed random 4 s in
  total c = (1247 + math_floor (nth 2 rs 0%float * 20))%float /\
  new_ c = (89 + math_floor (nth 3 rs 0%float * 10))%float /\ returning c = 1158%float.
Proof.
  cbn zeta. unfold random_metrics. cbn [draws nth].
  repeat match goal with |- context [random ?x] => destruct (random x) end.
  repeat split.
Qed.

(** The customer figures of a metrics value whose draws are [a] and [b]. *)
Lemma customer_figures_of a b m :
  (a < 20)%nat -> (b < 10)%nat ->
  total (customers m) = (1247 + float_of_nat a)%float -> new_ (customers m) = (89 + float_of_nat b)%float ->
  returning (customers m) = 1158%float ->
  PrimFloat.eqb (total (customers m)) (new_ (customers m) + returning (customers m))%float = Nat.eqb a b /\
  hd ("", 0, 0)%float (customerSegmentData (Some m)) = ("ลูกค้าใหม่", 35, new_ (customers m))%float /\
  (new_ (customers m) / (new_ (customers m) + returning (customers m) + 250) * 100 <? 7)%float = true.
Proof.
  intros Ha Hb Ht Hn Hr. pose proof (customers_ok_all a b Ha Hb) as H. unfold customers_ok in H.
  apply andb_prop in H as [H1 H2]. apply Bool.eqb_prop in H1. rewrite Ht, Hn, Hr.
  split; [exact H1|]. split; [|exact H2].
  cbn [customerSegmentData hd opt_field]. unfold num_or. rewrite Hn.
  assert (T : truthy (JNum (89 + float_of_nat b)) = true).
  { assert (C : forallb (fun b => truthy (JNum (89 + float_of_nat b))) (seq 0 10) = true)
      by (vm_compute; reflexivity).
    rewrite forallb_forall in C. apply C, in_seq. lia. }
  rewrite T. reflexivity.
Qed.


(** C38. The customer figures the dashboard draws contradict each other:
    with [k1 = Math.floor(r * 20)] and [k2 = Math.floor(r' * 10)] the
    third and fourth draws of [Math.random()] in [random_metrics], the total
    [1247 + k1] equals new plus returning customers ([89 + k2 + 1158])
    only when [k1 = k2], and the segment chart shows the new customers as
    35% while they are under 7% of the customers it counts. *)
Theorem customer_figures_inconsistent {Seed} (random : Seed -> float * Seed) s k1 k2 :
  let m := fst (random_metrics Seed random s) in
  let rs := draws Seed random 4 s in
  (k1 < 20)%nat -> (k2 < 10)%nat ->
  math_floor (nth 2 rs 0%float * 20) = float_of_nat k1 -> math_floor (nth 3 rs 0%float * 10) = float_of_nat k2 ->
  PrimFloat.eqb (total (customers m)) (new_ (customers m) + returning (customers m))%float = Nat.eqb k1 k2 /\
  hd ("", 0, 0)%float (customerSegmentData (Some m)) = ("ลูกค้าใหม่", 35, new_ (customers m))%float /\
  (new_ (customers m) / (new_ (customers m) + returning (customers m) + 250) * 100 <? 7)%float = true.
Proof.
  intros m rs H1 H2 E1 E2. destruct (random_metrics_customers random s) as (Ht & Hn & Hr).
  fold m rs in Ht, Hn, Hr. rewrite E1 in Ht. rewrite E2 in Hn.
  exact (customer_figures_of k1 k2 m H1 H2 Ht Hn Hr).
Qed.

Lemma customer_figures_inconsistent_witness :
  let random := fun u : unit => (0.5%float, u) in
  let m := fst (random_metrics unit random tt) in
  let rs := draws unit random 4 tt in
  (10 < 20)%nat /\ (5 < 10)%nat /\
  math_floor (nth 2 rs 0%float * 20) = float_of_nat 10 /\ math_floor (nth 3 rs 0%float * 10) = float_of_nat 5 /\
  PrimFloat.eqb (total (customers m)) (new_ (customers m) + returning (customers m))%float = Nat.eqb 10 5 /\
  hd ("", 0, 0)%float (customerSegmentData (Some m)) = ("ลูกค้าใหม่", 35, new_ (customers m))%float /\
  (new_ (customers m) / (new_ (customers m) + returning (customers m) + 250) * 100 <? 7)%float = true.
Proof.
  intros random m rs.
  assert (E1 : math_floor (nth 2 rs 0%float * 20) = float_of_nat 10) by (vm_compute; reflexivity).
  assert (E2 : math_floor (nth 3 rs 0%float * 10) = float_of_nat 5) by (vm_compute; reflexivity).
  split; [lia|]. split; [lia|]. split; [exact E1|]. split; [exact E2|].
  exact (customer_figures_inconsistent random tt 10 5 ltac:(lia) ltac:(lia) E1 E2).
Defined.

End Dashboard.
