(* ===== verification/Navigation.v ===== *)
(** * Navigation: the pages of the app, the browser history and the error page

    The App Router serves [src/app/<dir>/page.tsx] at [/<dir>] ([route]).
    Every page moves between pages through [useRouter()]: [router.push(p)]
    adds an entry to the session history and [router.back()] returns to the
    previous one ([push], [back], after the stack of
    [jmlcoq/theories/Stack.v]).  The buttons each page offers are the lists
    [home_nav], [home_feature_cards], [results_links], ... translated from
    their [onClick] handlers, and the error page [src/app/error/page.tsx] is
    [ErrorPage] with its [handleRetry].

    The application [App] composes the pages: the history, the screen of
    the current entry and the session storage.  Arriving at an entry mounts
    its page afresh ([mount]); the results page redirects from its mount
    effect ([Results.on_mount]), and the home page navigates when its submit
    fails ([Home.finish]).  [app_step] is one user event; [reachable] the
    states a session reaches from the opening of a URL. *)

From Stdlib Require Import String List Bool Lia.
From S2P Require Import Prelude JsEngine JsValue Json Http Results Home.
Import ListNotations.

Local Open Scope string_scope.

Module Navigation.

(** ** Pages and routes *)

Inductive Page :=
| HomeP | ChatP | UploadP | InvestmentP | BusinessP | CarbonTrackerP | MapsP | DashboardP
| ResultsP | ErrorP.

(** The file-system routes of [src/app]: one directory per page. *)
Definition route (path : string) : option Page :=
  if String.eqb path "/" then Some HomeP
  else if String.eqb path "/chat" then Some ChatP
  else if String.eqb path "/upload" then Some UploadP
  else if String.eqb path "/investment" then Some InvestmentP
  else if String.eqb path "/business" then Some BusinessP
  else if String.eqb path "/carbon-tracker" then Some CarbonTrackerP
  else if String.eqb path "/maps" then Some MapsP
  else if String.eqb path "/dashboard" then Some DashboardP
  else if String.eqb path "/results" then Some ResultsP
  else if String.eqb path "/error" then Some ErrorP
  else None.

(** ** The session history *)

Record History := mkHistory {
  current : string;
  earlier : list string
}.

(** [router.push(path)]. *)
Definition push (path : string) (h : History) : History :=
  {| current := path; earlier := current h :: earlier h |}.

(** [router.back()]: the previous entry; with none there is nothing to go
    back to and the history stays. *)
Definition back (h : History) : History :=
  match earlier h with
  | [] => h
  | p :: e => {| current := p; earlier := e |}
  end.

Inductive NavAction := Push (path : string) | Back.

(** ** The buttons of the pages *)

(** [src/app/error/page.tsx], lines 9-11. *)
Definition handleRetry : NavAction := Back.

Record ErrorView := mkErrorView {
  heading : string;
  explanation : string;
  buttons : list (string * NavAction);
  problems : list string;
  footer : string
}.

(** [src/app/error/page.tsx], lines 13-70: the page, which has no state. *)
Definition ErrorPage : ErrorView :=
  {| heading := "เกิดข้อผิดพลาด";
     explanation := "เกิดข้อผิดพลาดขณะติดต่อระบบ กรุณาลองใหม่ภายหลัง";
     buttons := [("ลองใหม่อีกครั้ง", handleRetry); ("กลับหน้าหลัก", Push "/");
                 ("ติดต่อสอบถาม", Push "/chat")];
     problems := ["ระบบกำลังอัปเดต"; "การเชื่อมต่ออินเทอร์เน็ตไม่เสถียร";
                  "เซิร์ฟเวอร์ชั่วคราวไม่สามารถใช้งานได้"];
     footer := "หากปัญหายังคงอยู่ กรุณาติดต่อทีมสนับสนุน" |}.

(** [src/app/page.tsx], lines 179-229: the header of the home page. *)
Definition home_nav : list (string * NavAction) :=
  [("แชท", Push "/chat"); ("วิเคราะห์ภาพ", Push "/upload"); ("การลงทุน", Push "/investment");
   ("วิเคราะห์ธุรกิจ", Push "/business"); ("คาร์บอนเครดิต", Push "/carbon-tracker");
   ("แผนที่", Push "/maps"); ("แดชบอร์ด", Push "/dashboard")].

(** [src/app/page.tsx], lines 400-501: the feature cards; the Investment
    Analytics, Route Optimization and Real-time Data cards have no
    [onClick]. *)
Definition home_feature_cards : list (string * option NavAction) :=
  [("AI Travel Chatbot", Some (Push "/chat")); ("Carbon Credit Tracker", Some (Push "/carbon-tracker"));
   ("Traffic Monitor", Some (Push "/maps")); ("Business Dashboard", Some (Push "/dashboard"));
   ("Investment Analytics", None); ("Image Analysis", Some (Push "/upload"));
   ("Route Optimization", None); ("Real-time Data", None)].

(** [src/app/maps/page.tsx], lines 276-289. *)
Definition maps_links : list NavAction := [Push "/dashboard"; Push "/"].

(** [src/app/dashboard/page.tsx], lines 234-245. *)
Definition dashboard_header_links : list NavAction := [Push "/maps"; Push "/"].

(** [src/app/dashboard/page.tsx], lines 563-595: the quick actions. *)
Definition dashboard_quick_actions : list NavAction :=
  [Push "/maps"; Push "/business"; Push "/investment"; Push "/carbon-tracker"].

(** The back button of the headers: [business/page.tsx] 76-78,
    [investment/page.tsx] 63-65, [chat/page.tsx] 110-112,
    [carbon-tracker/page.tsx] 157-159 and [upload/page.tsx] 106-108 (the
    upload page's second button, line 287, does the same). *)
Definition back_home_links : list NavAction := [Push "/"].

(** ** The screens *)

Record Storage := mkStorage {
  searchResult : option string;
  searchQuery : option string;
  searchMode : option string
}.

(** The storage of a tab in which nothing was stored, and a network that
    answers nothing (for the examples). *)
Definition empty_storage : Storage := {| searchResult := None; searchQuery := None; searchMode := None |}.

Definition offline : Request -> FetchResult := fun _ => NetworkError "offline".

(** The page shown for the current entry: the home and results pages with
    their state, the others by name, and the 404 page of the framework. *)
Inductive Screen :=
| OnHome (st : Home.HomeState)
| OnResults (st : Results.ResultsState)
| OnPage (p : Page)
| NotFound.

(** ** The root layout [src/app/layout.tsx] *)

Record Metadata := mkMetadata {
  title : string;
  description : string;
  keywords : string;
  generator : string
}.

(** Lines 5-10. *)
Definition metadata : Metadata :=
  {| title := "BDI Assistant - ผู้ช่วยอัจฉริยะสำหรับนักท่องเที่ยวและผู้ประกอบการ";
     description := "ระบบแนะนำสถานที่ท่องเที่ยวและวิเคราะห์โอกาสทางธุรกิจด้วย AI ที่ทันสมัย";
     keywords := "เชียงใหม่, ท่องเที่ยว, ธุรกิจ, AI, แนะนำร้าน, วิเคราะห์การลงทุน";
     generator := "v0.dev" |}.

Record Document := mkDocument {
  lang : string;
  doc_title : string;
  preconnect : list string;
  body_class : string;
  body : Screen
}.

(** Lines 12-38: every page is the child of the layout; the [@font-face]
    rule of the head is CSS and not modelled. *)
Definition RootLayout (children : Screen) : Document :=
  {| lang := "th"; doc_title := title metadata;
     preconnect := ["https://fonts.googleapis.com"; "https://fonts.gstatic.com"];
     body_class := "font-noto-sans-thai"; body := children |}.

Section App.
Context `{JsEngine} `{Json}.

(** [src/app/results/page.tsx], lines 258-262, 324-350: the header button,
    the one of the "no results" block and the two action buttons, on a
    page that rendered; the spinner of lines 236-242 has none. *)
Definition results_links (st : Results.ResultsState) : list NavAction :=
  match Results.resultData st, Results.render st with
  | Some _, Some bs =>
      [Push "/"] ++ (if existsb (fun b => match b with Results.NoResults => true | _ => false end) bs
                     then [Push "/"] else []) ++ [Push "/"; Push "/chat"]
  | _, _ => []
  end.

Definition links (scr : Screen) : list NavAction :=
  match scr with
  | OnHome _ => map snd home_nav ++ flat_map (fun c => match snd c with Some a => [a] | None => [] end)
                                              home_feature_cards
  | OnResults st => results_links st
  | OnPage ErrorP => map snd (buttons ErrorPage)
  | OnPage MapsP => maps_links
  | OnPage DashboardP => dashboard_header_links ++ dashboard_quick_actions
  | OnPage _ => back_home_links
  | NotFound => []
  end.

(** Mounting the page of [path]: its screen and the path its mount effect
    pushes, if any. *)
Definition mount (s : Storage) (path : string) : Screen * option string :=
  match route path with
  | Some HomeP => (OnHome Home.home_initial, None)
  | Some ResultsP =>
      let st := Results.on_mount json_parse (searchResult s) (searchQuery s) (searchMode s)
                  Results.results_initial in
      (OnResults st, Results.navigatedTo st)
  | Some p => (OnPage p, None)
  | None => (NotFound, None)
  end.

(** Arriving at the current entry, following the redirects of the mount
    effects ([fuel] of them at most). *)
Fixpoint arrive (fuel : nat) (s : Storage) (h : History) : History * Screen :=
  let '(scr, redirect) := mount s (current h) in
  match redirect, fuel with
  | Some p, S f => arrive f s (push p h)
  | _, _ => (h, scr)
  end.

Record App := mkApp {
  history : History;
  screen : Screen;
  storage : Storage
}.

(** A redirect goes to [/] or [/error], whose mount does not redirect:
    two rounds are enough (see [arrive_settles]). *)
Definition redirect_fuel : nat := 2.

Definition enter (s : Storage) (h : History) : App :=
  let '(h', scr) := arrive redirect_fuel s h in {| history := h'; screen := scr; storage := s |}.

(** Opening [path] in a new tab. *)
Definition open (s : Storage) (path : string) : App :=
  enter s {| current := path; earlier := [] |}.

(** A click on a navigation button. *)
Definition navigate (a : NavAction) (app : App) : App :=
  match a with
  | Push p => enter (storage app) (push p (history app))
  | Back => match earlier (history app) with
            | [] => app
            | _ => enter (storage app) (back (history app))
            end
  end.

Inductive AppEvent :=
| Click (a : NavAction)
| HomeInput (e : Home.HomeEvent)
| TypeUrl (path : string).      (** the address bar: a new entry *)

Variable net : Request -> FetchResult.

(** One event; [None] when the screen has no such control.  An event of
    the home page that ends with [router.push] (the submit that fails,
    line 80) leaves the page. *)
Definition app_step (app : App) (ev : AppEvent) : option App :=
  match ev, screen app with
  | Click a, scr => if existsb (fun b => match a, b with
                                        | Push p, Push q => String.eqb p q
                                        | Back, Back => true
                                        | _, _ => false end) (links scr)
                    then Some (navigate a app) else None
  | HomeInput e, OnHome st =>
      let st' := Home.home_step net st e in
      match Home.navigatedTo st' with
      | Some p => Some (navigate (Push p) app)
      | None => Some {| history := history app; screen := OnHome st'; storage := storage app |}
      end
  | HomeInput _, _ => None
  | TypeUrl p, _ => Some (enter (storage app) (push p (history app)))
  end.

Inductive reachable (s : Storage) (path : string) : App -> Prop :=
| reach_open : reachable s path (open s path)
| reach_step app ev app' : reachable s path app -> app_step app ev = Some app' -> reachable s path app'.


(** The results screen an arrival ends on is the one the results page
    mounts from the storage, and it did not redirect. *)
Definition settled (app : App) : Prop :=
  forall st, screen app = OnResults st -> mount (storage app) "/results" = (OnResults st, None).

(** ** Lemmas *)

Lemma back_push p h : back (push p h) = h.
Proof. destruct h; reflexivity. Qed.

Lemma on_mount_redirect sr sq sm :
  let r := Results.navigatedTo (Results.on_mount json_parse sr sq sm Results.results_initial) in
  r = None \/ r = Some "/" \/ r = Some "/error".
Proof.
  unfold Results.on_mount. destruct sr as [x|]; [|auto].
  destruct (negb _); [|auto]. destruct (json_parse x); [destruct (Results.normalize _)|]; cbn; auto.
Qed.

(** Only the results page redirects, and only to [/] or [/error]. *)
Lemma mount_redirect_target s p q : snd (mount s p) = Some q -> q = "/" \/ q = "/error".
Proof.
  unfold mount. destruct (route p) as [[]|]; cbn; try discriminate.
  destruct (on_mount_redirect (searchResult s) (searchQuery s) (searchMode s)) as [E|[E|E]];
    rewrite E; intros Hq; inversion Hq; auto.
Qed.

Lemma mount_target s q :
  q = "/" \/ q = "/error" -> mount s q = (OnHome Home.home_initial, None) \/ mount s q = (OnPage ErrorP, None).
Proof. intros [->| ->]; [left|right]; reflexivity. Qed.

Lemma arrive_no_redirect n s h :
  snd (mount s (current h)) = None -> arrive n s h = (h, fst (mount s (current h))).
Proof. destruct n; cbn; destruct (mount s (current h)) as [scr [q|]]; cbn; congruence. Qed.

Lemma arrive_S n s h :
  arrive (S n) s h = match mount s (current h) with
                     | (_, Some p) => arrive n s (push p h)
                     | (scr, None) => (h, scr)
                     end.
Proof. cbn [arrive]. destruct (mount s (current h)) as [scr [p|]]; reflexivity. Qed.

Lemma mount_results s p st r :
  mount s p = (OnResults st, r) -> mount s "/results" = (OnResults st, r).
Proof. unfold mount. destruct (route p) as [[]|]; cbn; congruence. Qed.

Lemma enter_settled s h : settled (enter s h) /\ storage (enter s h) = s.
Proof.
  unfold enter, redirect_fuel. rewrite arrive_S. destruct (mount s (current h)) as [scr [q|]] eqn:E.
  - assert (Hq : q = "/" \/ q = "/error") by (apply (mount_redirect_target s (current h)); rewrite E; reflexivity).
    rewrite arrive_no_redirect
      by (cbn [current push]; destruct (mount_target s q Hq) as [M|M]; rewrite M; reflexivity).
    cbn [current push].
    split; [|reflexivity]. intros st; cbn [screen fst].
    destruct (mount_target s q Hq) as [M|M]; rewrite M; discriminate.
  - split; [|reflexivity]. intros st; cbn [screen]. intros ->. exact (mount_results _ _ _ _ E).
Qed.

Lemma navigate_settled a app : settled app -> settled (navigate a app) /\ storage (navigate a app) = storage app.
Proof.
  intros Hs. destruct a as [p|]; cbn [navigate]; [apply enter_settled|].
  destruct (earlier (history app)); [auto|apply enter_settled].
Qed.

Lemma step_settled app ev app' :
  settled app -> app_step app ev = Some app' -> settled app' /\ storage app' = storage app.
Proof.
  intros Hs. destruct ev as [a|e|p]; cbn [app_step].
  - destruct (existsb _ _); [|discriminate]. intros [= <-]. exact (navigate_settled a app Hs).
  - destruct (screen app) eqn:E; try discriminate.
    destruct (Home.navigatedTo _); intros [= <-]; [apply enter_settled|].
    split; [|reflexivity]. intros st' Hst'. discriminate.
  - intros [= <-]. apply enter_settled.
Qed.

Lemma reachable_settled s path app : reachable s path app -> settled app /\ storage app = s.
Proof.
  induction 1 as [|app ev app' _ [IHs IHt] Hst].
  - apply enter_settled.
  - destruct (step_settled app ev app' IHs Hst) as [H1 H2]. split; [exact H1|congruence].
Qed.

Lemma enter_plain s h :
  snd (mount s (current h)) = None -> enter s h = {| history := h; screen := fst (mount s (current h)); storage := s |}.
Proof. intros E. unfold enter. rewrite arrive_no_redirect by exact E. reflexivity. Qed.

Lemma results_redirect_error s x :
  searchResult s = Some x -> x <> "" -> json_parse x = None -> snd (mount s "/results") = Some "/error".
Proof.
  intros Hs Hx Hp. cbn. unfold Results.on_mount. rewrite Hs.
  destruct (String.eqb_spec x ""); [contradiction|]. cbn [negb]. rewrite Hp. reflexivity.
Qed.

Lemma results_links_targets st a : In a (results_links st) -> a = Push "/" \/ a = Push "/chat".
Proof.
  unfold results_links. destruct (Results.resultData st), (Results.render st); cbn; try tauto.
  destruct (existsb _ _); cbn; intuition.
Qed.

(** A redirect from the results page, reached by a new entry: the user is
    sent on, and going back lands on [/results], which sends them on again. *)
Lemma back_after_results_redirect s h p :
  snd (mount s "/results") = Some p ->
  current (history (enter s (push "/results" h))) = p /\
  screen (enter s (push "/results" h)) = fst (mount s p) /\
  navigate Back (enter s (push "/results" h)) = enter s (push "/results" h).
Proof.
  intros E. assert (Hq := mount_redirect_target s _ _ E).
  assert (Hn : snd (mount s p) = None) by (destruct (mount_target s p Hq) as [M|M]; rewrite M; reflexivity).
  assert (He : enter s (push "/results" h) = {| history := push p (push "/results" h); screen := fst (mount s p);
                                                storage := s |}).
  { unfold enter, redirect_fuel. rewrite arrive_S. cbn [current push].
    destruct (mount s "/results") as [scr r] eqn:M. cbn in E; subst r.
    rewrite (arrive_no_redirect 1 s (push p _)) by exact Hn. reflexivity. }
  rewrite He. split; [reflexivity|split; [reflexivity|]]. cbn [navigate history earlier push].
  rewrite back_push. cbn [storage]. exact He.
Qed.

(** ** Theorems *)

Ltac route_target := split; [vm_compute; discriminate|discriminate].

(** C19. Every navigation button of every screen goes to a page of [src/app]
    (no link is broken), and none goes to [/results]: the results page is
    reached by no click. *)
Theorem links_are_routes scr p : In (Push p) (links scr) -> route p <> None /\ p <> "/results".
Proof.
  destruct scr as [st|st|pg|]; cbn [links].
  - cbn. intros Hin. repeat (destruct Hin as [Hin|Hin]; [first [discriminate Hin | injection Hin as <-; route_target]|]). contradiction.
  - intros Hin. destruct (results_links_targets st _ Hin) as [E|E]; injection E as ->; route_target.
  - destruct pg; cbn; intros Hin;
      repeat (destruct Hin as [Hin|Hin]; [first [discriminate Hin | injection Hin as <-; route_target]|]); contradiction.
  - contradiction.
Qed.

(** C20. Arriving at an entry terminates: the results page redirects only
    to [/] or [/error], whose mounts do not redirect, so redirects stop
    after one round, any fuel of at least one gives the same arrival, and
    the page arrived at does not redirect. *)
Theorem arrive_settles s h n :
  1 <= n -> arrive n s h = arrive 1 s h /\ snd (mount s (current (fst (arrive n s h)))) = None.
Proof.
  intros Hn. destruct n as [|n]; [lia|]. rewrite !arrive_S.
  destruct (mount s (current h)) as [scr [q|]] eqn:E.
  - assert (Hq : q = "/" \/ q = "/error") by (apply (mount_redirect_target s (current h)); rewrite E; reflexivity).
    assert (Hm : snd (mount s q) = None)
      by (destruct (mount_target s q Hq) as [M|M]; rewrite M; reflexivity).
    rewrite !arrive_no_redirect by exact Hm. split; [reflexivity|exact Hm].
  - split; [reflexivity|]. cbn. rewrite E. reflexivity.
Qed.

(** C16. When nothing is stored under [searchResult] (and no page of the
    app stores anything there), the results page is never on screen in a
    session, whatever URL it was opened at and whatever the user does:
    every arrival at [/results] is sent on to [/]. *)
Theorem results_never_shown s path app st :
  reachable s path app -> searchResult s = None -> screen app <> OnResults st.
Proof.
  intros Hr Hs E. destruct (reachable_settled s path app Hr) as [Hset Hst].
  specialize (Hset st E). rewrite Hst in Hset. cbn in Hset. unfold Results.on_mount in Hset.
  rewrite Hs in Hset. discriminate.
Qed.

(** C17. After the results page has sent the user to the error page because
    the stored result does not parse, the "ลองใหม่อีกครั้ง" button
    ([handleRetry], [router.back()]) returns to [/results], whose mount sends
    the user to [/error] again: the retry leaves the application exactly as
    it was, so no number of retries leaves the error page. *)
Theorem error_retry_never_leaves app x :
  searchResult (storage app) = Some x -> x <> "" -> json_parse x = None ->
  exists app1, app_step app (TypeUrl "/results") = Some app1 /\
    screen app1 = OnPage ErrorP /\ current (history app1) = "/error" /\
    app_step app1 (Click handleRetry) = Some app1.
Proof.
  intros Hs Hx Hp. exists (enter (storage app) (push "/results" (history app))). split; [reflexivity|].
  destruct (back_after_results_redirect (storage app) (history app) "/error"
              (results_redirect_error _ x Hs Hx Hp)) as (Hc & Hscr & Hb).
  split; [exact Hscr|]. split; [exact Hc|]. cbn [app_step]. rewrite Hscr. cbn -[navigate].
  unfold handleRetry. rewrite Hb. reflexivity.
Qed.

(** C18. The retry of the error page does not retry a failed search: after
    a submit on the home page that ends on [/error], "ลองใหม่อีกครั้ง"
    goes back to the previous entry, where the home page mounts afresh, so
    the history is the one before the search and the typed message, the
    mode and the location are gone. *)
Theorem error_retry_forgets_search app st :
  screen app = OnHome st -> current (history app) = "/" ->
  Home.navigatedTo (Home.home_step net st Home.ClickSubmit) = Some "/error" ->
  exists app1, app_step app (HomeInput Home.ClickSubmit) = Some app1 /\
    screen app1 = OnPage ErrorP /\
    app_step app1 (Click handleRetry) =
      Some {| history := history app; screen := OnHome Home.home_initial; storage := storage app |}.
Proof.
  intros Hscr Hcur Hnav. cbn [app_step]. rewrite Hscr, Hnav.
  exists (navigate (Push "/error") app). cbn [navigate].
  rewrite enter_plain by reflexivity. split; [reflexivity|split; [reflexivity|]].
  cbn [app_step screen links]. cbn -[enter].
  rewrite enter_plain by (cbn; rewrite Hcur; reflexivity). destruct app as [[c e] scr s]; cbn in *.
  subst c. reflexivity.
Qed.

End App.

(** ** Witnesses *)


Lemma links_are_routes_witness :
  In (Push "/chat") (links (OnPage ErrorP)) /\ route "/chat" <> None /\ "/chat" <> "/results".
Proof. split; [cbn; tauto|]. apply (links_are_routes (OnPage ErrorP)). cbn; tauto. Defined.

Lemma arrive_settles_witness :
  let h := {| current := "/results"; earlier := [] |} in
  1 <= 2 /\ arrive 2 empty_storage h = arrive 1 empty_storage h /\
  snd (mount empty_storage (current (fst (arrive 2 empty_storage h)))) = None.
Proof. intros h. split; [lia|]. apply arrive_settles. lia. Defined.

Lemma results_never_shown_witness :
  reachable offline empty_storage "/results" (open empty_storage "/results") /\
  searchResult empty_storage = None /\
  screen (open empty_storage "/results") <> OnResults Results.results_initial.
Proof.
  assert (Hr : reachable offline empty_storage "/results" (open empty_storage "/results")) by constructor.
  split; [exact Hr|]. split; [reflexivity|]. exact (results_never_shown offline _ _ _ _ Hr eq_refl).
Defined.

Lemma error_retry_never_leaves_witness :
  let app := open {| searchResult := Some "{broken"; searchQuery := None; searchMode := None |} "/" in
  searchResult (storage app) = Some "{broken" /\ "{broken" <> "" /\ json_parse "{broken" = None /\
  exists app1, app_step offline app (TypeUrl "/results") = Some app1 /\
    screen app1 = OnPage ErrorP /\ current (history app1) = "/error" /\
    app_step offline app1 (Click handleRetry) = Some app1.
Proof.
  intros app. split; [reflexivity|]. split; [discriminate|]. split; [vm_compute; reflexivity|].
  apply (error_retry_never_leaves offline app "{broken"); [reflexivity|discriminate|vm_compute; reflexivity].
Defined.

Lemma error_retry_forgets_search_witness :
  let st := {| Home.mode := "tourist"; Home.userMessage := "คาเฟ่ วิวสวย"; Home.location := "18.8022,98.9525";
               Home.isLoading := false; Home.results := JNull; Home.navigatedTo := None |} in
  let app := {| history := {| current := "/"; earlier := [] |}; screen := OnHome st; storage := empty_storage |} in
  Home.navigatedTo (Home.home_step offline st Home.ClickSubmit) = Some "/error" /\
  exists app1, app_step offline app (HomeInput Home.ClickSubmit) = Some app1 /\
    screen app1 = OnPage ErrorP /\
    app_step offline app1 (Click handleRetry) =
      Some {| history := history app; screen := OnHome Home.home_initial; storage := storage app |}.
Proof.
  intros st app. split; [vm_compute; reflexivity|].
  apply (error_retry_forgets_search offline app st); [reflexivity|reflexivity|vm_compute; reflexivity].
Defined.

End Navigation.
